(** * RIT catalog helper: identifier codec, metadata parser and crawl

    A shallow embedding of [nrcatalogtools/rit.py] (classes [RITCatalog] and
    [RITCatalogHelper]) and the properties of it that the catalog
    specification states.

    Conventions of the embedding:
    - Python [str] is [string] (one [ascii] per character; the catalog's file
      names and metadata are ASCII), Python [int] is [Z], Python [float] is
      the kernel's binary64 [float];
    - a Python exception is the [Raise] branch of [result];
    - a [dict] with string keys is a [gmap string _];
    - the file system and the remote archive are an explicit [World] that the
      stateful methods thread through. *)

From Stdlib Require Import ZArith NArith List Bool Ascii String Lia.
From Stdlib Require Import DecimalString DecimalN Floats.
From stdpp Require Import gmap strings.

#[local] Open Scope string_scope.
#[local] Open Scope Z_scope.

(** stdpp freezes [String.append] for [simpl] and [cbn]; file names are built
    by appending literals, so it is unfrozen here. *)
#[local] Arguments String.append !s1 s2 : simpl nomatch.

(** Decimal literals such as [0.7] stand for the nearest binary64 value, as
    they do in Python. *)
#[local] Set Warnings "-inexact-float".

(* ===================================================================== *)
(** ** Exceptions and the error monad *)
(* ===================================================================== *)

(** The Python exception classes the modelled code can raise. *)
Inductive exn : Type :=
  | ValueError (msg : string)
  | RuntimeError (msg : string)
  | KeyError (key : string)
  | IndexError
  | TypeError
  | AttributeError
  | AssertionError
  | OverflowError
  | FileNotFoundError (path : string).

Inductive result (A : Type) : Type :=
  | Ok (a : A)
  | Raise (e : exn).
Arguments Ok {A} a.
Arguments Raise {A} e.

Definition rbind {A B : Type} (m : result A) (k : A -> result B) : result B :=
  match m with
  | Ok a => k a
  | Raise e => Raise e
  end.

Notation "'let*' x := m 'in' k" := (rbind m (fun x => k))
  (at level 10, x pattern, m at level 100, k at level 200).

(** [try: ... except Exception: ...] *)
Definition try_except {A : Type} (m : result A) (handler : A) : A :=
  match m with
  | Ok a => a
  | Raise _ => handler
  end.

Definition is_ok {A : Type} (m : result A) : bool :=
  match m with Ok _ => true | Raise _ => false end.

(* ===================================================================== *)
(** ** Python string primitives *)
(* ===================================================================== *)

Module Py.

(** The characters [str.strip()], [int()] and [float()] treat as blank. *)
Definition is_space (c : ascii) : bool :=
  let n := nat_of_ascii c in
  ((9 <=? n)%nat && (n <=? 13)%nat) || ((28 <=? n)%nat && (n <=? 32)%nat).

Definition is_digit (c : ascii) : bool :=
  let n := nat_of_ascii c in (48 <=? n)%nat && (n <=? 57)%nat.

(** [c.isalpha()] on an ASCII character. *)
Definition isalpha (c : ascii) : bool :=
  let n := nat_of_ascii c in
  ((65 <=? n)%nat && (n <=? 90)%nat) || ((97 <=? n)%nat && (n <=? 122)%nat).

Definition lower_char (c : ascii) : ascii :=
  let n := nat_of_ascii c in
  if ((65 <=? n)%nat && (n <=? 90)%nat) then ascii_of_nat (n + 32) else c.

(** [s.lower()] *)
Fixpoint lower (s : string) : string :=
  match s with
  | EmptyString => EmptyString
  | String c r => String (lower_char c) (lower r)
  end.

Fixpoint lstrip (s : string) : string :=
  match s with
  | EmptyString => EmptyString
  | String c r => if is_space c then lstrip r else s
  end.

Fixpoint rstrip (s : string) : string :=
  match s with
  | EmptyString => EmptyString
  | String c r =>
      match rstrip r with
      | EmptyString => if is_space c then EmptyString else String c EmptyString
      | r' => String c r'
      end
  end.

(** [s.strip()] *)
Definition strip (s : string) : string := rstrip (lstrip s).

(** [s[n:]] for [n >= 0] *)
Fixpoint drop (n : nat) (s : string) : string :=
  match n, s with
  | O, _ => s
  | S k, EmptyString => EmptyString
  | S k, String _ r => drop k r
  end.

(** [s[:n]] for [n >= 0] *)
Fixpoint take (n : nat) (s : string) : string :=
  match n, s with
  | O, _ => EmptyString
  | S k, EmptyString => EmptyString
  | S k, String c r => String c (take k r)
  end.

(** [s[-n:]] for [n > 0]: the last [n] characters, all of [s] when shorter. *)
Definition last_n (n : nat) (s : string) : string :=
  drop (String.length s - n) s.

(** [s[-1]]; raises [IndexError] on the empty string. *)
Fixpoint last_char (s : string) : result string :=
  match s with
  | EmptyString => Raise IndexError
  | String c EmptyString => Ok (String c EmptyString)
  | String _ r => last_char r
  end.

(** [sub in s] *)
Fixpoint contains (sub s : string) : bool :=
  if String.prefix sub s then true
  else match s with
       | EmptyString => false
       | String _ r => contains sub r
       end.

Definition cons_head (c : ascii) (l : list string) : list string :=
  match l with
  | [] => [String c EmptyString]
  | h :: t => String c h :: t
  end.

(** [s.split(sep)] for a non-empty [sep]; [skip] counts the characters of a
    separator occurrence that are still to be passed over. *)
Fixpoint split_go (sep : string) (skip : nat) (s : string) : list string :=
  match s with
  | EmptyString => [EmptyString]
  | String c r =>
      match skip with
      | S k => split_go sep k r
      | O =>
          if String.prefix sep s
          then EmptyString :: split_go sep (String.length sep - 1) r
          else cons_head c (split_go sep 0 r)
      end
  end.

Definition split (sep s : string) : list string := split_go sep 0 s.

(** [sep.join(l)] *)
Fixpoint join (sep : string) (l : list string) : string :=
  match l with
  | [] => EmptyString
  | [x] => x
  | x :: t => x ++ sep ++ join sep t
  end.

(** [l[i]]; raises [IndexError] out of range. *)
Definition index {A : Type} (l : list A) (i : nat) : result A :=
  match nth_error l i with
  | Some x => Ok x
  | None => Raise IndexError
  end.

(** *** Decimal rendering and [int()] *)

Definition dec_N (n : N) : string := NilZero.string_of_uint (N.to_uint n).

(** [str(z)], which is also [format(z, "d")]. *)
Definition dec_Z (z : Z) : string :=
  if z <? 0 then String "-" (dec_N (Z.abs_N z)) else dec_N (Z.to_N z).

(** Removes the underscores of a digit group; [None] unless every
    underscore stands between two digits and there is at least one digit. *)
Fixpoint ungroup (prev_digit : bool) (s : string) : option string :=
  match s with
  | EmptyString => if prev_digit then Some EmptyString else None
  | String c r =>
      if is_digit c then option_map (String c) (ungroup true r)
      else if (Ascii.eqb c "_" && prev_digit)%bool then
        match r with
        | EmptyString => None
        | _ => ungroup false r
        end
      else None
  end.

(** A digit group read as a number. *)
Definition digits_value (s : string) : option N :=
  match ungroup false s with
  | Some d => option_map N.of_uint (NilEmpty.uint_of_string d)
  | None => None
  end.

(** [int(s)]: blanks around, an optional sign, decimal digits. *)
Definition int (s : string) : result Z :=
  let bad := Raise (ValueError "invalid literal for int() with base 10") in
  match strip s with
  | String "-" r =>
      match digits_value r with Some n => Ok (- Z.of_N n) | None => bad end
  | String "+" r =>
      match digits_value r with Some n => Ok (Z.of_N n) | None => bad end
  | r =>
      match digits_value r with Some n => Ok (Z.of_N n) | None => bad end
  end.

(** *** [str.format] with integer fields *)

Fixpoint repeat_char (c : ascii) (n : nat) : string :=
  match n with
  | O => EmptyString
  | S k => String c (repeat_char c k)
  end.

(** Right-aligned in [width] columns, padded with blanks: [{:3d}]. *)
Definition pad_left (width : nat) (s : string) : string :=
  repeat_char " " (width - String.length s) ++ s.

(** Zero padding goes between the sign and the digits: [{:04d}]. *)
Definition zero_pad (width : nat) (z : Z) : string :=
  if z <? 0
  then String "-" (repeat_char "0" (width - 1 - String.length (dec_N (Z.abs_N z)))
                   ++ dec_N (Z.abs_N z))
  else repeat_char "0" (width - String.length (dec_N (Z.to_N z))) ++ dec_N (Z.to_N z).

(** The width of a format specification: a run of digits. *)
Definition spec_width (s : string) : option nat :=
  match s with
  | EmptyString => Some O
  | _ => match NilEmpty.uint_of_string s with
         | Some d => Some (Nat.of_uint d)
         | None => None
         end
  end.

(** One replacement field: the text between the braces, applied to an
    integer. Supported: [{}], [{:d}], [{:W}], [{:Wd}], [{:0W}], [{:0Wd}]. *)
Definition render_field (spec : string) (z : Z) : result string :=
  let bad := Raise (ValueError "Invalid format specifier") in
  match spec with
  | EmptyString => Ok (dec_Z z)
  | String ":" body =>
      let w := match last_char body with
               | Ok "d" => take (String.length body - 1) body
               | _ => body
               end in
      match w with
      | String "0" w' =>
          match spec_width w' with
          | Some n => Ok (zero_pad n z)
          | None => bad
          end
      | _ =>
          match spec_width w with
          | Some n => Ok (pad_left n (dec_Z z))
          | None => bad
          end
      end
  | _ => bad
  end.

(** [field] is [Some spec] while the scan is inside braces. *)
Fixpoint format_go (field : option string) (fmt : string) (args : list Z)
  : result string :=
  match fmt with
  | EmptyString =>
      match field with
      | None => Ok EmptyString
      | Some _ => Raise (ValueError "expected '}' before end of string")
      end
  | String c r =>
      match field with
      | None =>
          if Ascii.eqb c "{" then format_go (Some EmptyString) r args
          else let* s := format_go None r args in Ok (String c s)
      | Some spec =>
          if Ascii.eqb c "}" then
            match args with
            | [] => Raise IndexError
            | a :: args' =>
                let* f := render_field spec a in
                let* s := format_go None r args' in
                Ok (f ++ s)
            end
          else format_go (Some (spec ++ String c EmptyString)) r args
      end
  end.

(** [fmt.format( *args )] *)
Definition format (fmt : string) (args : list Z) : result string :=
  format_go None fmt args.

(** *** [float()] *)

(** The first position of a character satisfying [p], if any. *)
Fixpoint find_char (p : ascii -> bool) (s : string) : option nat :=
  match s with
  | EmptyString => None
  | String c r => if p c then Some O else option_map S (find_char p r)
  end.

(** An optional digit group: the empty text counts as no digits. *)
Definition opt_digits (s : string) : option string :=
  match s with
  | EmptyString => Some EmptyString
  | _ => ungroup false s
  end.

(** [number]: [digitpart? "." digitpart? ] with a digit on one side at
    least; the result is the digits without the point and how many of them
    stand after it. *)
Definition parse_number (s : string) : option (string * nat) :=
  match find_char (Ascii.eqb ".") s with
  | None => option_map (fun d => (d, O)) (ungroup false s)
  | Some i =>
      match opt_digits (take i s), opt_digits (drop (S i) s) with
      | Some a, Some b =>
          match a ++ b with
          | EmptyString => None
          | d => Some (d, String.length b)
          end
      | _, _ => None
      end
  end.

(** [exponent]: an optional sign and a digit group. *)
Definition parse_exponent (s : string) : option Z :=
  match s with
  | String "-" r => option_map (fun n => - Z.of_N n) (digits_value r)
  | String "+" r => option_map Z.of_N (digits_value r)
  | _ => option_map Z.of_N (digits_value s)
  end.

(** The binary64 nearest to [m * 10^e] (ties to even), through the
    library's division of integer significands. Values whose decimal
    exponent is far outside the binary64 range are settled without
    computing the power of ten. *)
Definition of_decimal (neg : bool) (m : N) (e : Z) : float :=
  match m with
  | N0 => if neg then neg_zero else zero
  | Npos _ =>
      let digits := Z.of_nat (String.length (dec_N m)) in
      if 400 <? e + digits then (if neg then neg_infinity else infinity)
      else if e + digits <? -400 then (if neg then neg_zero else zero)
      else
        let num := if 0 <=? e then Z.of_N m * 10 ^ e else Z.of_N m in
        let den := if 0 <=? e then 1 else 10 ^ (- e) in
        SF2Prim (SFdiv prec emax
                   (S754_finite neg (Z.to_pos num) 0)
                   (S754_finite false (Z.to_pos den) 0))
  end.

(** [floatnumber]: a number and an optional exponent part. *)
Definition parse_float_number (neg : bool) (s : string) : option float :=
  let is_e c := (Ascii.eqb c "e" || Ascii.eqb c "E")%bool in
  let mant := match find_char is_e s with
              | Some i => take i s
              | None => s
              end in
  let expo := match find_char is_e s with
              | Some i => parse_exponent (drop (S i) s)
              | None => Some 0
              end in
  match parse_number mant, expo with
  | Some (d, frac), Some e =>
      match NilEmpty.uint_of_string d with
      | Some u => Some (of_decimal neg (N.of_uint u) (e - Z.of_nat frac))
      | None => None
      end
  | _, _ => None
  end.

Definition float_body (neg : bool) (s : string) : option float :=
  let l := lower s in
  if (String.eqb l "inf" || String.eqb l "infinity")%bool
  then Some (if neg then neg_infinity else infinity)
  else if String.eqb l "nan" then Some nan
  else parse_float_number neg s.

(** [float(s)]: blanks around, an optional sign, then a decimal number,
    [inf], [infinity] or [nan]. *)
Definition float (s : string) : result PrimFloat.float :=
  let r := match strip s with
           | String "-" r => float_body true r
           | String "+" r => float_body false r
           | r => float_body false r
           end in
  match r with
  | Some f => Ok f
  | None => Raise (ValueError "could not convert string to float")
  end.

End Py.


(* ===================================================================== *)
(** ** The helper object and the identifier codec *)
(* ===================================================================== *)

(** The configuration [RITCatalogHelper.__init__] copies out of
    [utils.rit_catalog_info]. *)
Record RITCatalogHelper : Type := {
  verbosity : Z;
  use_cache : bool;
  metadata_url : string;
  metadata_file_fmts : list string;
  metadata_dir : string;
  psi4_data_url : string;
  psi4_file_fmts : list string;
  waveform_data_url : string;
  data_dir : string;
  possible_res : list Z;
  max_id_val : Z
}.

Definition psi4_data_dir (h : RITCatalogHelper) : string := data_dir h.
Definition waveform_data_dir (h : RITCatalogHelper) : string := data_dir h.

(** [pathlib]'s [dir / name] followed by [str]. *)
Definition path_join (dir name : string) : string := dir ++ "/" ++ name.

(** [os.path.basename] *)
Definition basename (path : string) : string :=
  List.last (Py.split "/" path) EmptyString.

(* rit.py, lines 275-279 *)
Definition metadata_filenames (h : RITCatalogHelper) (idx res id_val : Z)
  : result (list string) :=
  let* f0 := Py.index (metadata_file_fmts h) 0 in
  let* n0 := Py.format f0 [idx; res; id_val] in
  let* f1 := Py.index (metadata_file_fmts h) 1 in
  let* n1 := Py.format f1 [idx; res] in
  Ok [n0; n1].

(* rit.py, lines 281-299 *)
Definition sim_info_from_metadata_filename (file_name : string)
  : result (Z * Z * Z) :=
  let parts := Py.split "-" file_name in
  let* p0 := Py.index parts 0 in
  let* sim_number := Py.int (Py.last_n 4 p0) in
  let* p1 := Py.index parts 1 in
  let* res_number := Py.int (Py.drop 1 p1) in
  let id_val :=
    try_except
      (let* p2 := Py.index parts 2 in
       let* q := Py.index (Py.split "_" p2) 0 in
       Py.int (Py.drop 2 q))
      (-1) in
  Ok (sim_number, res_number, id_val).

(* rit.py, lines 301-311 *)
Definition simname_from_metadata_filename (filename : string) : string :=
  match Py.split "_Meta" filename with
  | x :: _ => x
  | [] => EmptyString
  end.

(* rit.py, lines 319-321, 348-350, 369-371 *)
(** The part of the three [..._from_simname] methods they share:
    [txt], [idx] and [res]. *)
Definition simname_fields (sim_name : string) : result (string * Z * Z) :=
  let txt := List.last (Py.split ":" sim_name) EmptyString in
  let* idx := Py.int (Py.take 4 txt) in
  let* p1 := Py.index (Py.split "-" txt) 1 in
  let* res := Py.int (Py.drop 1 p1) in
  Ok (txt, idx, res).

(* rit.py, lines 313-327, 342-356 *)
Definition filename_from_simname (fmts : list string) (sim_name : string)
  : result string :=
  let* (txt, idx, res) := simname_fields sim_name in
  if negb (Py.contains "eBBH" sim_name) then
    let* c := Py.last_char txt in
    let* id_val := Py.int c in
    let* f0 := Py.index fmts 0 in
    Py.format f0 [idx; res; id_val]
  else
    let* f1 := Py.index fmts 1 in
    Py.format f1 [idx; res].

Definition metadata_filename_from_simname (h : RITCatalogHelper) :=
  filename_from_simname (metadata_file_fmts h).

Definition psi4_filename_from_simname (h : RITCatalogHelper) :=
  filename_from_simname (psi4_file_fmts h).

(* rit.py, lines 363-389 *)
Definition waveform_filename_from_simname (h : RITCatalogHelper)
  (sim_name : string) : result string :=
  let* (txt, idx, res) := simname_fields sim_name in
  let quasi :=
    let* c := Py.last_char txt in
    let* id_val := Py.int c in
    let* f0 := Py.index (metadata_file_fmts h) 0 in
    Py.format f0 [idx; res; id_val] in
  let* mf :=
    match quasi with
    | Ok mf => Ok mf
    | Raise _ =>
        let* f1 := Py.index (metadata_file_fmts h) 1 in
        Py.format f1 [idx; res]
    end in
  let parts := Py.split ":" mf in
  let* p0 := Py.index parts 0 in
  let* p1 := Py.index parts 1 in
  let* p2 := Py.index parts 2 in
  let* stem := Py.index (Py.split "_" p2) 0 in
  let* a := Py.index (Py.split "-" stem) 0 in
  let* b := Py.index (Py.split "-" stem) 1 in
  Ok ("ExtrapStrain_" ++ p0 ++ "-" ++ p1 ++ "-" ++ a ++ "-" ++ b ++ ".h5").

(* rit.py, lines 410-414 *)
Definition simnames (h : RITCatalogHelper) (idx res id_val : Z)
  : result (list string) :=
  let* mfs := metadata_filenames h idx res id_val in
  Ok (map simname_from_metadata_filename mfs).

Definition simtag (fmt : string) (idx : Z) : result string :=
  let* stem := Py.index (Py.split "-" fmt) 0 in
  Py.format stem [idx].

(* rit.py, lines 416-420 *)
Definition simtags (h : RITCatalogHelper) (idx : Z) : result (list string) :=
  let* f0 := Py.index (metadata_file_fmts h) 0 in
  let* t0 := simtag f0 idx in
  let* f1 := Py.index (metadata_file_fmts h) 1 in
  let* t1 := simtag f1 idx in
  Ok [t0; t1].

(** Modelled from the spec: the two metadata file name templates of
    [utils.rit_catalog_info] (the module is not part of the sources). The
    logical names are [RIT:BBH:{idx:04d}-n{res}-id{id}] and
    [RIT:eBBH:{idx:04d}-n{res}-ecc], and the metadata file name is the
    logical name followed by the suffix [_Metadata.txt]. *)
Definition rit_metadata_file_fmts : list string :=
  [ "RIT:BBH:{:04d}-n{:d}-id{:d}_Metadata.txt";
    "RIT:eBBH:{:04d}-n{:d}-ecc_Metadata.txt" ].

(** The same templates with the resolution right-aligned in three columns,
    a variant the codec has to read back as well. *)
Definition rit_metadata_file_fmts_padded : list string :=
  [ "RIT:BBH:{:04d}-n{:3d}-id{:d}_Metadata.txt";
    "RIT:eBBH:{:04d}-n{:3d}-ecc_Metadata.txt" ].

Definition rit_psi4_file_fmts : list string :=
  [ "ExtrapPsi4_RIT-BBH-{:04d}-n{:d}-id{:d}.tar.gz";
    "ExtrapPsi4_RIT-eBBH-{:04d}-n{:d}-ecc.tar.gz" ].

(** A helper over a cache rooted at [cache_dir]. *)
Definition rit_helper (cache_dir : string) (verb : Z) (cache : bool)
  (res : list Z) (max_id : Z) : RITCatalogHelper :=
  {| verbosity := verb;
     use_cache := cache;
     metadata_url := "https://ccrgpages.rit.edu/~RITCatalog/Metadata";
     metadata_file_fmts := rit_metadata_file_fmts;
     metadata_dir := path_join cache_dir "metadata";
     psi4_data_url := "https://ccrgpages.rit.edu/~RITCatalog/Data";
     psi4_file_fmts := rit_psi4_file_fmts;
     waveform_data_url := "https://ccrgpages.rit.edu/~RITCatalog/Data";
     data_dir := path_join cache_dir "data";
     possible_res := res;
     max_id_val := max_id |}.

(* ===================================================================== *)
(** ** The metadata text parser *)
(* ===================================================================== *)

(** What a parsed field holds: [float(...)] or [str(...)]. *)
Inductive value : Type :=
  | VFloat (f : float)
  | VStr (s : string).

Definition is_float (v : value) : bool :=
  match v with VFloat _ => true | VStr _ => false end.

Definition derived_fields : list string :=
  [ "freq-start-22";
    "freq-start-22-Hz-1Msun";
    "number-of-cycles-22";
    "number-of-orbits";
    "peak-omega-22";
    "peak-ampl-22";
    "Msun";
    "eccentricity" ].

(** [xy in opts] *)
Definition mem (k : string) (opts : gmap string value) : bool :=
  bool_decide (is_Some (opts !! k)).

(* rit.py, lines 442 *)
(** [len(s) > 0 and s[0].isalpha()] *)
Definition keeps_line (s : string) : bool :=
  match s with
  | EmptyString => false
  | String c _ => Py.isalpha c
  end.

(** [kv[0].strip()] and ["=".join(kv[1:]).strip()] for [kv = s.split("=")]. *)
Definition line_key (s : string) : string :=
  match Py.split "=" s with
  | k :: _ => Py.strip k
  | [] => EmptyString
  end.

Definition line_text (s : string) : string :=
  Py.strip (Py.join "=" (List.tl (Py.split "=" s))).

(** The [for xy in derived_fields] loop of the [except] branch: the first
    field equal to the key and not yet set is set to [0.0]. *)
Fixpoint default_derived (key : string) (opts : gmap string value)
  (fields : list string) : option (gmap string value) :=
  match fields with
  | [] => None
  | xy :: rest =>
      if (String.eqb key xy && negb (mem xy opts))%bool
      then Some (<[xy := VFloat 0]> opts)
      else default_derived key opts rest
  end.

(* rit.py, lines 444-458 *)
(** One iteration of [for s in nxt]. *)
Definition parse_line (opts : gmap string value) (s : string)
  : gmap string value :=
  match Py.float (line_text s) with
  | Ok f => <[line_key s := VFloat f]> opts
  | Raise _ =>
      match default_derived (line_key s) opts derived_fields with
      | Some opts' => opts'
      | None => <[line_key s := VStr (line_text s)]> opts
      end
  end.

Definition parse_lines (nxt : list string) : gmap string value :=
  fold_left parse_line nxt ∅.

(** [opts["system-type"].lower()]: [KeyError] when the key is missing,
    [AttributeError] when the value is a float. *)
Definition system_type_lower (opts : gmap string value) : result string :=
  match opts !! "system-type" with
  | None => Raise (KeyError "system-type")
  | Some (VFloat _) => Raise AttributeError
  | Some (VStr s) => Ok (Py.lower s)
  end.

(** The condition [opts["system-type"].lower() == "aligned" or
    opts["system-type"].lower() == "nonspinning"]. *)
Definition aligned_or_nonspinning (opts : gmap string value) : result bool :=
  let* a := system_type_lower opts in
  if String.eqb a "aligned" then Ok true
  else let* b := system_type_lower opts in Ok (String.eqb b "nonspinning").

(** [for xy in [x, y]: if xy not in opts and (...): opts[xy] = 0.0] *)
Fixpoint zero_components (comps : list string) (opts : gmap string value)
  : result (gmap string value) :=
  match comps with
  | [] => Ok opts
  | xy :: rest =>
      if negb (mem xy opts) then
        let* c := aligned_or_nonspinning opts in
        zero_components rest (if c then <[xy := VFloat 0]> opts else opts)
      else zero_components rest opts
  end.

(** [if z in opts: for xy in [x, y]: ...] *)
Definition complete_spin (z : string) (comps : list string)
  (opts : gmap string value) : result (gmap string value) :=
  if mem z opts then zero_components comps opts else Ok opts.

(* rit.py, lines 462-490 *)
Definition spin_completion (opts : gmap string value)
  : result (gmap string value) :=
  let* o1 := complete_spin "relaxed-chi1z" ["relaxed-chi1x"; "relaxed-chi1y"] opts in
  let* o2 := complete_spin "relaxed-chi2z" ["relaxed-chi2x"; "relaxed-chi2y"] o1 in
  let* o3 := complete_spin "initial-bh-chi1z"
               ["initial-bh-chi1x"; "initial-bh-chi1y"] o2 in
  complete_spin "initial-bh-chi2z" ["initial-bh-chi2x"; "initial-bh-chi2y"] o3.

(** [opts[k]] *)
Definition getitem (opts : gmap string value) (k : string) : result value :=
  match opts !! k with
  | Some v => Ok v
  | None => Raise (KeyError k)
  end.

(** [v / 2.0] and [v * 2.0]: a [TypeError] on a string. *)
Definition halve (v : value) : result value :=
  match v with
  | VFloat f => Ok (VFloat (f / 2)%float)
  | VStr _ => Raise TypeError
  end.

Definition double (v : value) : result value :=
  match v with
  | VFloat f => Ok (VFloat (f * 2)%float)
  | VStr _ => Raise TypeError
  end.

(** [v == 0.0]; a string is never equal to a float. *)
Definition eq_zero (v : value) : bool :=
  match v with
  | VFloat f => (f =? 0)%float
  | VStr _ => false
  end.

(* rit.py, lines 494-504 *)
(** [if src in opts: if dst not in opts: opts[dst] = op(opts[src]);
    if opts[dst] == 0.0: opts[dst] = op(opts[src])] *)
Definition derive_from (src dst : string) (op : value -> result value)
  (opts : gmap string value) : result (gmap string value) :=
  if mem src opts then
    let* o1 :=
      if negb (mem dst opts) then
        let* v := getitem opts src in
        let* w := op v in
        Ok (<[dst := w]> opts)
      else Ok opts in
    let* d := getitem o1 dst in
    if eq_zero d then
      let* v := getitem o1 src in
      let* w := op v in
      Ok (<[dst := w]> o1)
    else Ok o1
  else Ok opts.

Definition cycles_to_orbits :=
  derive_from "number-of-cycles-22" "number-of-orbits" halve.

Definition orbits_to_cycles :=
  derive_from "number-of-orbits" "number-of-cycles-22" double.

(* rit.py, lines 506-508 *)
(** [for xy in derived_fields: if xy not in opts: opts[xy] = 0.0] *)
Definition fill_derived (opts : gmap string value) : gmap string value :=
  fold_left (fun o xy => if negb (mem xy o) then <[xy := VFloat 0]> o else o)
            derived_fields opts.

(* rit.py, lines 422-510 *)
Definition parse_metadata_txt (raw : list string)
  : result (list string * gmap string value) :=
  let nxt := List.filter keeps_line raw in
  let opts := parse_lines nxt in
  let* opts := spin_completion opts in
  let* opts := cycles_to_orbits opts in
  let* opts := orbits_to_cycles opts in
  Ok (nxt, fill_derived opts).

(** [parse_metadata_txt(raw)[1].get(k)], for reading one field of a run. *)
Definition parsed_field (raw : list string) (k : string)
  : result (option value) :=
  let* r := parse_metadata_txt raw in Ok (snd r !! k).

(* ===================================================================== *)
(** ** The file system, the remote archive and the helper's state *)
(* ===================================================================== *)

(** A network call the helper makes: [utils.url_exists(url)] or
    [utils.download_file(url, path)]. *)
Inductive net_event : Type :=
  | Probe (url : string)
  | Fetch (url : string).

Definition event_url (e : net_event) : string :=
  match e with Probe u => u | Fetch u => u end.

(** Everything outside the Python process that the helper reads or writes,
    and the two attributes of the helper that it mutates. A file is the list
    of its lines; [files] is in directory-listing order, which is the order
    [glob.glob] returns matches in. [snapshot] is [metadata.csv]: [Some df]
    when the file exists, is not empty and reads back as [df]. A table is
    the list of its rows, a row the mapping from column name to value. *)
Record World : Type := {
  files : list (string * list string);
  snapshot : option (list (gmap string value));
  remote : list (string * list string);
  net_log : list net_event;
  helper_metadata : list (gmap string value);
  num_of_sims : Z
}.

(** Computations that read and write the world and may raise. *)
Definition M (A : Type) : Type := World -> result A * World.

Definition ret {A : Type} (a : A) : M A := fun w => (Ok a, w).

Definition raise {A : Type} (e : exn) : M A := fun w => (Raise e, w).

Definition lift {A : Type} (r : result A) : M A := fun w => (r, w).

Definition bind {A B : Type} (m : M A) (k : A -> M B) : M B :=
  fun w =>
    match m w with
    | (Ok a, w') => k a w'
    | (Raise e, w') => (Raise e, w')
    end.

Notation "'let!' x := m 'in' k" := (bind m (fun x => k))
  (at level 10, x pattern, m at level 100, k at level 200).

Fixpoint assoc {A : Type} (k : string) (l : list (string * A)) : option A :=
  match l with
  | [] => None
  | (k', v) :: rest => if String.eqb k k' then Some v else assoc k rest
  end.

(** Replaces the file at [path], or adds it at the end of the listing. *)
Fixpoint write_file (path : string) (lines : list string)
  (l : list (string * list string)) : list (string * list string) :=
  match l with
  | [] => [(path, lines)]
  | (p, c) :: rest =>
      if String.eqb path p then (path, lines) :: rest
      else (p, c) :: write_file path lines rest
  end.

(** [os.path.exists(path)] *)
Definition path_exists (path : string) : M bool :=
  fun w => (Ok (bool_decide (is_Some (assoc path (files w)))), w).

(** [os.path.exists(path) and os.path.getsize(path) > 0] *)
Definition exists_nonempty (path : string) : M bool :=
  fun w => (Ok match assoc path (files w) with
               | Some (_ :: _) => true
               | _ => false
               end, w).

(** [open(path).readlines()] *)
Definition readlines (path : string) : M (list string) :=
  fun w => (match assoc path (files w) with
            | Some lines => Ok lines
            | None => Raise (FileNotFoundError path)
            end, w).

(** [glob.glob(prefix + "*")]: the paths that start with [prefix] and have
    no further directory separator, in listing order. *)
Definition glob_prefix (prefix : string) : M (list string) :=
  fun w =>
    (Ok (List.filter
           (fun p => String.prefix prefix p
                     && negb (Py.contains "/" (Py.drop (String.length prefix) p)))
           (map fst (files w))), w).

(** A network call is appended to the log. *)
Definition log_event (e : net_event) (w : World) : World :=
  {| files := files w; snapshot := snapshot w; remote := remote w;
     net_log := net_log w ++ [e];
     helper_metadata := helper_metadata w; num_of_sims := num_of_sims w |}.

Definition with_files (fs : list (string * list string)) (w : World) : World :=
  {| files := fs; snapshot := snapshot w; remote := remote w;
     net_log := net_log w;
     helper_metadata := helper_metadata w; num_of_sims := num_of_sims w |}.

Definition with_snapshot (df : list (gmap string value)) (w : World) : World :=
  {| files := files w; snapshot := Some df; remote := remote w;
     net_log := net_log w;
     helper_metadata := helper_metadata w; num_of_sims := num_of_sims w |}.

Definition with_metadata (df : list (gmap string value)) (w : World) : World :=
  {| files := files w; snapshot := snapshot w; remote := remote w;
     net_log := net_log w;
     helper_metadata := df; num_of_sims := num_of_sims w |}.

Definition with_num_of_sims (n : Z) (w : World) : World :=
  {| files := files w; snapshot := snapshot w; remote := remote w;
     net_log := net_log w;
     helper_metadata := helper_metadata w; num_of_sims := n |}.

(** Modelled from the spec: [utils.url_exists], the existence check of the
    Downloader collaborator (the module [utils] is not part of the sources):
    whether the remote archive holds the URL. The call is logged. *)
Definition url_exists (url : string) : M bool :=
  fun w =>
    (Ok (bool_decide (is_Some (assoc url (remote w)))),
     log_event (Probe url) w).

(** Modelled from the spec: [utils.download_file], the fetch of the
    Downloader collaborator: the remote payload is written to [path]; a URL
    the archive does not hold writes nothing. The call is logged. *)
Definition download_file (url path : string) : M unit :=
  fun w =>
    (Ok tt,
     with_files match assoc url (remote w) with
                | Some lines => write_file path lines (files w)
                | None => files w
                end
                (log_event (Fetch url) w)).

(** [self.metadata = df] *)
Definition set_metadata (df : list (gmap string value)) : M unit :=
  fun w => (Ok tt, with_metadata df w).

Definition get_metadata_df : M (list (gmap string value)) :=
  fun w => (Ok (helper_metadata w), w).

(** [self.num_of_sims = n] *)
Definition set_num_of_sims (n : Z) : M unit :=
  fun w => (Ok tt, with_num_of_sims n w).

(** Modelled from the spec: reading the tabular snapshot ([pd.read_csv] of
    [metadata.csv], guarded by [os.path.exists] and [os.path.getsize > 0]);
    the CSV mechanics are an external collaborator. *)
Definition snapshot_on_disk : M (option (list (gmap string value))) :=
  fun w => (Ok (snapshot w), w).

(** Modelled from the spec: writing the tabular snapshot ([to_csv] of a
    table into [metadata.csv]), which overwrites the prior content. *)
Definition write_snapshot (df : list (gmap string value)) : M unit :=
  fun w => (Ok tt, with_snapshot df w).

(* ===================================================================== *)
(** ** Cache lookups *)
(* ===================================================================== *)

(* rit.py, lines 329-340 *)
(** The loop of [metadata_filename_from_cache]: every tag is scanned, and a
    tag with matches overwrites [file_name]. *)
Fixpoint metadata_filename_scan (h : RITCatalogHelper) (tags : list string)
  (file_name : string) : M string :=
  match tags with
  | [] => ret file_name
  | sim_tag :: rest =>
      let mf := path_join (metadata_dir h) sim_tag in
      let! poss_files := glob_prefix mf in
      match poss_files with
      | [] => metadata_filename_scan h rest file_name
      | f :: _ => metadata_filename_scan h rest f
      end
  end.

Definition metadata_filename_from_cache (h : RITCatalogHelper) (idx : Z)
  : M string :=
  let! possible_sim_tags := lift (simtags h idx) in
  metadata_filename_scan h possible_sim_tags EmptyString.

(* rit.py, lines 396-408 *)
(** The loop of [simname_from_cache]: the first tag with matches returns. *)
Fixpoint simname_scan (h : RITCatalogHelper) (tags : list string) : M string :=
  match tags with
  | [] => ret EmptyString
  | sim_tag :: rest =>
      let mf := path_join (metadata_dir h) sim_tag in
      let! poss_files := glob_prefix mf in
      match poss_files with
      | [] => simname_scan h rest
      | file_path :: _ =>
          ret (simname_from_metadata_filename (basename file_path))
      end
  end.

Definition simname_from_cache (h : RITCatalogHelper) (idx : Z) : M string :=
  let! possible_sim_tags := lift (simtags h idx) in
  simname_scan h possible_sim_tags.

(* rit.py, lines 358-361 *)
Definition psi4_filename_from_cache (h : RITCatalogHelper) (idx : Z)
  : M string :=
  let! f := metadata_filename_from_cache h idx in
  lift (psi4_filename_from_simname h (simname_from_metadata_filename f)).

(* rit.py, lines 391-394 *)
Definition waveform_filename_from_cache (h : RITCatalogHelper) (idx : Z)
  : M string :=
  let! f := metadata_filename_from_cache h idx in
  lift (waveform_filename_from_simname h (simname_from_metadata_filename f)).

(* rit.py, lines 526-529 *)
Definition metadata_from_file (file_path : string)
  : M (list string * gmap string value) :=
  let! lines := readlines file_path in
  lift (parse_metadata_txt lines).

(* rit.py, lines 550-572, 624-646 *)
(** The seven link and location columns added to a parsed record. *)
Definition with_links (h : RITCatalogHelper) (metadata_dict : gmap string value)
  (sim_name file_path_web location psi4_web wf_web : string)
  : result (gmap string value) :=
  let d := <["simulation_name" := VStr sim_name]> metadata_dict in
  let d := <["metadata_link" := VStr file_path_web]> d in
  let d := <["metadata_location" := VStr location]> d in
  let d := <["psi4_data_link" := VStr psi4_web]> d in
  let* psi4 := psi4_filename_from_simname h sim_name in
  let d := <["psi4_data_location" := VStr (path_join (psi4_data_dir h) psi4)]> d in
  let d := <["waveform_data_link" := VStr wf_web]> d in
  let* wf := waveform_filename_from_simname h sim_name in
  Ok (<["waveform_data_location" := VStr (path_join (waveform_data_dir h) wf)]> d).

(* rit.py, lines 531-574 *)
(** The loop of [metadata_from_cache]. *)
Fixpoint metadata_from_cache_scan (h : RITCatalogHelper) (idx : Z)
  (tags : list string) : M (list (gmap string value)) :=
  match tags with
  | [] => ret []
  | sim_tag :: rest =>
      let mf := path_join (metadata_dir h) sim_tag in
      let! poss_files := glob_prefix mf in
      match poss_files with
      | [] => metadata_from_cache_scan h idx rest
      | file_path :: _ =>
          let file_name := basename file_path in
          let file_path_web := metadata_url h ++ "/" ++ file_name in
          let! psi4_file_name := psi4_filename_from_cache h idx in
          let psi4_file_path_web := psi4_data_url h ++ "/" ++ psi4_file_name in
          let! wf_file_name := waveform_filename_from_cache h idx in
          let wf_file_path_web := waveform_data_url h ++ "/" ++ wf_file_name in
          let! (_, metadata_dict) := metadata_from_file file_path in
          if (0 <? size metadata_dict)%nat then
            let! row := lift (with_links h metadata_dict
                                (simname_from_metadata_filename file_name)
                                file_path_web file_path
                                psi4_file_path_web wf_file_path_web) in
            ret [row]
          else metadata_from_cache_scan h idx rest
      end
  end.

Definition metadata_from_cache (h : RITCatalogHelper) (idx : Z)
  : M (list (gmap string value)) :=
  let! possible_sim_tags := lift (simtags h idx) in
  metadata_from_cache_scan h idx possible_sim_tags.

(* ===================================================================== *)
(** ** Remote fetch of one candidate *)
(* ===================================================================== *)

(* rit.py, lines 512-515 *)
(** [metadata_from_link(link, save_to=mf)] *)
Definition metadata_from_link (link save_to : string)
  : M (list string * gmap string value) :=
  let! _ := download_file link save_to in
  metadata_from_file save_to.

(* rit.py, lines 576-649 *)
(** The loop of [download_metadata] over the two candidate file names;
    [metadata_dict] is the dictionary the loop carries. *)
Fixpoint download_metadata_scan (h : RITCatalogHelper)
  (names : list string) (metadata_dict : gmap string value)
  : M (gmap string value) :=
  match names with
  | [] => ret metadata_dict
  | file_name :: rest =>
      let file_path_web := metadata_url h ++ "/" ++ file_name in
      let mf := path_join (metadata_dir h) file_name in
      let! on_web := url_exists file_path_web in
      if negb on_web then download_metadata_scan h rest metadata_dict
      else
        let! metadata_dict :=
          if use_cache h then
            let! cached := exists_nonempty mf in
            if cached then
              let! (_, d) := metadata_from_file mf in ret d
            else ret metadata_dict
          else ret metadata_dict in
        let! fetched :=
          if (size metadata_dict =? 0)%nat then
            let! on_web := url_exists file_path_web in
            if on_web then
              let! (_, d) := metadata_from_link file_path_web mf in
              ret (Some d)
            else ret None
          else ret (Some metadata_dict) in
        match fetched with
        | None => download_metadata_scan h rest metadata_dict
        | Some metadata_dict =>
            let sim_name := simname_from_metadata_filename file_name in
            let! psi4_file_name := lift (psi4_filename_from_simname h sim_name) in
            let psi4_file_path_web := psi4_data_url h ++ "/" ++ psi4_file_name in
            let! wf_file_name := lift (waveform_filename_from_simname h sim_name) in
            let wf_file_path_web := waveform_data_url h ++ "/" ++ wf_file_name in
            if (0 <? size metadata_dict)%nat then
              lift (with_links h metadata_dict sim_name file_path_web mf
                      psi4_file_path_web wf_file_path_web)
            else download_metadata_scan h rest metadata_dict
        end
  end.

(** [pd.DataFrame.from_dict(metadata_dict)]: no row for the empty
    dictionary, one row otherwise. *)
Definition frame_of_dict (d : gmap string value) : list (gmap string value) :=
  if (size d =? 0)%nat then [] else [d].

Definition download_metadata (h : RITCatalogHelper) (idx res id_val : Z)
  : M (list (gmap string value)) :=
  let! possible_file_names := lift (metadata_filenames h idx res id_val) in
  let! metadata_dict := download_metadata_scan h possible_file_names ∅ in
  ret (frame_of_dict metadata_dict).

(* ===================================================================== *)
(** ** The crawl *)
(* ===================================================================== *)

(** [row["simulation_name"]], which the callers go on to use as a string
    (names are logical simulation names; a cell that holds a number is not
    accepted as one). *)
Definition row_name (row : gmap string value) : result string :=
  match row !! "simulation_name" with
  | None => Raise (KeyError "simulation_name")
  | Some (VStr s) => Ok s
  | Some (VFloat _) => Raise TypeError
  end.

(* rit.py, line 724 *)
(** [pd.DataFrame.from_dict(row.to_dict(), index=[0])]: the parameters of
    [DataFrame.from_dict] are [data], [orient], [dtype] and [columns]; the
    keyword [index] is not one of them, and Python refuses the call with a
    [TypeError]. *)
Definition from_dict_with_index (row : gmap string value)
  : result (list (gmap string value)) :=
  Raise TypeError.

(* rit.py, lines 706-725 *)
(** The inner loop of the second tier, [for sim_tag in possible_sim_tags],
    for one row: at the first tag contained in the name the decoded index is
    asserted to be the one searched for, the row is made a table, and the
    loop over the tags is left. *)
Fixpoint match_row_tags (idx : Z) (name : string) (row : gmap string value)
  (tags : list string) (acc : option (list (gmap string value)))
  : result (option (list (gmap string value))) :=
  match tags with
  | [] => Ok acc
  | sim_tag :: rest =>
      if Py.contains sim_tag name then
        let* (f_idx, _, _) := sim_info_from_metadata_filename name in
        if f_idx =? idx then
          let* sim_data := from_dict_with_index row in
          Ok (Some sim_data)
        else Raise AssertionError
      else match_row_tags idx name row rest acc
  end.

(* rit.py, lines 701-725 *)
(** The second tier: [for _, row in sims.iterrows()]; every row is visited,
    and a later matching row replaces [sim_data]. *)
Fixpoint scan_dataframe (idx : Z) (tags : list string)
  (sims : list (gmap string value))
  (acc : option (list (gmap string value)))
  : result (option (list (gmap string value))) :=
  match sims with
  | [] => Ok acc
  | row :: rest =>
      let* name := row_name row in
      let* acc := match_row_tags idx name row tags acc in
      scan_dataframe idx tags rest acc
  end.

(** [range(n)] *)
Definition range (n : Z) : list Z := map Z.of_nat (seq 0 (Z.to_nat n)).

(** [range(1, 1 + n)] *)
Definition range1 (n : Z) : list Z := map Z.of_nat (seq 1 (Z.to_nat n)).

(* rit.py, lines 730-748 *)
(** The third tier's inner loop, [for id_val in range(max_id_in_name)]. *)
Fixpoint probe_ids (h : RITCatalogHelper) (idx res : Z) (ids : list Z)
  : M (option (list (gmap string value))) :=
  match ids with
  | [] => ret None
  | id_val :: rest =>
      let! sim_data := download_metadata h idx res id_val in
      if (0 <? length sim_data)%nat then ret (Some sim_data)
      else probe_ids h idx res rest
  end.

(* rit.py, lines 728-751 *)
(** The third tier's outer loop over [possible_res[::-1]], given reversed:
    [if found: break] after the first resolution with a hit. *)
Fixpoint probe_resolutions (h : RITCatalogHelper) (idx : Z)
  (reversed_res : list Z) (max_id_in_name : Z)
  : M (option (list (gmap string value))) :=
  match reversed_res with
  | [] => ret None
  | res :: rest =>
      let! hit := probe_ids h idx res (range max_id_in_name) in
      match hit with
      | Some sim_data => ret (Some sim_data)
      | None => probe_resolutions h idx rest max_id_in_name
      end
  end.

(** "Fetch metadata the hard way". *)
Definition remote_search (h : RITCatalogHelper) (idx : Z)
  (possible_res : list Z) (max_id_in_name : Z)
  : M (option (list (gmap string value))) :=
  probe_resolutions h idx (rev possible_res) max_id_in_name.

(* rit.py, lines 765-772 *)
Definition write_metadata_df_to_disk : M unit :=
  let! df := get_metadata_df in write_snapshot df.

(* rit.py, lines 683-760 *)
(** One iteration of [for idx in range(1, 1 + num_sims_to_crawl)]; the
    result is the table [sims] after it. *)
Definition crawl_step (h : RITCatalogHelper) (possible_res : list Z)
  (max_id_in_name : Z) (sims : list (gmap string value)) (idx : Z)
  : M (list (gmap string value)) :=
  let! possible_sim_tags := lift (simtags h idx) in
  (* first tier: a metadata file on disk *)
  let! found :=
    if use_cache h then
      let! sim_data := metadata_from_cache h idx in
      ret (if (0 <? length sim_data)%nat then Some sim_data else None)
    else ret None in
  (* second tier: the table built so far *)
  let! found :=
    match found with
    | Some _ => ret found
    | None =>
        if (0 <? length sims)%nat then
          lift (scan_dataframe idx possible_sim_tags sims None)
        else ret None
    end in
  (* third tier: the remote archive *)
  let! found :=
    match found with
    | Some _ => ret found
    | None => remote_search h idx possible_res max_id_in_name
    end in
  let sims := match found with
              | Some sim_data => (sims ++ sim_data)%list
              | None => sims
              end in
  let! _ := set_metadata sims in
  let! _ := if use_cache h then write_metadata_df_to_disk else ret tt in
  ret sims.

Fixpoint crawl (h : RITCatalogHelper) (possible_res : list Z)
  (max_id_in_name : Z) (sims : list (gmap string value)) (idxs : list Z)
  : M (list (gmap string value)) :=
  match idxs with
  | [] => ret sims
  | idx :: rest =>
      let! sims := crawl_step h possible_res max_id_in_name sims idx in
      crawl h possible_res max_id_in_name sims rest
  end.

(** [l[:n]], for a negative [n] as well. *)
Definition slice_to {A : Type} (n : Z) (l : list A) : list A :=
  if 0 <=? n then firstn (Z.to_nat n) l
  else firstn (length l - Z.to_nat (- n)) l.

(* rit.py, lines 651-763 *)
Definition download_metadata_for_catalog (h : RITCatalogHelper)
  (num_sims_to_crawl : Z) (resolutions : list Z) (max_id_in_name : Z)
  : M (list (gmap string value)) :=
  let possible_res :=
    match resolutions with [] => possible_res h | _ => resolutions end in
  let max_id_in_name :=
    if max_id_in_name <=? 0 then max_id_val h else max_id_in_name in
  let run sims :=
    let! sims := crawl h possible_res max_id_in_name sims
                   (range1 num_sims_to_crawl) in
    let! _ := set_num_of_sims (Z.of_nat (length sims)) in
    get_metadata_df in
  if use_cache h then
    let! on_disk := snapshot_on_disk in
    match on_disk with
    | Some df =>
        let! _ := set_metadata df in
        if num_sims_to_crawl - 1 <=? Z.of_nat (length df)
        then ret (slice_to (num_sims_to_crawl - 1) df)
        else run df
    | None => run []
    end
  else run [].

(* rit.py, lines 776-781 *)
(** The loop of [refresh_metadata_df_on_disk]; [sims] is [None] while it is
    still the initial Python list. *)
Fixpoint refresh_scan (h : RITCatalogHelper) (idxs : list Z)
  (sims : option (list (gmap string value)))
  : M (option (list (gmap string value))) :=
  match idxs with
  | [] => ret sims
  | idx :: rest =>
      let! sim_data := metadata_from_cache h idx in
      let sims :=
        match sims with
        | None | Some [] => sim_data
        | Some s => (s ++ sim_data)%list
        end in
      refresh_scan h rest (Some sims)
  end.

(* rit.py, lines 774-787 *)
Definition refresh_metadata_df_on_disk (h : RITCatalogHelper)
  (num_sims_to_crawl : Z) : M (list (gmap string value)) :=
  let! sims := refresh_scan h (range1 num_sims_to_crawl) None in
  match sims with
  | None => raise AttributeError  (* a list has no [reset_index] *)
  | Some sims =>
      let! _ := write_snapshot sims in
      let! _ := set_metadata sims in
      get_metadata_df
  end.

(* rit.py, lines 789-795 *)
Definition read_metadata_df_from_disk : M (list (gmap string value)) :=
  let! on_disk := snapshot_on_disk in
  let! _ := set_metadata (match on_disk with Some df => df | None => [] end) in
  get_metadata_df.

(* ===================================================================== *)
(** ** The catalog *)
(* ===================================================================== *)

(** An [int] as the [float] Python converts it to in mixed arithmetic: the
    binary64 nearest to it (ties to even), for an integer of any size;
    [OverflowError] when that is beyond the largest finite binary64. *)
Definition float_of_Z (z : Z) : result float :=
  let f := SF2Prim (binary_normalize prec emax z 0 false) in
  if PrimFloat.is_infinity f then Raise OverflowError else Ok f.

(** [n < x] for an [int] and a [float]: Python compares the two values
    exactly, without rounding the integer to a float. *)
Definition int_lt_float (n : Z) (x : float) : bool :=
  match Prim2SF x with
  | S754_nan => false
  | S754_infinity s => negb s
  | S754_zero _ => n <? 0
  | S754_finite s m e =>
      let v := if s then Z.neg m else Z.pos m in
      if 0 <=? e then n <? v * 2 ^ e else n * 2 ^ (- e) <? v
  end.

(* rit.py, lines 73, 86 *)
(** [len(catalog_df) < acceptable_scraping_fraction * num_sims_to_crawl] *)
Definition too_few (df : list (gmap string value))
  (acceptable_scraping_fraction : float) (num_sims_to_crawl : Z)
  : result bool :=
  let* n := float_of_Z num_sims_to_crawl in
  Ok (int_lt_float (Z.of_nat (length df))
        (acceptable_scraping_fraction * n)%float).

(** The catalog object: the dictionary of simulations, by name. *)
Record RITCatalog : Type := {
  simulations : gmap string (gmap string value);
  helper : RITCatalogHelper;
  catalog_verbosity : Z
}.

(* rit.py, lines 104-110 *)
(** [for idx, row in catalog_df.iterrows(): simulations[name] = row.to_dict()].
    The dictionary is keyed by strings here; Python would also take a name
    cell that holds a number as a key, which the catalog never has. *)
Fixpoint simulations_of (df : list (gmap string value))
  (acc : gmap string (gmap string value))
  : result (gmap string (gmap string value)) :=
  match df with
  | [] => Ok acc
  | row :: rest =>
      let* name := row_name row in
      simulations_of rest (<[name := row]> acc)
  end.

(* rit.py, lines 61 *)
(** The helper [load] builds: [RITCatalogHelper(use_cache=True, ...)]. *)
Definition caching (h : RITCatalogHelper) (verb : Z) : RITCatalogHelper :=
  {| verbosity := verb;
     use_cache := true;
     metadata_url := metadata_url h;
     metadata_file_fmts := metadata_file_fmts h;
     metadata_dir := metadata_dir h;
     psi4_data_url := psi4_data_url h;
     psi4_file_fmts := psi4_file_fmts h;
     waveform_data_url := waveform_data_url h;
     data_dir := data_dir h;
     possible_res := possible_res h;
     max_id_val := max_id_val h |}.

(* rit.py, lines 34-111 *)
(** [RITCatalog.load]; [info] carries the settings of
    [utils.rit_catalog_info], [download] is [None], [False] or [True]. *)
Definition load (info : RITCatalogHelper) (download : option bool)
  (num_sims_to_crawl : Z) (acceptable_scraping_fraction : float)
  (verb : Z) : M RITCatalog :=
  let h := caching info verb in
  let! catalog_df := read_metadata_df_from_disk in
  let! catalog_df :=
    if (length catalog_df =? 0)%nat then
      refresh_metadata_df_on_disk h num_sims_to_crawl
    else
      let! short :=
        lift (too_few catalog_df acceptable_scraping_fraction
                num_sims_to_crawl) in
      if short then refresh_metadata_df_on_disk h num_sims_to_crawl
      else ret catalog_df in
  let! short :=
    lift (too_few catalog_df acceptable_scraping_fraction num_sims_to_crawl) in
  let! catalog_df :=
    if short then
      match download with
      | Some true => download_metadata_for_catalog h num_sims_to_crawl [] (-1)
      | _ =>
          raise (ValueError ("Catalog not found in " ++ metadata_dir h
                             ++ ". Please set `download=True`"))
      end
    else ret catalog_df in
  let! sims := lift (simulations_of catalog_df ∅) in
  ret {| simulations := sims; helper := h; catalog_verbosity := verb |}.

(** Modelled from the spec: [CatalogBase.get_metadata] (the module [catalog]
    is not part of the sources): the record of a simulation, looked up by
    its logical name, the primary key of the catalog table. *)
Definition get_metadata (c : RITCatalog) (sim_name : string)
  : result (gmap string value) :=
  match simulations c !! sim_name with
  | Some row => Ok row
  | None => Raise (KeyError sim_name)
  end.

(** [self.get_metadata(sim_name)[column]] as a path. *)
Definition location (c : RITCatalog) (sim_name column : string)
  : result string :=
  let* row := get_metadata c sim_name in
  match row !! column with
  | None => Raise (KeyError column)
  | Some (VStr p) => Ok p
  | Some (VFloat _) => Raise TypeError
  end.

(* rit.py, lines 175-182 *)
Definition metadata_filepath_from_simname (c : RITCatalog) (sim_name : string)
  : M string :=
  let! file_path := lift (location c sim_name "metadata_location") in
  let! found := path_exists file_path in
  if negb found then
    raise (RuntimeError ("Could not resolve path for " ++ sim_name
                         ++ "..best calculated path = " ++ file_path))
  else ret file_path.

(* rit.py, lines 194-202 *)
Definition waveform_filepath_from_simname (c : RITCatalog) (sim_name : string)
  : M string :=
  let! file_path := lift (location c sim_name "waveform_data_location") in
  let! found := path_exists file_path in
  ret file_path.

(* rit.py, lines 217-226 *)
Definition psi4_filepath_from_simname (c : RITCatalog) (sim_name : string)
  : M string :=
  let! file_path := lift (location c sim_name "psi4_data_location") in
  let! found := path_exists file_path in
  if negb found then ret EmptyString else ret file_path.

(* ===================================================================== *)
(** ** Links and data files *)
(* ===================================================================== *)

(* rit.py, lines 184-189 *)
Definition metadata_url_from_simname (c : RITCatalog) (sim_name : string)
  : result string :=
  let* file_name := metadata_filename_from_simname (helper c) sim_name in
  Ok (metadata_url (helper c) ++ "/" ++ file_name).

(* rit.py, lines 204-209 *)
Definition waveform_url_from_simname (c : RITCatalog) (sim_name : string)
  : result string :=
  let* file_name := waveform_filename_from_simname (helper c) sim_name in
  Ok (waveform_data_url (helper c) ++ "/" ++ file_name).

(* rit.py, lines 228-231 *)
Definition psi4_url_from_simname (c : RITCatalog) (sim_name : string)
  : result string :=
  let* file_name := psi4_filename_from_simname (helper c) sim_name in
  Ok (psi4_data_url (helper c) ++ "/" ++ file_name).

(** [subprocess.call(["wget", "--no-check-certificate", url, "-O", path])]:
    the payload the archive holds for [url] is written to [path] (an empty
    file when it holds none); the exit status is not looked at. The call is
    logged. *)
Definition wget (url path : string) : M unit :=
  fun w =>
    (Ok tt,
     with_files (write_file path
                   match assoc url (remote w) with
                   | Some lines => lines
                   | None => []
                   end
                   (files w))
       (log_event (Fetch url) w)).

(** The body [download_psi4_data] and [download_waveform_data] share, once
    the file name is known: [True] at once for a usable cached copy,
    otherwise a probe of the archive and, if it holds the file, a fetch. *)
Definition download_data (cache : bool) (file_path_web local_file_path : string)
  : M bool :=
  let! cached := if cache then exists_nonempty local_file_path else ret false in
  if cached then ret true
  else
    let! on_web := url_exists file_path_web in
    if on_web then
      let! _ := wget file_path_web local_file_path in ret true
    else ret false.

(* rit.py, lines 797-832 *)
Definition download_psi4_data (h : RITCatalogHelper) (sim_name : string)
  (use_cache_arg : option bool) : M bool :=
  let cache := match use_cache_arg with
               | None => use_cache h
               | Some b => b
               end in
  let! file_name := lift (psi4_filename_from_simname h sim_name) in
  download_data cache (psi4_data_url h ++ "/" ++ file_name)
    (path_join (psi4_data_dir h) file_name).

(* rit.py, lines 834-871 *)
Definition download_waveform_data (h : RITCatalogHelper) (sim_name : string)
  (use_cache_arg : option bool) : M bool :=
  let cache := match use_cache_arg with
               | None => use_cache h
               | Some b => b
               end in
  let! file_name := lift (waveform_filename_from_simname h sim_name) in
  download_data cache (waveform_data_url h ++ "/" ++ file_name)
    (path_join (waveform_data_dir h) file_name).

(* ===================================================================== *)
(** ** Vocabulary of the statements *)
(* ===================================================================== *)

(** [c] does not occur in [s]. *)
Fixpoint no_char (c : ascii) (s : string) : bool :=
  match s with
  | EmptyString => true
  | String a r => negb (Ascii.eqb a c) && no_char c r
  end.

(** [s] is made of decimal digits only. *)
Fixpoint all_digits (s : string) : bool :=
  match s with
  | EmptyString => true
  | String a r => Py.is_digit a && all_digits r
  end.

(** [k] is written with four digits at most. *)
Definition idx_width_ok (k : nat) : bool :=
  (String.length (Py.dec_N (N.of_nat k)) <=? 4)%nat.

(** [k] is one of the eight derived fields. *)
Definition is_derived (k : string) : bool :=
  existsb (String.eqb k) derived_fields.

(** A line re-binds a derived field with text that is no number. *)
Fixpoint rebinds_unparseable (seen lines : list string) : bool :=
  match lines with
  | [] => false
  | s :: rest =>
      (is_derived (line_key s)
       && existsb (String.eqb (line_key s)) seen
       && negb (is_ok (Py.float (line_text s))))
      || rebinds_unparseable (line_key s :: seen) rest
  end.

(** Every derived field that is bound is bound to a float. *)
Definition derived_numeric (opts : gmap string value) : Prop :=
  forall k v, is_derived k = true -> opts !! k = Some v -> is_float v = true.

(** The lines whose key is [k], in the order of the text. *)
Definition lines_of (k : string) (lines : list string) : list string :=
  List.filter (fun s => String.eqb (line_key s) k) lines.

(** The last line with the key [k] has a value that is no number, and it is
    not the only line with that key. *)
Definition ends_as_text (k : string) (lines : list string) : bool :=
  match rev (lines_of k lines) with
  | s :: _ :: _ => negb (is_ok (Py.float (line_text s)))
  | _ => false
  end.

(** This holds of none of the derived fields. *)
Definition derived_text_free (lines : list string) : bool :=
  forallb (fun k => negb (ends_as_text k lines)) derived_fields.

(** No line has the key [k], or a single line has, with a value that is no
    number. *)
Definition unset_or_unparseable (k : string) (lines : list string) : bool :=
  match lines_of k lines with
  | [] => true
  | [s] => negb (is_ok (Py.float (line_text s)))
  | _ => false
  end.

(** A system type that reads [aligned] or [nonspinning] in any case. *)
Definition aligned_text (s : string) : bool :=
  (String.eqb (Py.lower s) "aligned" || String.eqb (Py.lower s) "nonspinning")%bool.

(** What a stage of the completion may change: bindings stay, and a new
    binding is [0.0] at one of the stage's components. *)
Definition extends_by (comps : list string) (opts o' : gmap string value)
  : Prop :=
  (forall k v, opts !! k = Some v -> o' !! k = Some v) /\
  (forall k v, o' !! k = Some v ->
     opts !! k = Some v \/ (In k comps /\ v = VFloat 0)).

(** The components the four stages may set. *)
Definition spin_components : list string :=
  [ "relaxed-chi1x"; "relaxed-chi1y"; "relaxed-chi2x"; "relaxed-chi2y";
    "initial-bh-chi1x"; "initial-bh-chi1y";
    "initial-bh-chi2x"; "initial-bh-chi2y" ].

(** The stages and the [z] component each one looks for. *)
Definition spin_groups : list (string * list string) :=
  [ ("relaxed-chi1z", ["relaxed-chi1x"; "relaxed-chi1y"]);
    ("relaxed-chi2z", ["relaxed-chi2x"; "relaxed-chi2y"]);
    ("initial-bh-chi1z", ["initial-bh-chi1x"; "initial-bh-chi1y"]);
    ("initial-bh-chi2z", ["initial-bh-chi2x"; "initial-bh-chi2y"]) ].

(** One iteration of the final defaulting loop. *)
Definition fill_step (o : gmap string value) (xy : string) :=
  if negb (mem xy o) then <[xy := VFloat 0]> o else o.

(** A stage is harmless when its [z] component is unbound or its two
    components are both bound already. *)
Definition stage_idle (opts : gmap string value) (g : string * list string)
  : bool :=
  negb (mem (fst g) opts) || forallb (fun k => mem k opts) (snd g).

(** Worlds used as concrete inputs. *)
Definition world_of (fs : list (string * list string))
  (snap : option (list (gmap string value)))
  (rem : list (string * list string)) : World :=
  {| files := fs; snapshot := snap; remote := rem; net_log := [];
     helper_metadata := []; num_of_sims := 0 |}.

(** A metadata directory that holds a file of each family for index 1. *)
Definition both_families : World :=
  world_of
    [ ("/cache/metadata/RIT:BBH:0001-n100-id3_Metadata.txt",
       ["system-type = Aligned"]);
      ("/cache/metadata/RIT:eBBH:0001-n100-ecc_Metadata.txt",
       ["eccentricity = 0.1"]) ]
    None [].

(** A snapshot of [n] records, one per index from 1, as a prior crawl at
    resolution 100 leaves it (only the name column is written out). *)
Definition snapshot_rows (n : Z) : list (gmap string value) :=
  map (fun k => {[ "simulation_name" :=
                     VStr ("RIT:BBH:" ++ Py.zero_pad 4 k ++ "-n100-id0") ]})
      (range1 n).

(** The metadata files a prior crawl at resolution 100 leaves in the cache
    directory, one per index from 1 to [n]. *)
Definition cached_files (n : Z) : list (string * list string) :=
  map (fun k => ("/cache/metadata/RIT:BBH:" ++ Py.zero_pad 4 k
                 ++ "-n100-id0_Metadata.txt",
                 ["system-type = Aligned"]))
      (range1 n).

(** The message of the error [load] raises. *)
Definition not_found_message (h : RITCatalogHelper) : string :=
  "Catalog not found in " ++ metadata_dir h ++ ". Please set `download=True`".

(** The snapshot as [read_metadata_df_from_disk] reads it. *)
Definition snapshot_table (w : World) : list (gmap string value) :=
  match snapshot w with Some df => df | None => [] end.

(** The catalog [load] makes of a table, or the error the table's names
    give. *)
Definition catalog_of (info : RITCatalogHelper) (verb : Z)
  (df : list (gmap string value)) : result RITCatalog :=
  let* sims := simulations_of df ∅ in
  Ok {| simulations := sims; helper := caching info verb;
        catalog_verbosity := verb |}.

(** A cache that holds the metadata files of the indices 1 and 2 and no
    snapshot, and an archive that holds the file of index 3. *)
Definition two_cached_one_remote : World :=
  world_of (cached_files 2) None
    [ ("https://ccrgpages.rit.edu/~RITCatalog/Metadata/RIT:BBH:0003-n100-id0_Metadata.txt",
       ["system-type = Aligned"]) ].

(** The snapshot of the spec's example: 60 records, nothing else cached. *)
Definition sixty_records : World := world_of [] (Some (snapshot_rows 60)) [].

(** The URL of a metadata file in the remote archive. *)
Definition metadata_link_of (h : RITCatalogHelper) (file_name : string)
  : string :=
  metadata_url h ++ "/" ++ file_name.

(** The record [with_links] builds once the two data file names are known. *)
Definition linked (h : RITCatalogHelper) (d : gmap string value)
  (sim_name link location psi4 wf : string) : gmap string value :=
  <["waveform_data_location" := VStr (path_join (waveform_data_dir h) wf)]>
    (<["waveform_data_link" := VStr (waveform_data_url h ++ "/" ++ wf)]>
       (<["psi4_data_location" := VStr (path_join (psi4_data_dir h) psi4)]>
          (<["psi4_data_link" := VStr (psi4_data_url h ++ "/" ++ psi4)]>
             (<["metadata_location" := VStr location]>
                (<["metadata_link" := VStr link]>
                   (<["simulation_name" := VStr sim_name]> d)))))).

(** The world after the probes of the candidates that miss. *)
Fixpoint after_misses (h : RITCatalogHelper) (quasi : Z -> string)
  (ecc : string) (ids : list Z) (w : World) : World :=
  match ids with
  | [] => w
  | id :: rest =>
      after_misses h quasi ecc rest
        (log_event (Probe (metadata_link_of h ecc))
           (log_event (Probe (metadata_link_of h (quasi id))) w))
  end.

(** The probes of these candidates, in the order they are made. *)
Definition miss_events (h : RITCatalogHelper) (quasi : Z -> string)
  (ecc : string) (ids : list Z) : list net_event :=
  concat (map (fun id => [Probe (metadata_link_of h (quasi id));
                          Probe (metadata_link_of h ecc)]) ids).

(** The world after whole resolutions have missed. *)
Fixpoint after_resolution_misses (h : RITCatalogHelper)
  (quasi : Z -> Z -> string) (ecc : Z -> string) (ids ms : list Z)
  (w : World) : World :=
  match ms with
  | [] => w
  | m :: rest =>
      after_resolution_misses h quasi ecc ids rest
        (after_misses h (quasi m) (ecc m) ids w)
  end.

(** The probes of whole resolutions, in the order they are made. *)
Definition resolution_miss_events (h : RITCatalogHelper)
  (quasi : Z -> Z -> string) (ecc : Z -> string) (ids ms : list Z)
  : list net_event :=
  concat (map (fun m => miss_events h (quasi m) (ecc m) ids) ms).

(** The text between the family tag and the metadata suffix. *)
Definition quasi_stem (idx res id_val : Z) : string :=
  Py.zero_pad 4 idx
  ++ String "-" (String "n" (Py.dec_Z res)
                 ++ String "-" ("id" ++ Py.dec_Z id_val)).

(** The metadata file names of the two families, written out. *)
Definition quasi_name (idx res id_val : Z) : string :=
  "RIT:BBH:" ++ quasi_stem idx res id_val ++ "_Metadata.txt".

Definition ecc_name (idx res : Z) : string :=
  "RIT:eBBH:" ++ Py.zero_pad 4 idx
  ++ String "-" (String "n" (Py.dec_Z res) ++ "-ecc_Metadata.txt").

(** An archive with a record of index 1 at resolution 100 (id 0) and one at
    resolution 200 (id 1), and nothing cached. *)
Definition archive_both_resolutions : World :=
  world_of [] None
    [ ("https://ccrgpages.rit.edu/~RITCatalog/Metadata/RIT:BBH:0001-n100-id0_Metadata.txt",
       ["system-type = Aligned"; "relaxed-chi1z = 0.1"]);
      ("https://ccrgpages.rit.edu/~RITCatalog/Metadata/RIT:BBH:0001-n200-id1_Metadata.txt",
       ["system-type = Aligned"; "relaxed-chi1z = 0.2"]) ].

(** The logical names of the two families, written out. *)
Definition quasi_simname (idx res id_val : Z) : string :=
  "RIT:BBH:" ++ quasi_stem idx res id_val.

Definition ecc_stem (idx res : Z) : string :=
  Py.zero_pad 4 idx ++ String "-" (String "n" (Py.dec_Z res) ++ "-ecc").

Definition ecc_simname (idx res : Z) : string :=
  "RIT:eBBH:" ++ ecc_stem idx res.

(** The waveform file name of a family, an index and a resolution. *)
Definition strain_name (family : string) (idx res : Z) : string :=
  "ExtrapStrain_RIT-" ++ family ++ "-" ++ Py.zero_pad 4 idx
  ++ "-" ++ String "n" (Py.dec_Z res) ++ ".h5".

(** A computation that leaves the world as it found it, whatever it
    returns or raises. *)
Definition read_only {A : Type} (m : M A) : Prop := forall w, snd (m w) = w.

(** The tags of an index: the file name templates up to the first ["-"]. *)
Definition quasi_tag (idx : Z) : string := "RIT:BBH:" ++ Py.zero_pad 4 idx.

Definition ecc_tag (idx : Z) : string := "RIT:eBBH:" ++ Py.zero_pad 4 idx.

(** The record of a run of the parser, empty when the run raises. *)
Definition parsed (raw : list string) : gmap string value :=
  match parse_metadata_txt raw with
  | Ok (_, d) => d
  | Raise _ => ∅
  end.

(** A cache that holds an older copy of a file the archive also holds. *)
Definition stale_cache : World :=
  world_of
    [ ("/cache/metadata/RIT:BBH:0001-n100-id0_Metadata.txt",
       ["system-type = Aligned"; "relaxed-chi1z = 0.3"]) ]
    None
    [ ("https://ccrgpages.rit.edu/~RITCatalog/Metadata/RIT:BBH:0001-n100-id0_Metadata.txt",
       ["system-type = Aligned"; "relaxed-chi1z = 0.2"]) ].

(** An archive that holds index 1 as an eccentric simulation only. *)
Definition archive_eccentric_only : World :=
  world_of [] None
    [ ("https://ccrgpages.rit.edu/~RITCatalog/Metadata/RIT:eBBH:0001-n100-ecc_Metadata.txt",
       ["system-type = Aligned"; "eccentricity = 0.1"]) ].

(** An archive that holds the data files of one simulation, and an empty
    cache. *)
Definition archive_with_data : World :=
  world_of [] None
    [ ("https://ccrgpages.rit.edu/~RITCatalog/Data/ExtrapStrain_RIT-BBH-0001-n100.h5",
       ["strain"]);
      ("https://ccrgpages.rit.edu/~RITCatalog/Data/ExtrapPsi4_RIT-BBH-0001-n100-id3.tar.gz",
       ["psi4"]) ].

(** A cache that holds the three files of one simulation. *)
Definition cache_with_all_files : World :=
  world_of
    [ ("/cache/metadata/RIT:BBH:0001-n100-id3_Metadata.txt",
       ["system-type = Aligned"]);
      ("/cache/data/ExtrapStrain_RIT-BBH-0001-n100.h5", ["strain"]);
      ("/cache/data/ExtrapPsi4_RIT-BBH-0001-n100-id3.tar.gz", ["psi4"]) ]
    None [].

(** A computation that does not write the snapshot. *)
Definition keeps_snapshot {A : Type} (m : M A) : Prop :=
  forall w, snapshot (snd (m w)) = snapshot w.

(* ===================================================================== *)
(** * Properties *)
(* ===================================================================== *)

(** ** Strings: splitting, digits, [int] *)

Lemma prefix_single c a r :
  String.prefix (String c EmptyString) (String a r) = Ascii.eqb a c.
Proof.
  cbn [String.prefix]. destruct (ascii_dec c a) as [->|Hne].
  - now rewrite Ascii.eqb_refl; destruct r.
  - symmetry. apply Ascii.eqb_neq. congruence.
Qed.

Lemma split_none c a :
  no_char c a = true -> Py.split (String c EmptyString) a = [a].
Proof.
  unfold Py.split. induction a as [|x a IH]; intros H; [reflexivity|].
  cbn [no_char] in H. apply andb_true_iff in H as [Hx Ha].
  cbn [Py.split_go]. rewrite prefix_single.
  apply negb_true_iff in Hx. rewrite Hx, (IH Ha). reflexivity.
Qed.

Lemma split_app c a b :
  no_char c a = true ->
  Py.split (String c EmptyString) (a ++ String c b)
  = a :: Py.split (String c EmptyString) b.
Proof.
  unfold Py.split. induction a as [|x a IH]; intros H.
  - cbn [String.append Py.split_go]. rewrite prefix_single, Ascii.eqb_refl.
    reflexivity.
  - cbn [no_char] in H. apply andb_true_iff in H as [Hx Ha].
    cbn [String.append Py.split_go]. rewrite prefix_single.
    apply negb_true_iff in Hx. rewrite Hx, (IH Ha). reflexivity.
Qed.

Lemma no_char_app c a b :
  no_char c (a ++ b) = no_char c a && no_char c b.
Proof.
  induction a as [|x a IH]; [reflexivity|].
  cbn [String.append no_char]. rewrite IH. now rewrite andb_assoc.
Qed.

Lemma digit_not_special a :
  Py.is_digit a = true ->
  Ascii.eqb a "-" = false /\ Ascii.eqb a "_" = false /\
  Ascii.eqb a "+" = false /\ Py.is_space a = false.
Proof.
  destruct a as [[] [] [] [] [] [] [] []]; cbv; intros H;
    first [discriminate H | repeat split].
Qed.

Lemma all_digits_no_char c s :
  Py.is_digit c = false -> all_digits s = true -> no_char c s = true.
Proof.
  intros Hc. induction s as [|a s IH]; [reflexivity|].
  cbn [all_digits no_char]. intros H. apply andb_true_iff in H as [Ha Hs].
  rewrite (IH Hs), andb_true_r. apply negb_true_iff, Ascii.eqb_neq.
  intros ->. congruence.
Qed.

Lemma all_digits_app a b :
  all_digits (a ++ b) = all_digits a && all_digits b.
Proof.
  induction a as [|x a IH]; [reflexivity|].
  cbn [String.append all_digits]. rewrite IH. now rewrite andb_assoc.
Qed.

Lemma all_digits_uint d : all_digits (NilEmpty.string_of_uint d) = true.
Proof. induction d; cbn [NilEmpty.string_of_uint all_digits]; auto. Qed.

Lemma dec_N_digits n : all_digits (Py.dec_N n) = true.
Proof.
  unfold Py.dec_N, NilZero.string_of_uint.
  destruct (N.to_uint n); try reflexivity; apply all_digits_uint.
Qed.

Lemma N_to_uint_nonnil n : N.to_uint n <> Decimal.Nil.
Proof.
  destruct n as [|p]; [discriminate|]. apply DecimalPos.Unsigned.to_uint_nonnil.
Qed.

Lemma dec_N_eq n : Py.dec_N n = NilEmpty.string_of_uint (N.to_uint n).
Proof.
  unfold Py.dec_N, NilZero.string_of_uint.
  pose proof (N_to_uint_nonnil n). now destruct (N.to_uint n).
Qed.

Lemma dec_N_nonempty n : Py.dec_N n <> EmptyString.
Proof.
  rewrite dec_N_eq. pose proof (N_to_uint_nonnil n).
  destruct (N.to_uint n); try discriminate. congruence.
Qed.

Lemma all_digits_zeros k : all_digits (Py.repeat_char "0" k) = true.
Proof. induction k; [reflexivity|]. cbn. exact IHk. Qed.

Lemma ungroup_digits b s :
  all_digits s = true -> (s <> EmptyString \/ b = true) ->
  Py.ungroup b s = Some s.
Proof.
  revert b. induction s as [|a s IH]; intros b H Hb.
  - destruct Hb as [Hb| ->]; [congruence | reflexivity].
  - cbn [all_digits] in H. apply andb_true_iff in H as [Ha Hs].
    cbn [Py.ungroup]. rewrite Ha, (IH true Hs) by now right. reflexivity.
Qed.

Lemma uint_of_zeros k s :
  option_map N.of_uint (NilEmpty.uint_of_string (Py.repeat_char "0" k ++ s))
  = option_map N.of_uint (NilEmpty.uint_of_string s).
Proof.
  induction k as [|k IH]; [reflexivity|].
  cbn [Py.repeat_char String.append NilEmpty.uint_of_string].
  destruct (NilEmpty.uint_of_string (Py.repeat_char "0" k ++ s)) as [d|] eqn:E;
    destruct (NilEmpty.uint_of_string s) as [d'|] eqn:E'; cbn in *;
    try discriminate; try reflexivity.
  exact IH.
Qed.

(** A zero-padded decimal rendering reads back as the number. *)
Lemma digits_value_padded k n :
  Py.digits_value (Py.repeat_char "0" k ++ Py.dec_N n) = Some n.
Proof.
  unfold Py.digits_value. rewrite ungroup_digits.
  - rewrite uint_of_zeros, dec_N_eq, NilEmpty.usu. cbn.
    now rewrite DecimalN.Unsigned.of_to.
  - rewrite all_digits_app, all_digits_zeros, dec_N_digits. reflexivity.
  - left. pose proof (dec_N_nonempty n).
    destruct k; cbn; [assumption | discriminate].
Qed.

Lemma rstrip_digits s : all_digits s = true -> Py.rstrip s = s.
Proof.
  induction s as [|a s IH]; [reflexivity|].
  cbn [all_digits Py.rstrip]. intros H. apply andb_true_iff in H as [Ha Hs].
  rewrite (IH Hs). destruct s; [|reflexivity].
  now destruct (digit_not_special a Ha) as (_ & _ & _ & ->).
Qed.

Lemma strip_padded k s :
  all_digits s = true -> s <> EmptyString ->
  Py.strip (Py.repeat_char " " k ++ s) = s.
Proof.
  intros H Hne. unfold Py.strip.
  assert (Py.lstrip (Py.repeat_char " " k ++ s) = s) as ->.
  { induction k as [|k IH]; [|exact IH].
    destruct s as [|a s]; [congruence|]. cbn in *.
    apply andb_true_iff in H as [Ha _].
    now destruct (digit_not_special a Ha) as (_ & _ & _ & ->). }
  now apply rstrip_digits.
Qed.

(** [int] reads a rendering padded with blanks and then zeros. *)
Lemma int_padded k j n :
  Py.int (Py.repeat_char " " k ++ Py.repeat_char "0" j ++ Py.dec_N n)
  = Ok (Z.of_N n).
Proof.
  unfold Py.int. rewrite strip_padded.
  - pose proof (digits_value_padded j n) as Hv.
    assert (Hd : all_digits (Py.repeat_char "0" j ++ Py.dec_N n) = true)
      by (rewrite all_digits_app, all_digits_zeros, dec_N_digits; reflexivity).
    destruct (Py.repeat_char "0" j ++ Py.dec_N n) as [|a r] eqn:E.
    + now rewrite Hv.
    + cbn [all_digits] in Hd. apply andb_true_iff in Hd as [Ha _].
      destruct (digit_not_special a Ha) as (Hm & _ & Hp & _).
      destruct a as [[] [] [] [] [] [] [] []]; try discriminate Hm;
        try discriminate Hp; now rewrite Hv.
  - rewrite all_digits_app, all_digits_zeros, dec_N_digits. reflexivity.
  - pose proof (dec_N_nonempty n). destruct j; cbn; [assumption|discriminate].
Qed.

(** ** C1: the identifier codec *)

Lemma length_app (a b : string) :
  String.length (a ++ b) = (String.length a + String.length b)%nat.
Proof. induction a as [|x a IH]; cbn; [reflexivity | now rewrite IH]. Qed.

Lemma app_assoc_str (a b c : string) : (a ++ b) ++ c = a ++ (b ++ c).
Proof. induction a as [|x a IH]; cbn; [reflexivity | now rewrite IH]. Qed.

Lemma drop_app (a b : string) : Py.drop (String.length a) (a ++ b) = b.
Proof. induction a as [|x a IH]; cbn; [now destruct b | exact IH]. Qed.

Lemma last_n_app n (a b : string) :
  String.length b = n -> Py.last_n n (a ++ b) = b.
Proof.
  intros <-. unfold Py.last_n. rewrite length_app.
  replace (String.length a + String.length b - String.length b)%nat
    with (String.length a) by lia.
  apply drop_app.
Qed.

Lemma length_repeat_char c k : String.length (Py.repeat_char c k) = k.
Proof. induction k; cbn; congruence. Qed.

Lemma idx_width_all :
  forallb idx_width_ok (seq 0 (Z.to_nat 10000)) = true.
Proof. vm_compute. reflexivity. Qed.

Lemma dec_N_width (idx : Z) :
  0 <= idx <= 9999 -> (String.length (Py.dec_N (Z.to_N idx)) <= 4)%nat.
Proof.
  intros H. pose proof idx_width_all as Hall.
  rewrite forallb_forall in Hall.
  specialize (Hall (Z.to_nat idx)). unfold idx_width_ok in Hall.
  rewrite Z_nat_N in Hall. apply Nat.leb_le, Hall, in_seq. lia.
Qed.

(** The four-column index field: its text is four digits that read back as
    the index. *)
Lemma zero_pad_index (idx : Z) :
  0 <= idx <= 9999 ->
  String.length (Py.zero_pad 4 idx) = 4%nat /\
  all_digits (Py.zero_pad 4 idx) = true /\
  Py.int (Py.zero_pad 4 idx) = Ok idx.
Proof.
  intros H. unfold Py.zero_pad.
  destruct (Z.ltb_spec idx 0) as [Hneg|_]; [lia|].
  pose proof (dec_N_width idx H) as Hw. repeat split.
  - rewrite length_app, length_repeat_char. lia.
  - rewrite all_digits_app, all_digits_zeros, dec_N_digits. reflexivity.
  - transitivity (@Ok Z (Z.of_N (Z.to_N idx)));
      [exact (int_padded 0 _ _) | f_equal; lia].
Qed.

Lemma dec_Z_nonneg (z : Z) :
  0 <= z ->
  all_digits (Py.dec_Z z) = true /\
  forall k, Py.int (Py.pad_left k (Py.dec_Z z)) = Ok z.
Proof.
  intros H. unfold Py.dec_Z, Py.pad_left.
  destruct (Z.ltb_spec z 0) as [Hneg|_]; [lia|]. split.
  - apply dec_N_digits.
  - intros k. transitivity (@Ok Z (Z.of_N (Z.to_N z)));
      [exact (int_padded _ 0 _) | f_equal; lia].
Qed.

Lemma all_digits_pad_left_no_char c k s :
  Py.is_digit c = false -> Ascii.eqb " " c = false ->
  all_digits s = true -> no_char c (Py.pad_left k s) = true.
Proof.
  intros Hc Hsp Hs. unfold Py.pad_left.
  rewrite no_char_app, (all_digits_no_char c s Hc Hs), andb_true_r.
  induction (k - String.length s)%nat as [|m IH]; [reflexivity|].
  cbn [Py.repeat_char no_char]. now rewrite Hsp, IH.
Qed.

(** What [sim_info_from_metadata_filename] reads out of a name made of an
    index field [I] behind [tag], a resolution field [R] and a tail [T]. *)
Lemma sim_info_of_fields (tag I R T : string) (idx res : Z) :
  no_char "-" (tag ++ I) = true ->
  no_char "-" R = true ->
  Py.int (Py.last_n 4 (tag ++ I)) = Ok idx ->
  Py.int R = Ok res ->
  sim_info_from_metadata_filename
    ((tag ++ I) ++ String "-" (String "n" R ++ String "-" T))
  = Ok (idx, res,
        try_except
          (let* p2 := Py.index (Py.split "-" T) 0 in
           let* q := Py.index (Py.split "_" p2) 0 in
           Py.int (Py.drop 2 q))
          (-1)).
Proof.
  intros HI HR Hidx Hres. unfold sim_info_from_metadata_filename.
  rewrite (split_app "-" _ _ HI).
  rewrite (split_app "-" (String "n" R) T) by exact HR.
  cbn [Py.index nth_error rbind Py.drop]. rewrite Hidx, Hres.
  cbn [rbind]. destruct (Py.split "-" T); reflexivity.
Qed.

(** The encoded names, field by field. *)
Lemma metadata_filenames_eq (h : RITCatalogHelper) (idx res id_val : Z) :
  metadata_file_fmts h = rit_metadata_file_fmts ->
  metadata_filenames h idx res id_val
  = Ok [ ("RIT:BBH:" ++ Py.zero_pad 4 idx)
           ++ String "-" (String "n" (Py.pad_left 0 (Py.dec_Z res))
           ++ String "-" ("id" ++ Py.pad_left 0 (Py.dec_Z id_val) ++ "_Metadata.txt"));
         ("RIT:eBBH:" ++ Py.zero_pad 4 idx)
           ++ String "-" (String "n" (Py.pad_left 0 (Py.dec_Z res))
           ++ String "-" "ecc_Metadata.txt") ].
Proof.
  intros Hf. unfold metadata_filenames. rewrite Hf.
  cbn -[Py.zero_pad Py.pad_left Py.dec_Z]. reflexivity.
Qed.

Lemma index_field_ok (tag : string) (idx : Z) :
  no_char "-" tag = true -> 0 <= idx <= 9999 ->
  no_char "-" (tag ++ Py.zero_pad 4 idx) = true /\
  Py.int (Py.last_n 4 (tag ++ Py.zero_pad 4 idx)) = Ok idx.
Proof.
  intros Ht H. destruct (zero_pad_index idx H) as (Hl & Hd & Hi). split.
  - rewrite no_char_app, Ht. now apply all_digits_no_char.
  - now rewrite (last_n_app 4 _ _ Hl).
Qed.

(** Both names decode, whatever the width [w] of the resolution column. *)
Lemma round_trip_of_fields (w : nat) (idx res id_val : Z) :
  0 <= idx <= 9999 -> 0 < res -> 0 <= id_val ->
  sim_info_from_metadata_filename
    (("RIT:BBH:" ++ Py.zero_pad 4 idx)
       ++ String "-" (String "n" (Py.pad_left w (Py.dec_Z res))
       ++ String "-" ("id" ++ Py.pad_left 0 (Py.dec_Z id_val) ++ "_Metadata.txt")))
  = Ok (idx, res, id_val) /\
  sim_info_from_metadata_filename
    (("RIT:eBBH:" ++ Py.zero_pad 4 idx)
       ++ String "-" (String "n" (Py.pad_left w (Py.dec_Z res))
       ++ String "-" "ecc_Metadata.txt"))
  = Ok (idx, res, -1).
Proof.
  intros Hidx Hres Hid.
  destruct (dec_Z_nonneg res ltac:(lia)) as (HRd & HRi).
  destruct (dec_Z_nonneg id_val Hid) as (HDd & HDi).
  assert (HR : no_char "-" (Py.pad_left w (Py.dec_Z res)) = true)
    by now apply all_digits_pad_left_no_char.
  split.
  - destruct (index_field_ok "RIT:BBH:" idx eq_refl Hidx) as (HI & Hi).
    rewrite (sim_info_of_fields _ _ _ _ idx res HI HR Hi (HRi _)).
    rewrite (split_none "-").
    2:{ change (no_char "-" ("id" ++ Py.pad_left 0 (Py.dec_Z id_val)
                              ++ "_Metadata.txt") = true).
        rewrite !no_char_app.
        now rewrite (all_digits_pad_left_no_char "-" 0 _ eq_refl eq_refl HDd). }
    cbn [Py.index nth_error rbind].
    change ("id" ++ Py.pad_left 0 (Py.dec_Z id_val) ++ "_Metadata.txt")
      with (("id" ++ Py.pad_left 0 (Py.dec_Z id_val))
              ++ String "_" "Metadata.txt").
    rewrite (split_app "_").
    2:{ rewrite no_char_app.
        now rewrite (all_digits_pad_left_no_char "_" 0 _ eq_refl eq_refl HDd). }
    cbn [Py.index nth_error rbind String.append Py.drop].
    now rewrite HDi.
  - destruct (index_field_ok "RIT:eBBH:" idx eq_refl Hidx) as (HI & Hi).
    rewrite (sim_info_of_fields _ _ _ _ idx res HI HR Hi (HRi _)).
    reflexivity.
Qed.

(** C1. Codec round-trip: for a four-digit index, a positive resolution and a
    non-negative id value (a single digit in particular), the two names
    [metadata_filenames] encodes decode as follows: the quasicircular name
    gives back the triple (index, resolution, id value), and the eccentric
    name, which has no id-value segment, gives back (index, resolution, -1);
    neither decoding raises. *)
Theorem codec_round_trip (h : RITCatalogHelper) (idx res id_val : Z) :
  metadata_file_fmts h = rit_metadata_file_fmts ->
  0 <= idx <= 9999 -> 0 < res -> 0 <= id_val ->
  exists quasi ecc,
    metadata_filenames h idx res id_val = Ok [quasi; ecc] /\
    sim_info_from_metadata_filename quasi = Ok (idx, res, id_val) /\
    sim_info_from_metadata_filename ecc = Ok (idx, res, -1).
Proof.
  intros Hf Hidx Hres Hid. eexists _, _.
  split; [exact (metadata_filenames_eq h idx res id_val Hf)|].
  exact (round_trip_of_fields 0 idx res id_val Hidx Hres Hid).
Qed.

Lemma codec_round_trip_witness :
  exists quasi ecc,
    metadata_filenames (rit_helper "/cache" 0 true [100; 200] 6) 1109 100 1
      = Ok [quasi; ecc] /\
    sim_info_from_metadata_filename quasi = Ok (1109, 100, 1) /\
    sim_info_from_metadata_filename ecc = Ok (1109, 100, -1).
Proof.
  apply (codec_round_trip (rit_helper "/cache" 0 true [100; 200] 6) 1109 100 1);
    [reflexivity | lia | lia | lia].
Defined.

(** The round trip does not depend on the resolution being written without
    padding: with the resolution right-aligned in three columns ([int]
    skips the blanks) the names decode to the same triples. *)
Lemma codec_round_trip_padded (h : RITCatalogHelper) (idx res id_val : Z) :
  metadata_file_fmts h = rit_metadata_file_fmts_padded ->
  0 <= idx <= 9999 -> 0 < res -> 0 <= id_val ->
  exists quasi ecc,
    metadata_filenames h idx res id_val = Ok [quasi; ecc] /\
    sim_info_from_metadata_filename quasi = Ok (idx, res, id_val) /\
    sim_info_from_metadata_filename ecc = Ok (idx, res, -1).
Proof.
  intros Hf Hidx Hres Hid. eexists _, _. split.
  - unfold metadata_filenames. rewrite Hf.
    cbn -[Py.zero_pad Py.pad_left Py.dec_Z]. reflexivity.
  - exact (round_trip_of_fields 3 idx res id_val Hidx Hres Hid).
Qed.

(** Beyond four digits the index does not survive: only its last four
    digits are read back. *)
Lemma codec_five_digit_index :
  (let* names := metadata_filenames (rit_helper "/cache" 0 true [100] 6)
                   12345 100 1 in
   let* quasi := Py.index names 0 in
   sim_info_from_metadata_filename quasi)
  = Ok (2345, 100, 1).
Proof. vm_compute. reflexivity. Qed.

(** ** The parser: stage by stage *)

Lemma mem_true k (opts : gmap string value) :
  mem k opts = true <-> is_Some (opts !! k).
Proof. unfold mem. apply bool_decide_eq_true. Qed.

Lemma mem_false k (opts : gmap string value) :
  mem k opts = false <-> opts !! k = None.
Proof.
  unfold mem. rewrite bool_decide_eq_false, <- eq_None_not_Some. reflexivity.
Qed.

Lemma mem_insert k k' v (opts : gmap string value) :
  mem k (<[k' := v]> opts) = (String.eqb k' k || mem k opts)%bool.
Proof.
  destruct (String.eqb_spec k' k) as [->|Hne]; cbn.
  - apply mem_true. rewrite lookup_insert_eq. eauto.
  - unfold mem. now rewrite lookup_insert_ne.
Qed.

(** *** The line loop *)

(** The [except] branch sets a derived field to [0.0] exactly when the key is
    one and is not bound yet. *)
Lemma default_derived_spec key (opts : gmap string value) :
  default_derived key opts derived_fields
  = if (is_derived key && negb (mem key opts))%bool
    then Some (<[key := VFloat 0]> opts) else None.
Proof.
  unfold is_derived, derived_fields.
  cbn [default_derived existsb].
  repeat match goal with
  | |- context [String.eqb key ?s] =>
      destruct (String.eqb_spec key s) as [->|?]; cbn [andb orb];
      [destruct (mem _ opts); reflexivity|]
  end.
  reflexivity.
Qed.

(** Every line binds its key and leaves the other keys alone. *)
Lemma parse_line_lookup (opts : gmap string value) s k :
  k <> line_key s -> parse_line opts s !! k = opts !! k.
Proof.
  intros Hk. unfold parse_line. rewrite default_derived_spec.
  destruct (Py.float (line_text s)); [now rewrite lookup_insert_ne|].
  destruct (is_derived (line_key s) && negb (mem (line_key s) opts))%bool;
    now rewrite lookup_insert_ne.
Qed.

Lemma parse_line_key (opts : gmap string value) s :
  parse_line opts s !! line_key s
  = Some match Py.float (line_text s) with
         | Ok f => VFloat f
         | Raise _ =>
             if (is_derived (line_key s) && negb (mem (line_key s) opts))%bool
             then VFloat 0 else VStr (line_text s)
         end.
Proof.
  unfold parse_line. rewrite default_derived_spec.
  destruct (Py.float (line_text s)); [now rewrite lookup_insert_eq|].
  destruct (is_derived (line_key s) && negb (mem (line_key s) opts))%bool;
    now rewrite lookup_insert_eq.
Qed.

Lemma fold_parse_line_numeric lines : forall (opts : gmap string value) seen,
  (forall k, mem k opts = true -> existsb (String.eqb k) seen = true) ->
  derived_numeric opts ->
  rebinds_unparseable seen lines = false ->
  derived_numeric (fold_left parse_line lines opts).
Proof.
  induction lines as [|s lines IH]; intros opts seen Hseen Hnum Hre;
    [exact Hnum|].
  cbn [fold_left]. cbn [rebinds_unparseable] in Hre.
  apply orb_false_iff in Hre as [Hs Hrest].
  apply (IH _ (line_key s :: seen)); [| |exact Hrest].
  - intros k Hk. cbn [existsb].
    destruct (String.eqb_spec k (line_key s)) as [->|Hne]; [reflexivity|].
    cbn. apply Hseen. unfold mem in *.
    now rewrite parse_line_lookup in Hk.
  - intros k v Hd Hv.
    destruct (String.eqb_spec k (line_key s)) as [->|Hne].
    + rewrite parse_line_key in Hv. injection Hv as <-.
      destruct (Py.float (line_text s)) as [f|e]; [reflexivity|].
      rewrite Hd in *. cbn [andb is_ok negb] in *.
      rewrite andb_true_r in Hs.
      destruct (mem (line_key s) opts) eqn:Hm; [|reflexivity].
      now rewrite (Hseen _ Hm) in Hs.
    + rewrite parse_line_lookup in Hv by exact Hne. eapply Hnum; eassumption.
Qed.

Lemma parse_lines_numeric nxt :
  rebinds_unparseable [] nxt = false -> derived_numeric (parse_lines nxt).
Proof.
  intros H. apply (fold_parse_line_numeric nxt ∅ []); [| |exact H].
  - intros k Hk. apply mem_true in Hk. rewrite lookup_empty in Hk.
    now destruct Hk.
  - intros k v _ Hv. now rewrite lookup_empty in Hv.
Qed.

(** *** Spin completion *)

Lemma aligned_or_nonspinning_str (opts : gmap string value) s :
  opts !! "system-type" = Some (VStr s) ->
  aligned_or_nonspinning opts = Ok (aligned_text s).
Proof.
  intros H. unfold aligned_or_nonspinning, system_type_lower, aligned_text.
  rewrite H. cbn [rbind].
  now destruct (String.eqb (Py.lower s) "aligned").
Qed.

Lemma extends_by_refl comps opts : extends_by comps opts opts.
Proof. split; auto. Qed.

Lemma extends_by_trans c1 c2 (a b c : gmap string value) :
  extends_by c1 a b -> extends_by c2 b c -> extends_by (c1 ++ c2)%list a c.
Proof.
  intros [P1 Q1] [P2 Q2]. split; [auto|].
  intros k v H. destruct (Q2 k v H) as [H'|[Hin ->]].
  - destruct (Q1 k v H') as [?|[Hin ->]]; [auto|].
    right. split; [apply in_or_app; auto | reflexivity].
  - right. split; [apply in_or_app; auto | reflexivity].
Qed.

Lemma zero_components_extends comps : forall (opts o' : gmap string value),
  zero_components comps opts = Ok o' -> extends_by comps opts o'.
Proof.
  induction comps as [|xy comps IH]; intros opts o' H; cbn in H.
  - injection H as <-. apply extends_by_refl.
  - destruct (mem xy opts) eqn:Hm; cbn [negb] in H.
    + destruct (IH _ _ H) as [P Q]. split; [exact P|].
      intros k v Hk. destruct (Q k v Hk) as [?|[? ->]]; cbn; auto.
    + destruct (aligned_or_nonspinning opts) as [c|e]; [|discriminate H].
      cbn [rbind] in H. destruct (IH _ _ H) as [P Q].
      apply mem_false in Hm. destruct c.
      * split.
        -- intros k v Hk. apply P. rewrite lookup_insert_ne; [exact Hk|].
           intros ->. congruence.
        -- intros k v Hk. destruct (Q k v Hk) as [Hk'|[? ->]]; cbn; auto.
           destruct (decide (xy = k)) as [->|Hne].
           ++ rewrite lookup_insert_eq in Hk'. injection Hk' as <-. auto.
           ++ rewrite lookup_insert_ne in Hk' by exact Hne. auto.
      * split; [exact P|].
        intros k v Hk. destruct (Q k v Hk) as [?|[? ->]]; cbn; auto.
Qed.

Lemma complete_spin_extends z comps (opts o' : gmap string value) :
  complete_spin z comps opts = Ok o' -> extends_by comps opts o'.
Proof.
  unfold complete_spin. destruct (mem z opts).
  - apply zero_components_extends.
  - intros [= <-]. apply extends_by_refl.
Qed.

Lemma spin_completion_extends (opts o' : gmap string value) :
  spin_completion opts = Ok o' -> extends_by spin_components opts o'.
Proof.
  unfold spin_completion. intros H.
  destruct (complete_spin "relaxed-chi1z" _ opts) as [o1|] eqn:E1;
    [|discriminate H].
  cbn [rbind] in H.
  destruct (complete_spin "relaxed-chi2z" _ o1) as [o2|] eqn:E2;
    [|discriminate H].
  cbn [rbind] in H.
  destruct (complete_spin "initial-bh-chi1z" _ o2) as [o3|] eqn:E3;
    [|discriminate H].
  cbn [rbind] in H.
  apply complete_spin_extends in E1, E2, E3, H.
  exact (extends_by_trans _ _ _ _ _ E1
           (extends_by_trans _ _ _ _ _ E2
              (extends_by_trans _ _ _ _ _ E3 H))).
Qed.

(** With a textual system type a stage never raises; when the text is
    [aligned] or [nonspinning] (in any case) and the stage's [z] component is
    bound, it leaves every component of the stage bound. *)
Lemma zero_components_str comps s : forall (opts : gmap string value),
  opts !! "system-type" = Some (VStr s) ->
  exists o', zero_components comps opts = Ok o' /\
    (aligned_text s = true -> forall k, In k comps -> is_Some (o' !! k)).
Proof.
  induction comps as [|xy comps IH]; intros opts Hs.
  - exists opts. split; [reflexivity|]. intros _ k [].
  - cbn [zero_components]. destruct (mem xy opts) eqn:Hm; cbn [negb].
    + destruct (IH opts Hs) as (o' & Ho & Hall). exists o'. split; [exact Ho|].
      intros Ha k [<-|Hin]; [|now apply Hall].
      apply mem_true in Hm as [v Hv].
      destruct (zero_components_extends _ _ _ Ho) as [P _].
      rewrite (P _ _ Hv). eauto.
    + rewrite (aligned_or_nonspinning_str opts s Hs). cbn [rbind].
      apply mem_false in Hm.
      assert (Hs' : (if aligned_text s then <[xy := VFloat 0]> opts else opts)
                    !! "system-type" = Some (VStr s)).
      { destruct (aligned_text s); [|exact Hs].
        rewrite lookup_insert_ne; [exact Hs|]. intros ->. congruence. }
      destruct (IH _ Hs') as (o' & Ho & Hall). exists o'. split; [exact Ho|].
      intros Ha k [<-|Hin]; [|now apply Hall].
      destruct (zero_components_extends _ _ _ Ho) as [P _].
      rewrite Ha in P. rewrite (P xy (VFloat 0)); [eauto|].
      apply lookup_insert_eq.
Qed.

Lemma complete_spin_str z comps s (opts : gmap string value) :
  opts !! "system-type" = Some (VStr s) ->
  exists o', complete_spin z comps opts = Ok o' /\
    o' !! "system-type" = Some (VStr s) /\
    (aligned_text s = true -> mem z opts = true ->
     forall k, In k comps -> is_Some (o' !! k)).
Proof.
  intros Hs. unfold complete_spin. destruct (mem z opts).
  - destruct (zero_components_str comps s opts Hs) as (o' & Ho & Hall).
    exists o'. split; [exact Ho|]. split; [|auto].
    destruct (zero_components_extends _ _ _ Ho) as [P _]. now apply P.
  - exists opts. split; [reflexivity|]. split; [exact Hs | discriminate].
Qed.

Lemma spin_completion_str (opts : gmap string value) s :
  opts !! "system-type" = Some (VStr s) ->
  exists o', spin_completion opts = Ok o' /\
    (aligned_text s = true ->
     forall z comps k, In (z, comps) spin_groups -> mem z opts = true ->
       In k comps -> opts !! k = None -> o' !! k = Some (VFloat 0)).
Proof.
  intros Hs. unfold spin_completion.
  destruct (complete_spin_str "relaxed-chi1z"
              ["relaxed-chi1x"; "relaxed-chi1y"] s opts Hs)
    as (o1 & E1 & Hs1 & A1).
  destruct (complete_spin_str "relaxed-chi2z"
              ["relaxed-chi2x"; "relaxed-chi2y"] s o1 Hs1)
    as (o2 & E2 & Hs2 & A2).
  destruct (complete_spin_str "initial-bh-chi1z"
              ["initial-bh-chi1x"; "initial-bh-chi1y"] s o2 Hs2)
    as (o3 & E3 & Hs3 & A3).
  destruct (complete_spin_str "initial-bh-chi2z"
              ["initial-bh-chi2x"; "initial-bh-chi2y"] s o3 Hs3)
    as (o4 & E4 & Hs4 & A4).
  exists o4. rewrite E1. cbn [rbind]. rewrite E2. cbn [rbind].
  rewrite E3. cbn [rbind]. split; [exact E4|].
  intros Ha z comps k Hg Hz Hk Hnone.
  pose proof (complete_spin_extends _ _ _ _ E1) as X1.
  pose proof (complete_spin_extends _ _ _ _ E2) as X2.
  pose proof (complete_spin_extends _ _ _ _ E3) as X3.
  pose proof (complete_spin_extends _ _ _ _ E4) as X4.
  pose proof (extends_by_trans _ _ _ _ _ X1
                (extends_by_trans _ _ _ _ _ X2
                   (extends_by_trans _ _ _ _ _ X3 X4))) as [_ Q].
  assert (Hbound : is_Some (o4 !! k)).
  { apply mem_true in Hz as [vz Hvz].
    destruct X1 as [P1 _], X2 as [P2 _], X3 as [P3 _], X4 as [P4 _].
    assert (forall (o : gmap string value), is_Some (o !! z) -> mem z o = true)
      as Hm by (intros o; apply mem_true).
    cbn [spin_groups In] in Hg.
    destruct Hg as [Hg|[Hg|[Hg|[Hg|[]]]]]; injection Hg as <- <-.
    - destruct (A1 Ha (Hm _ (ex_intro _ _ Hvz)) k Hk) as [v Hv]. eauto.
    - destruct (A2 Ha (Hm _ (ex_intro _ _ (P1 _ _ Hvz))) k Hk) as [v Hv]. eauto.
    - destruct (A3 Ha (Hm _ (ex_intro _ _ (P2 _ _ (P1 _ _ Hvz)))) k Hk)
        as [v Hv]. eauto.
    - exact (A4 Ha (Hm _ (ex_intro _ _ (P3 _ _ (P2 _ _ (P1 _ _ Hvz))))) k Hk). }
  destruct Hbound as [v Hv]. destruct (Q k v Hv) as [Hv'|[_ ->]];
    [congruence | exact Hv].
Qed.

(** *** Cross-derivation of orbits and cycles *)

Lemma derive_from_absent src dst op (opts : gmap string value) :
  opts !! src = None -> derive_from src dst op opts = Ok opts.
Proof.
  intros H. unfold derive_from. apply mem_false in H. now rewrite H.
Qed.

Lemma derive_from_float src dst op (opts : gmap string value) v w :
  src <> dst -> opts !! src = Some v -> op v = Ok w ->
  derive_from src dst op opts
  = Ok match opts !! dst with
       | None => <[dst := w]> opts
       | Some d => if eq_zero d then <[dst := w]> opts else opts
       end.
Proof.
  intros Hne Hsrc Hop. unfold derive_from.
  assert (mem src opts = true) as -> by (apply mem_true; eauto).
  destruct (opts !! dst) as [d|] eqn:Hd.
  - assert (mem dst opts = true) as -> by (apply mem_true; eauto).
    cbn [negb rbind]. unfold getitem. rewrite Hd, Hsrc. cbn [rbind].
    destruct (eq_zero d); [now rewrite Hop | reflexivity].
  - assert (mem dst opts = false) as -> by now apply mem_false.
    cbn [negb]. unfold getitem. rewrite Hsrc. cbn [rbind]. rewrite Hop.
    cbn [rbind]. rewrite lookup_insert_eq, lookup_insert_ne, Hsrc by congruence.
    cbn [rbind]. rewrite Hop. cbn [rbind]. rewrite insert_insert_eq.
    now destruct (eq_zero w).
Qed.

(** When the source field, if bound, is a number, the rule returns; it
    touches the target field only, and only to store a number there. *)
Lemma derive_from_numeric src dst op (opts : gmap string value) :
  src <> dst ->
  (forall f, exists g, op (VFloat f) = Ok (VFloat g)) ->
  (forall v, opts !! src = Some v -> is_float v = true) ->
  exists o', derive_from src dst op opts = Ok o' /\
    (forall k, k <> dst -> o' !! k = opts !! k) /\
    (o' !! dst = opts !! dst \/ exists g, o' !! dst = Some (VFloat g)).
Proof.
  intros Hne Hop Hnum. destruct (opts !! src) as [v|] eqn:Hsrc.
  - destruct v as [f|s]; [|now discriminate (Hnum _ eq_refl)].
    destruct (Hop f) as [g Hg].
    rewrite (derive_from_float _ _ _ _ _ _ Hne Hsrc Hg).
    eexists. split; [reflexivity|].
    destruct (opts !! dst) as [d|] eqn:Hd; [destruct (eq_zero d)|].
    + split; [intros k Hk; now rewrite lookup_insert_ne|].
      right. exists g. apply lookup_insert_eq.
    + split; [reflexivity | now left].
    + split; [intros k Hk; now rewrite lookup_insert_ne|].
      right. exists g. apply lookup_insert_eq.
  - rewrite (derive_from_absent _ _ _ _ Hsrc). exists opts.
    split; [reflexivity|]. split; [reflexivity | now left].
Qed.

Lemma halve_float f : exists g, halve (VFloat f) = Ok (VFloat g).
Proof. eexists. reflexivity. Qed.

Lemma double_float f : exists g, double (VFloat f) = Ok (VFloat g).
Proof. eexists. reflexivity. Qed.

(** *** The final defaulting *)

Lemma fill_fold_spec fields : forall (opts : gmap string value),
  let o' := fold_left fill_step fields opts in
  (forall k v, opts !! k = Some v -> o' !! k = Some v) /\
  (forall k, In k fields -> is_Some (o' !! k)) /\
  (forall k v, o' !! k = Some v ->
     opts !! k = Some v \/ (In k fields /\ v = VFloat 0)).
Proof.
  induction fields as [|xy fields IH]; intros opts; cbn [fold_left].
  - repeat split; auto. intros k [].
  - destruct (IH (fill_step opts xy)) as (P & A & Q).
    assert (Hstep : forall k v, opts !! k = Some v ->
                                fill_step opts xy !! k = Some v).
    { intros k v Hk. unfold fill_step. destruct (mem xy opts) eqn:Hm; cbn;
        [exact Hk|]. apply mem_false in Hm.
      rewrite lookup_insert_ne; [exact Hk | intros ->; congruence]. }
    repeat split.
    + intros k v Hk. apply P, Hstep, Hk.
    + intros k [<-|Hin]; [|now apply A].
      assert (is_Some (fill_step opts xy !! xy)) as [v Hv].
      { unfold fill_step. destruct (mem xy opts) eqn:Hm; cbn.
        - now apply mem_true. - rewrite lookup_insert_eq. eauto. }
      rewrite (P _ _ Hv). eauto.
    + intros k v Hk. destruct (Q k v Hk) as [Hk'|[Hin ->]]; cbn; [|auto].
      unfold fill_step in Hk'. destruct (mem xy opts); cbn in Hk'; [auto|].
      destruct (decide (xy = k)) as [->|Hne].
      * rewrite lookup_insert_eq in Hk'. injection Hk' as <-. auto.
      * rewrite lookup_insert_ne in Hk' by exact Hne. auto.
Qed.

Lemma fill_derived_spec (opts : gmap string value) :
  (forall k v, opts !! k = Some v -> fill_derived opts !! k = Some v) /\
  (forall k, In k derived_fields -> is_Some (fill_derived opts !! k)) /\
  (forall k v, fill_derived opts !! k = Some v ->
     opts !! k = Some v \/ (In k derived_fields /\ v = VFloat 0)).
Proof. exact (fill_fold_spec derived_fields opts). Qed.

Lemma is_derived_In k : is_derived k = true <-> In k derived_fields.
Proof.
  unfold is_derived. rewrite existsb_exists. split.
  - intros (x & Hin & Heq). apply String.eqb_eq in Heq. now subst.
  - intros Hin. exists k. split; [exact Hin | apply String.eqb_refl].
Qed.

Lemma derived_not_spin k :
  In k derived_fields -> ~ In k spin_components.
Proof.
  cbn. intros H.
  repeat (destruct H as [<-|H]; [intros X; cbn in X; intuition discriminate|]).
  destruct H.
Qed.

Lemma derive_from_keeps_numeric src dst op (opts : gmap string value) :
  src <> dst -> is_derived src = true ->
  (forall f, exists g, op (VFloat f) = Ok (VFloat g)) ->
  derived_numeric opts ->
  exists o', derive_from src dst op opts = Ok o' /\
    derived_numeric o' /\
    (forall k, k <> dst -> o' !! k = opts !! k) /\
    (forall v, opts !! dst = Some v -> is_Some (o' !! dst)).
Proof.
  intros Hne Hd Hop Hnum.
  destruct (derive_from_numeric src dst op opts Hne Hop) as (o' & E & F & D).
  { intros v Hv. exact (Hnum _ _ Hd Hv). }
  exists o'. split; [exact E|]. split; [|split; [exact F|]].
  - intros k v Hk Hv. destruct (decide (k = dst)) as [->|Hkd].
    + destruct D as [D|[g D]]; rewrite D in Hv.
      * exact (Hnum _ _ Hk Hv).
      * now injection Hv as <-.
    + rewrite (F _ Hkd) in Hv. exact (Hnum _ _ Hk Hv).
  - intros v Hv. destruct D as [D|[g D]]; rewrite D; eauto.
Qed.

(** The stages before the final defaulting. When spin completion does not
    raise and the line loop leaves no derived field bound to text, the
    parser returns the final defaulting of a record [o3] whose derived
    fields hold numbers and which differs from the completed record [o1] in
    the two counts only. *)
Lemma parse_numeric_lines (raw : list string) :
  is_ok (spin_completion (parse_lines (List.filter keeps_line raw))) = true ->
  derived_numeric (parse_lines (List.filter keeps_line raw)) ->
  exists o1 o3 : gmap string value,
    spin_completion (parse_lines (List.filter keeps_line raw)) = Ok o1 /\
    parse_metadata_txt raw = Ok (List.filter keeps_line raw, fill_derived o3) /\
    derived_numeric o3 /\
    (forall k, k <> "number-of-orbits" -> k <> "number-of-cycles-22" ->
       o3 !! k = o1 !! k).
Proof.
  intros Hspin N0. unfold parse_metadata_txt.
  set (nxt := List.filter keeps_line raw) in *.
  destruct (spin_completion (parse_lines nxt)) as [o1|] eqn:E1;
    [clear Hspin | discriminate Hspin].
  destruct (spin_completion_extends _ _ E1) as [P1 Q1].
  assert (N1 : derived_numeric o1).
  { intros k v Hk Hv. destruct (Q1 k v Hv) as [Hv'|[_ ->]];
      [exact (N0 _ _ Hk Hv') | reflexivity]. }
  destruct (derive_from_keeps_numeric "number-of-cycles-22" "number-of-orbits"
              halve o1 ltac:(discriminate) eq_refl halve_float N1)
    as (o2 & E2 & N2 & F2 & _).
  destruct (derive_from_keeps_numeric "number-of-orbits" "number-of-cycles-22"
              double o2 ltac:(discriminate) eq_refl double_float N2)
    as (o3 & E3 & N3 & F3 & _).
  unfold cycles_to_orbits, orbits_to_cycles. cbn [rbind].
  rewrite E2. cbn [rbind]. rewrite E3. cbn [rbind].
  exists o1, o3. repeat split; [exact N3|].
  intros k Ho Hc. now rewrite (F3 _ Hc), (F2 _ Ho).
Qed.

(** The same when no line re-binds a derived field with text. *)
Lemma parse_before_defaulting (raw : list string) :
  is_ok (spin_completion (parse_lines (List.filter keeps_line raw))) = true ->
  rebinds_unparseable [] (List.filter keeps_line raw) = false ->
  exists o1 o3 : gmap string value,
    spin_completion (parse_lines (List.filter keeps_line raw)) = Ok o1 /\
    parse_metadata_txt raw = Ok (List.filter keeps_line raw, fill_derived o3) /\
    derived_numeric o3 /\
    (forall k, k <> "number-of-orbits" -> k <> "number-of-cycles-22" ->
       o3 !! k = o1 !! k).
Proof.
  intros Hspin Hre. apply parse_numeric_lines; [exact Hspin|].
  now apply parse_lines_numeric.
Qed.

(** ** C2: the parser is not total *)

Lemma zero_components_no_system_type comps (opts : gmap string value) :
  opts !! "system-type" = None ->
  zero_components comps opts
  = if forallb (fun k => mem k opts) comps then Ok opts
    else Raise (KeyError "system-type").
Proof.
  intros Hs. induction comps as [|xy comps IH]; [reflexivity|].
  cbn [zero_components forallb]. destruct (mem xy opts); cbn [negb andb].
  - exact IH.
  - unfold aligned_or_nonspinning, system_type_lower. now rewrite Hs.
Qed.

Lemma complete_spin_no_system_type z comps (opts : gmap string value) :
  opts !! "system-type" = None ->
  complete_spin z comps opts
  = if stage_idle opts (z, comps) then Ok opts
    else Raise (KeyError "system-type").
Proof.
  intros Hs. unfold complete_spin, stage_idle. cbn [fst snd].
  destruct (mem z opts); cbn [negb orb]; [|reflexivity].
  now apply zero_components_no_system_type.
Qed.

Lemma spin_completion_no_system_type (opts : gmap string value) :
  opts !! "system-type" = None ->
  spin_completion opts
  = if forallb (stage_idle opts) spin_groups then Ok opts
    else Raise (KeyError "system-type").
Proof.
  intros Hs. unfold spin_completion, spin_groups. cbn [forallb].
  repeat (rewrite (complete_spin_no_system_type _ _ _ Hs);
          match goal with
          | |- context [stage_idle opts ?g] => destruct (stage_idle opts g)
          end; cbn [rbind andb]; try reflexivity).
Qed.

(** C2 (what the code does). When the line loop leaves [system-type]
    unbound while it binds the [z] component of a spin group and leaves one
    of the group's [x], [y] components unbound, [parse_metadata_txt] raises
    [KeyError] instead of returning. *)
Theorem parse_raises_without_system_type (raw : list string)
  (z k : string) (comps : list string) :
  In (z, comps) spin_groups -> In k comps ->
  mem "system-type" (parse_lines (List.filter keeps_line raw)) = false ->
  mem z (parse_lines (List.filter keeps_line raw)) = true ->
  mem k (parse_lines (List.filter keeps_line raw)) = false ->
  parse_metadata_txt raw = Raise (KeyError "system-type").
Proof.
  intros Hg Hk Hs Hz Hx. unfold parse_metadata_txt.
  set (opts := parse_lines (List.filter keeps_line raw)) in *.
  apply mem_false in Hs. rewrite (spin_completion_no_system_type opts Hs).
  assert (forallb (stage_idle opts) spin_groups = false) as ->; [|reflexivity].
  apply not_true_is_false. intros Hall. rewrite forallb_forall in Hall.
  specialize (Hall _ Hg). unfold stage_idle in Hall. cbn [fst snd] in Hall.
  rewrite Hz in Hall. cbn [negb orb] in Hall.
  rewrite forallb_forall in Hall. specialize (Hall _ Hk). congruence.
Qed.

Lemma parse_raises_without_system_type_witness :
  parse_metadata_txt ["relaxed-chi1z = 0.2"] = Raise (KeyError "system-type").
Proof.
  apply (parse_raises_without_system_type ["relaxed-chi1z = 0.2"]
           "relaxed-chi1z" "relaxed-chi1x" ["relaxed-chi1x"; "relaxed-chi1y"]);
    [cbn; auto | cbn; auto | reflexivity | reflexivity | reflexivity].
Defined.

(** The other two ways the parser raises: a numeric [system-type] has no
    [lower], and a derived count re-bound to text cannot be halved. *)
Lemma parse_raises_on_numeric_system_type :
  parse_metadata_txt ["relaxed-chi1z = 0.2"; "system-type = 1"]
  = Raise AttributeError.
Proof. vm_compute. reflexivity. Qed.

Lemma parse_raises_on_rebound_cycles :
  parse_metadata_txt ["number-of-cycles-22 = 10"; "number-of-cycles-22 = abc"]
  = Raise TypeError.
Proof. vm_compute. reflexivity. Qed.

(** What the parser does guarantee: with a textual [system-type] and no
    derived field re-bound to text, it returns. *)
Lemma parse_returns (raw : list string) (s : string) :
  parse_lines (List.filter keeps_line raw) !! "system-type" = Some (VStr s) ->
  rebinds_unparseable [] (List.filter keeps_line raw) = false ->
  exists opts, parse_metadata_txt raw = Ok (List.filter keeps_line raw, opts).
Proof.
  intros Hs Hre.
  destruct (spin_completion_str _ s Hs) as (o' & E & _).
  destruct (parse_before_defaulting raw) as (_ & o3 & _ & H & _);
    [now rewrite E | exact Hre | eauto].
Qed.

Lemma derive_from_frame src dst op (opts o' : gmap string value) :
  derive_from src dst op opts = Ok o' ->
  forall k, k <> dst -> o' !! k = opts !! k.
Proof.
  unfold derive_from. intros H k Hk.
  destruct (mem src opts); [|now injection H as <-].
  destruct (mem dst opts); cbn [negb rbind] in H.
  - destruct (getitem opts dst) as [d|]; [|discriminate H]. cbn [rbind] in H.
    destruct (eq_zero d); [|now injection H as <-].
    destruct (getitem opts src) as [v|]; [|discriminate H]. cbn [rbind] in H.
    destruct (op v) as [w|]; [|discriminate H]. cbn [rbind] in H.
    injection H as <-. now rewrite lookup_insert_ne.
  - destruct (getitem opts src) as [v|]; [|discriminate H]. cbn [rbind] in H.
    destruct (op v) as [w|]; [|discriminate H]. cbn [rbind] in H.
    destruct (getitem (<[dst:=w]> opts) dst) as [d|]; [|discriminate H].
    cbn [rbind] in H. destruct (eq_zero d).
    + destruct (getitem (<[dst:=w]> opts) src) as [v'|]; [|discriminate H].
      cbn [rbind] in H. destruct (op v') as [w'|]; [|discriminate H].
      cbn [rbind] in H. injection H as <-. now rewrite !lookup_insert_ne.
    + injection H as <-. now rewrite lookup_insert_ne.
Qed.

(** The tail of the parser once spin completion has returned [o1]. *)
Lemma parse_after_spin (raw : list string) (o1 : gmap string value) :
  spin_completion (parse_lines (List.filter keeps_line raw)) = Ok o1 ->
  parse_metadata_txt raw
  = (let* o2 := cycles_to_orbits o1 in
     let* o3 := orbits_to_cycles o2 in
     Ok (List.filter keeps_line raw, fill_derived o3)).
Proof. intros E. unfold parse_metadata_txt. now rewrite E. Qed.

Lemma spin_keeps_unbound (opts o1 : gmap string value) k :
  spin_completion opts = Ok o1 -> ~ In k spin_components ->
  o1 !! k = opts !! k.
Proof.
  intros E Hk. destruct (spin_completion_extends _ _ E) as [P Q].
  destruct (opts !! k) as [v|] eqn:Hv; [now apply P|].
  destruct (o1 !! k) as [w|] eqn:Hw; [|reflexivity].
  destruct (Q k w Hw) as [?|[? _]]; [congruence | contradiction].
Qed.

Lemma cycles_ne_orbits : "number-of-cycles-22" <> "number-of-orbits".
Proof. discriminate. Qed.

Lemma orbits_ne_cycles : "number-of-orbits" <> "number-of-cycles-22".
Proof. discriminate. Qed.

Lemma cycles_then_orbits (o1 : gmap string value) (x : float) :
  o1 !! "number-of-cycles-22" = Some (VFloat x) ->
  (o1 !! "number-of-orbits" = None \/
   exists o, o1 !! "number-of-orbits" = Some (VFloat o) /\ (o =? 0)%float = true) ->
  exists o3,
    (let* o2 := cycles_to_orbits o1 in orbits_to_cycles o2) = Ok o3 /\
    o3 !! "number-of-orbits" = Some (VFloat (x / 2)).
Proof.
  intros Hc Ho. unfold cycles_to_orbits, orbits_to_cycles.
  rewrite (derive_from_float _ _ halve o1 _ (VFloat (x / 2))
             cycles_ne_orbits Hc eq_refl).
  set (o2 := <["number-of-orbits" := VFloat (x / 2)]> o1).
  assert (match o1 !! "number-of-orbits" with
          | Some d => if eq_zero d then o2 else o1
          | None => o2
          end = o2) as ->.
  { destruct Ho as [->|(o & -> & Hz)]; [reflexivity|]. cbn. now rewrite Hz. }
  cbn [rbind].
  rewrite (derive_from_float _ _ double o2 (VFloat (x / 2))
             (VFloat (x / 2 * 2)) orbits_ne_cycles
             (lookup_insert_eq _ _ _) eq_refl).
  eexists. split; [reflexivity|].
  unfold o2. rewrite lookup_insert_ne, Hc by discriminate.
  destruct (eq_zero (VFloat x)).
  - rewrite lookup_insert_ne by discriminate. apply lookup_insert_eq.
  - apply lookup_insert_eq.
Qed.

Lemma orbits_then_cycles (o1 : gmap string value) (x : float) :
  o1 !! "number-of-orbits" = Some (VFloat x) ->
  (o1 !! "number-of-cycles-22" = None \/
   exists c, o1 !! "number-of-cycles-22" = Some (VFloat c) /\
             (c =? 0)%float = true /\ (x =? 0)%float = false) ->
  exists o3,
    (let* o2 := cycles_to_orbits o1 in orbits_to_cycles o2) = Ok o3 /\
    o3 !! "number-of-cycles-22" = Some (VFloat (x * 2)).
Proof.
  intros Ho Hc. unfold cycles_to_orbits, orbits_to_cycles.
  destruct Hc as [Hc|(c & Hc & Hz & Hx)].
  - rewrite (derive_from_absent _ _ _ _ Hc). cbn [rbind].
    rewrite (derive_from_float _ _ double o1 _ (VFloat (x * 2))
               orbits_ne_cycles Ho eq_refl), Hc.
    eexists. split; [reflexivity | apply lookup_insert_eq].
  - rewrite (derive_from_float _ _ halve o1 _ (VFloat (c / 2))
               cycles_ne_orbits Hc eq_refl), Ho.
    cbn [eq_zero]. rewrite Hx. cbn [rbind].
    rewrite (derive_from_float _ _ double o1 _ (VFloat (x * 2))
               orbits_ne_cycles Ho eq_refl), Hc.
    cbn [eq_zero]. rewrite Hz.
    eexists. split; [reflexivity | apply lookup_insert_eq].
Qed.

(** ** C8: orbits and cycles *)

(** C8. Orbit/cycle cross-derivation. Let the line loop bind
    [number-of-cycles-22] to [x] and leave [number-of-orbits] unbound or equal
    to zero: then the parsed record has [number-of-orbits = x / 2] (so 5.0
    for 10). Symmetrically, with [number-of-orbits] bound to [x] and
    [number-of-cycles-22] unbound, or zero while [x] is not, the record has
    [number-of-cycles-22 = x * 2] (so 10.0 for 5). In both cases the parser
    returns as soon as spin completion does. The cycles-to-orbits rule runs
    first: the parser is the composition written below, and on the input
    [cycles = 0, orbits = -0] both fields end as [+0.0], the sign of the
    cycle count (the other order would give [-0.0]). *)
Theorem orbit_cycle_cross_derivation (raw : list string) (x : float) :
  (is_ok (spin_completion (parse_lines (List.filter keeps_line raw))) = true ->
   parse_lines (List.filter keeps_line raw) !! "number-of-cycles-22"
     = Some (VFloat x) ->
   (parse_lines (List.filter keeps_line raw) !! "number-of-orbits" = None \/
    exists o, parse_lines (List.filter keeps_line raw) !! "number-of-orbits"
                = Some (VFloat o) /\ (o =? 0)%float = true) ->
   exists opts : gmap string value,
     parse_metadata_txt raw = Ok (List.filter keeps_line raw, opts) /\
     opts !! "number-of-orbits" = Some (VFloat (x / 2)))
  /\
  (is_ok (spin_completion (parse_lines (List.filter keeps_line raw))) = true ->
   parse_lines (List.filter keeps_line raw) !! "number-of-orbits"
     = Some (VFloat x) ->
   (parse_lines (List.filter keeps_line raw) !! "number-of-cycles-22" = None \/
    exists c, parse_lines (List.filter keeps_line raw) !! "number-of-cycles-22"
                = Some (VFloat c) /\
              (c =? 0)%float = true /\ (x =? 0)%float = false) ->
   exists opts : gmap string value,
     parse_metadata_txt raw = Ok (List.filter keeps_line raw, opts) /\
     opts !! "number-of-cycles-22" = Some (VFloat (x * 2)))
  /\
  parse_metadata_txt raw
  = (let* o1 := spin_completion (parse_lines (List.filter keeps_line raw)) in
     let* o2 := cycles_to_orbits o1 in
     let* o3 := orbits_to_cycles o2 in
     Ok (List.filter keeps_line raw, fill_derived o3))
  /\
  parsed_field ["number-of-cycles-22 = 0"; "number-of-orbits = -0"]
    "number-of-orbits" = Ok (Some (VFloat 0))
  /\
  parsed_field ["number-of-cycles-22 = 0"; "number-of-orbits = -0"]
    "number-of-cycles-22" = Ok (Some (VFloat 0)).
Proof.
  set (nxt := List.filter keeps_line raw).
  assert (Hkeep : forall k, In k ["number-of-cycles-22"; "number-of-orbits"] ->
                            ~ In k spin_components).
  { intros k Hk. apply derived_not_spin. cbn in *. intuition. }
  split; [|split; [|split; [reflexivity|split]]].
  - intros Hspin Hc Ho.
    destruct (spin_completion (parse_lines nxt)) as [o1|] eqn:E1;
      [clear Hspin | discriminate Hspin].
    rewrite (parse_after_spin raw o1 E1).
    destruct (cycles_then_orbits o1 x) as (o3 & E3 & H3).
    { rewrite (spin_keeps_unbound _ _ _ E1); [exact Hc|]. apply Hkeep. cbn; auto. }
    { rewrite (spin_keeps_unbound _ _ _ E1); [exact Ho|]. apply Hkeep. cbn; auto. }
    destruct (cycles_to_orbits o1) as [o2|]; [|discriminate E3].
    cbn [rbind] in *. rewrite E3. cbn [rbind].
    exists (fill_derived o3). split; [reflexivity|].
    now apply (fill_derived_spec o3).
  - intros Hspin Ho Hc.
    destruct (spin_completion (parse_lines nxt)) as [o1|] eqn:E1;
      [clear Hspin | discriminate Hspin].
    rewrite (parse_after_spin raw o1 E1).
    destruct (orbits_then_cycles o1 x) as (o3 & E3 & H3).
    { rewrite (spin_keeps_unbound _ _ _ E1); [exact Ho|]. apply Hkeep. cbn; auto. }
    { rewrite (spin_keeps_unbound _ _ _ E1); [exact Hc|]. apply Hkeep. cbn; auto. }
    destruct (cycles_to_orbits o1) as [o2|]; [|discriminate E3].
    cbn [rbind] in *. rewrite E3. cbn [rbind].
    exists (fill_derived o3). split; [reflexivity|].
    now apply (fill_derived_spec o3).
  - vm_compute. reflexivity.
  - vm_compute. reflexivity.
Qed.

Lemma orbit_cycle_cross_derivation_witness :
  (exists opts : gmap string value,
     parse_metadata_txt ["number-of-cycles-22 = 10"]
       = Ok (["number-of-cycles-22 = 10"], opts) /\
     opts !! "number-of-orbits" = Some (VFloat 5)) /\
  (exists opts : gmap string value,
     parse_metadata_txt ["number-of-orbits = 5"]
       = Ok (["number-of-orbits = 5"], opts) /\
     opts !! "number-of-cycles-22" = Some (VFloat 10)) /\
  (exists opts : gmap string value,
     parse_metadata_txt ["number-of-cycles-22 = 10"; "number-of-orbits = 0"]
       = Ok (["number-of-cycles-22 = 10"; "number-of-orbits = 0"], opts) /\
     opts !! "number-of-orbits" = Some (VFloat 5)) /\
  (exists opts : gmap string value,
     parse_metadata_txt ["number-of-orbits = 5"; "number-of-cycles-22 = 0"]
       = Ok (["number-of-orbits = 5"; "number-of-cycles-22 = 0"], opts) /\
     opts !! "number-of-cycles-22" = Some (VFloat 10)).
Proof.
  repeat split.
  - destruct (orbit_cycle_cross_derivation ["number-of-cycles-22 = 10"] 10)
      as (A & _).
    apply A; [reflexivity | reflexivity | left; reflexivity].
  - destruct (orbit_cycle_cross_derivation ["number-of-orbits = 5"] 5)
      as (_ & B & _).
    apply B; [reflexivity | reflexivity | left; reflexivity].
  - destruct (orbit_cycle_cross_derivation
                ["number-of-cycles-22 = 10"; "number-of-orbits = 0"] 10)
      as (A & _).
    apply A; [reflexivity | reflexivity |].
    right. exists 0%float. split; reflexivity.
  - destruct (orbit_cycle_cross_derivation
                ["number-of-orbits = 5"; "number-of-cycles-22 = 0"] 5)
      as (_ & B & _).
    apply B; [reflexivity | reflexivity |].
    right. exists 0%float. repeat split; reflexivity.
Defined.

(** ** C9: spin components of aligned and non-spinning systems *)

Lemma spin_not_orbit_cycle k :
  In k spin_components ->
  k <> "number-of-orbits" /\ k <> "number-of-cycles-22".
Proof.
  cbn. intros H.
  repeat (destruct H as [<-|H]; [split; discriminate|]). destruct H.
Qed.

Lemma spin_group_components z comps k :
  In (z, comps) spin_groups -> In k comps -> In k spin_components.
Proof.
  cbn. intros Hg Hk.
  repeat (destruct Hg as [Hg|Hg];
          [injection Hg as <- <-; cbn in Hk; intuition|]).
  destruct Hg.
Qed.

(** C9. Spin-component defaulting. Let the line loop bind [system-type] to a
    text that reads [aligned] or [nonspinning] in any letter case, bind the
    [z] component of one of the four spin groups ([relaxed-chi1z],
    [relaxed-chi2z], [initial-bh-chi1z], [initial-bh-chi2z]) and leave a
    component [k] of that group ([...x] or [...y]) unbound. Then every record
    the parser returns has [k = 0.0], and the parser does return unless a
    derived field was re-bound to text. *)
Theorem spin_component_defaulting (raw : list string) (s z k : string)
  (comps : list string) :
  In (z, comps) spin_groups -> In k comps ->
  parse_lines (List.filter keeps_line raw) !! "system-type" = Some (VStr s) ->
  aligned_text s = true ->
  mem z (parse_lines (List.filter keeps_line raw)) = true ->
  parse_lines (List.filter keeps_line raw) !! k = None ->
  (forall nxt (opts : gmap string value),
     parse_metadata_txt raw = Ok (nxt, opts) -> opts !! k = Some (VFloat 0)) /\
  (rebinds_unparseable [] (List.filter keeps_line raw) = false ->
   exists opts : gmap string value,
     parse_metadata_txt raw = Ok (List.filter keeps_line raw, opts)).
Proof.
  intros Hg Hk Hs Ha Hz Hnone. split; [|now apply (parse_returns raw s)].
  destruct (spin_completion_str _ s Hs) as (o1 & E1 & H1).
  specialize (H1 Ha z comps k Hg Hz Hk Hnone).
  intros nxt opts. rewrite (parse_after_spin raw o1 E1).
  destruct (cycles_to_orbits o1) as [o2|] eqn:E2; [|discriminate].
  cbn [rbind]. destruct (orbits_to_cycles o2) as [o3|] eqn:E3; [|discriminate].
  cbn [rbind]. intros [= <- <-].
  destruct (spin_not_orbit_cycle k (spin_group_components _ _ _ Hg Hk))
    as [Hko Hkc].
  apply (fill_derived_spec o3).
  rewrite (derive_from_frame _ _ _ _ _ E3 k Hkc).
  rewrite (derive_from_frame _ _ _ _ _ E2 k Hko). exact H1.
Qed.

Lemma spin_component_defaulting_witness :
  ((forall nxt (opts : gmap string value),
      parse_metadata_txt ["relaxed-chi1z = 0.2"; "system-type = aligned"]
        = Ok (nxt, opts) ->
      opts !! "relaxed-chi1x" = Some (VFloat 0)) /\
   (rebinds_unparseable []
      (List.filter keeps_line ["relaxed-chi1z = 0.2"; "system-type = aligned"])
    = false ->
    exists opts : gmap string value,
      parse_metadata_txt ["relaxed-chi1z = 0.2"; "system-type = aligned"]
      = Ok (List.filter keeps_line
              ["relaxed-chi1z = 0.2"; "system-type = aligned"], opts))) /\
  ((forall nxt (opts : gmap string value),
      parse_metadata_txt ["initial-bh-chi2z = -0.5"; "system-type = NonSpinning"]
        = Ok (nxt, opts) ->
      opts !! "initial-bh-chi2y" = Some (VFloat 0)) /\
   (rebinds_unparseable []
      (List.filter keeps_line
         ["initial-bh-chi2z = -0.5"; "system-type = NonSpinning"])
    = false ->
    exists opts : gmap string value,
      parse_metadata_txt ["initial-bh-chi2z = -0.5"; "system-type = NonSpinning"]
      = Ok (List.filter keeps_line
              ["initial-bh-chi2z = -0.5"; "system-type = NonSpinning"], opts))).
Proof.
  split.
  - apply (spin_component_defaulting
             ["relaxed-chi1z = 0.2"; "system-type = aligned"] "aligned"
             "relaxed-chi1z" "relaxed-chi1x" ["relaxed-chi1x"; "relaxed-chi1y"]);
      [cbn; auto | cbn; auto | reflexivity | reflexivity | reflexivity
      | reflexivity].
  - apply (spin_component_defaulting
             ["initial-bh-chi2z = -0.5"; "system-type = NonSpinning"]
             "NonSpinning" "initial-bh-chi2z" "initial-bh-chi2y"
             ["initial-bh-chi2x"; "initial-bh-chi2y"]);
      [cbn; auto 6 | cbn; auto | reflexivity | reflexivity | reflexivity
      | reflexivity].
Defined.

(** The record of the specification's example, field by field. *)
Lemma spin_defaulting_example :
  let raw := ["relaxed-chi1z = 0.2"; "system-type = aligned"] in
  parsed_field raw "relaxed-chi1x" = Ok (Some (VFloat 0)) /\
  parsed_field raw "relaxed-chi1y" = Ok (Some (VFloat 0)) /\
  parsed_field raw "system-type" = Ok (Some (VStr "aligned")).
Proof. repeat split; vm_compute; reflexivity. Qed.

(** ** C5: the two cache scans *)

(** C5 (what the code does). When both family tags have matches on disk,
    [metadata_filename_from_cache] returns the first match of the second
    tag (its loop has no [break], so a later tag overwrites the result),
    while [simname_from_cache] returns the name of the first match of the
    first tag. Neither raises nor changes the world. *)
Theorem cache_scans_disagree (h : RITCatalogHelper) (idx : Z) (w : World)
  (t0 t1 f0 f1 : string) (r0 r1 : list string) :
  simtags h idx = Ok [t0; t1] ->
  fst (glob_prefix (path_join (metadata_dir h) t0) w) = Ok (f0 :: r0) ->
  fst (glob_prefix (path_join (metadata_dir h) t1) w) = Ok (f1 :: r1) ->
  metadata_filename_from_cache h idx w = (Ok f1, w) /\
  simname_from_cache h idx w
  = (Ok (simname_from_metadata_filename (basename f0)), w).
Proof.
  intros Ht H0 H1.
  unfold metadata_filename_from_cache, simname_from_cache, bind, lift.
  rewrite Ht. cbn [metadata_filename_scan simname_scan bind].
  unfold glob_prefix in *. cbn [fst] in H0, H1. unfold bind.
  injection H0 as H0. injection H1 as H1. rewrite H0, H1. split; reflexivity.
Qed.

Lemma cache_scans_disagree_witness :
  metadata_filename_from_cache (rit_helper "/cache" 0 true [100; 200] 6) 1
    both_families
  = (Ok "/cache/metadata/RIT:eBBH:0001-n100-ecc_Metadata.txt", both_families) /\
  simname_from_cache (rit_helper "/cache" 0 true [100; 200] 6) 1 both_families
  = (Ok "RIT:BBH:0001-n100-id3", both_families).
Proof.
  apply (cache_scans_disagree (rit_helper "/cache" 0 true [100; 200] 6) 1
           both_families "RIT:BBH:0001" "RIT:eBBH:0001"
           "/cache/metadata/RIT:BBH:0001-n100-id3_Metadata.txt"
           "/cache/metadata/RIT:eBBH:0001-n100-ecc_Metadata.txt" [] []);
    reflexivity.
Defined.

(** X29. Without a file that matches either tag, the lookups in the cache
    return the empty value (the empty string, the empty table) and leave
    the world as it was; none raises. *)
Lemma cache_scans_absent (h : RITCatalogHelper) (idx : Z) (w : World)
  (t0 t1 : string) :
  simtags h idx = Ok [t0; t1] ->
  fst (glob_prefix (path_join (metadata_dir h) t0) w) = Ok [] ->
  fst (glob_prefix (path_join (metadata_dir h) t1) w) = Ok [] ->
  metadata_filename_from_cache h idx w = (Ok EmptyString, w) /\
  simname_from_cache h idx w = (Ok EmptyString, w) /\
  metadata_from_cache h idx w = (Ok [], w).
Proof.
  intros Ht H0 H1.
  unfold metadata_filename_from_cache, simname_from_cache, metadata_from_cache,
    bind, lift.
  rewrite Ht.
  cbn [metadata_filename_scan simname_scan metadata_from_cache_scan bind].
  unfold glob_prefix in *. cbn [fst] in H0, H1. unfold bind.
  injection H0 as H0. injection H1 as H1. rewrite H0, H1.
  repeat split; reflexivity.
Qed.

(** [simname_from_cache] and [metadata_from_cache] do prefer the first tag:
    a match of the first tag decides, whatever the second tag matches. *)
Lemma simname_from_cache_first_tag (h : RITCatalogHelper) (idx : Z)
  (w : World) (t0 t1 f0 : string) (r0 : list string) :
  simtags h idx = Ok [t0; t1] ->
  fst (glob_prefix (path_join (metadata_dir h) t0) w) = Ok (f0 :: r0) ->
  simname_from_cache h idx w
  = (Ok (simname_from_metadata_filename (basename f0)), w).
Proof.
  intros Ht H0. unfold simname_from_cache, bind, lift. rewrite Ht.
  cbn [simname_scan bind]. unfold glob_prefix in *. cbn [fst] in H0.
  unfold bind. injection H0 as H0. now rewrite H0.
Qed.

(** The record [metadata_from_cache] builds in that world mixes the two
    families: the name and the locations are the quasicircular file's, the
    two data links are the eccentric file's. *)
Lemma metadata_from_cache_mixes_families :
  let h := rit_helper "/cache" 0 true [100; 200] 6 in
  match fst (metadata_from_cache h 1 both_families) with
  | Ok [row] =>
      row !! "simulation_name" = Some (VStr "RIT:BBH:0001-n100-id3") /\
      row !! "psi4_data_link"
      = Some (VStr (psi4_data_url h ++ "/ExtrapPsi4_RIT-eBBH-0001-n100-ecc.tar.gz"))
  | _ => False
  end.
Proof. vm_compute. split; reflexivity. Qed.

(** ** C10: the three path accessors *)

(** C10. For a known simulation whose three computed local files do not
    exist, [metadata_filepath_from_simname] raises [RuntimeError],
    [psi4_filepath_from_simname] returns the empty string and
    [waveform_filepath_from_simname] returns the computed path. *)
Theorem path_accessors_on_missing_files (c : RITCatalog) (sim_name : string)
  (row : gmap string value) (pm pw pp : string) (w : World) :
  simulations c !! sim_name = Some row ->
  row !! "metadata_location" = Some (VStr pm) ->
  row !! "waveform_data_location" = Some (VStr pw) ->
  row !! "psi4_data_location" = Some (VStr pp) ->
  assoc pm (files w) = None ->
  assoc pw (files w) = None ->
  assoc pp (files w) = None ->
  metadata_filepath_from_simname c sim_name w
  = (Raise (RuntimeError ("Could not resolve path for " ++ sim_name
                          ++ "..best calculated path = " ++ pm)), w) /\
  psi4_filepath_from_simname c sim_name w = (Ok EmptyString, w) /\
  waveform_filepath_from_simname c sim_name w = (Ok pw, w).
Proof.
  intros Hs Hm Hw Hp Em Ew Ep.
  unfold metadata_filepath_from_simname, psi4_filepath_from_simname,
    waveform_filepath_from_simname, bind, lift, location, get_metadata,
    path_exists, raise, ret.
  rewrite Hs. cbn [rbind]. rewrite Hm, Hw, Hp, ?Em, ?Ew, ?Ep.
  repeat split; reflexivity.
Qed.

Lemma path_accessors_on_missing_files_witness :
  let row : gmap string value :=
    <["metadata_location" := VStr "/cache/metadata/RIT:BBH:0001-n100-id3_Metadata.txt"]>
      (<["waveform_data_location" := VStr "/cache/data/ExtrapStrain_RIT-BBH-0001-n100.h5"]>
         (<["psi4_data_location" := VStr "/cache/data/ExtrapPsi4_RIT-BBH-0001-n100-id3.tar.gz"]>
            ∅)) in
  let c := {| simulations := {["RIT:BBH:0001-n100-id3" := row]};
              helper := rit_helper "/cache" 3 true [100; 200] 6;
              catalog_verbosity := 3 |} in
  let w := world_of [] None [] in
  metadata_filepath_from_simname c "RIT:BBH:0001-n100-id3" w
  = (Raise (RuntimeError
              ("Could not resolve path for RIT:BBH:0001-n100-id3"
               ++ "..best calculated path = "
               ++ "/cache/metadata/RIT:BBH:0001-n100-id3_Metadata.txt")), w) /\
  psi4_filepath_from_simname c "RIT:BBH:0001-n100-id3" w = (Ok EmptyString, w) /\
  waveform_filepath_from_simname c "RIT:BBH:0001-n100-id3" w
  = (Ok "/cache/data/ExtrapStrain_RIT-BBH-0001-n100.h5", w).
Proof.
  intros row c w.
  apply (path_accessors_on_missing_files c "RIT:BBH:0001-n100-id3" row
           "/cache/metadata/RIT:BBH:0001-n100-id3_Metadata.txt"
           "/cache/data/ExtrapStrain_RIT-BBH-0001-n100.h5"
           "/cache/data/ExtrapPsi4_RIT-BBH-0001-n100-id3.tar.gz" w);
    reflexivity.
Defined.

(** ** C6: resuming a crawl *)

Lemma length_slice_to {A : Type} (n : Z) (l : list A) :
  0 <= n <= Z.of_nat (length l) -> Z.of_nat (length (slice_to n l)) = n.
Proof.
  intros H. unfold slice_to. destruct (Z.leb_spec 0 n); [|lia].
  rewrite length_firstn. lia.
Qed.

(** C6 (as amended). With [use_cache], when the snapshot on disk holds at
    least [num_sims_to_crawl - 1] records, [download_metadata_for_catalog]
    returns at once the first [num_sims_to_crawl - 1] rows of it: no network
    call is made and nothing is written; the snapshot becomes the helper's
    table. The result has [num_sims_to_crawl - 1] rows, fewer than the
    configured size, whenever that size is at least 1. *)
Theorem crawl_short_circuit (h : RITCatalogHelper) (num_sims_to_crawl : Z)
  (resolutions : list Z) (max_id_in_name : Z) (w : World)
  (df : list (gmap string value)) :
  use_cache h = true ->
  snapshot w = Some df ->
  num_sims_to_crawl - 1 <= Z.of_nat (length df) ->
  exists w',
    download_metadata_for_catalog h num_sims_to_crawl resolutions
      max_id_in_name w
    = (Ok (slice_to (num_sims_to_crawl - 1) df), w') /\
    net_log w' = net_log w /\
    files w' = files w /\
    snapshot w' = snapshot w /\
    remote w' = remote w /\
    helper_metadata w' = df /\
    (1 <= num_sims_to_crawl ->
     Z.of_nat (length (slice_to (num_sims_to_crawl - 1) df))
     = num_sims_to_crawl - 1).
Proof.
  intros Hc Hs Hn. unfold download_metadata_for_catalog. rewrite Hc.
  unfold bind at 1. unfold snapshot_on_disk. rewrite Hs.
  unfold bind at 1. cbn [set_metadata].
  apply Z.leb_le in Hn as Hn'. rewrite Hn'.
  eexists. split; [reflexivity|]. cbn. rewrite Hs.
  do 5 (split; [reflexivity|]).
  intros H1. apply length_slice_to. lia.
Qed.

Lemma crawl_short_circuit_witness :
  exists w',
    download_metadata_for_catalog (rit_helper "/cache" 0 true [100; 200] 2)
      10 [] (-1) (world_of [] (Some (snapshot_rows 12)) [])
    = (Ok (slice_to (10 - 1) (snapshot_rows 12)), w') /\
    net_log w' = [] /\
    files w' = [] /\
    snapshot w' = Some (snapshot_rows 12) /\
    remote w' = [] /\
    helper_metadata w' = snapshot_rows 12 /\
    (1 <= 10 ->
     Z.of_nat (length (slice_to (10 - 1) (snapshot_rows 12))) = 10 - 1).
Proof.
  apply (crawl_short_circuit (rit_helper "/cache" 0 true [100; 200] 2) 10 []
           (-1) (world_of [] (Some (snapshot_rows 12)) [])
           (snapshot_rows 12));
    [reflexivity | reflexivity | vm_compute; discriminate].
Defined.

(** C6 as stated fails. A snapshot of 7 records, with their metadata files
    cached beside it, meets the acceptable fraction 0.7 of 10, yet the crawl
    does not short-circuit: it reads the 7 cached files once more, probes
    the remote archive 24 times for the indices 8 to 10 and returns 14
    rows, more than the configured size. And a snapshot of 12 records is cut
    to 9 rows, not 10. *)
Lemma crawl_resumes_over_the_network :
  let h := rit_helper "/cache" 0 true [100; 200] 2 in
  let run n := download_metadata_for_catalog h 10 [] (-1)
                 (world_of (cached_files n) (Some (snapshot_rows n)) []) in
  too_few (snapshot_rows 7) 0.7 10 = Ok false /\
  length (net_log (snd (run 7))) = 24%nat /\
  option_map (@length _) (snapshot (snd (run 7))) = Some 14%nat /\
  match fst (run 7) with Ok df => length df = 14%nat | Raise _ => False end /\
  match fst (run 12) with Ok df => length df = 9%nat | Raise _ => False end.
Proof. vm_compute. repeat split; reflexivity. Qed.

(** When the cached files are gone and only the snapshot is left, the table
    tier is the one that meets index 1, and its
    [DataFrame.from_dict(..., index=[0])] ends the crawl before any network
    call. *)
Lemma crawl_table_tier_raises :
  let h := rit_helper "/cache" 0 true [100; 200] 2 in
  download_metadata_for_catalog h 10 [] (-1)
    (world_of [] (Some (snapshot_rows 7)) [])
  = (Raise TypeError,
     with_metadata (snapshot_rows 7)
       (world_of [] (Some (snapshot_rows 7)) [])).
Proof. vm_compute. reflexivity. Qed.

(** X28. The completeness fraction gates [load], not the crawl: a
    non-empty snapshot with at least the acceptable fraction is turned into
    the catalog as it is, whole, without refresh or network call. *)
Lemma load_trusts_snapshot (info : RITCatalogHelper) (download : option bool)
  (num_sims_to_crawl : Z) (fraction : float) (verb : Z) (w : World)
  (df : list (gmap string value)) (sims : gmap string (gmap string value)) :
  snapshot w = Some df -> df <> [] ->
  too_few df fraction num_sims_to_crawl = Ok false ->
  simulations_of df ∅ = Ok sims ->
  exists w',
    load info download num_sims_to_crawl fraction verb w
    = (Ok {| simulations := sims; helper := caching info verb;
             catalog_verbosity := verb |}, w') /\
    net_log w' = net_log w /\ files w' = files w /\
    snapshot w' = snapshot w.
Proof.
  intros Hs Hne Hf Hsim.
  assert (Hread : read_metadata_df_from_disk w = (Ok df, with_metadata df w)).
  { unfold read_metadata_df_from_disk, bind, snapshot_on_disk. now rewrite Hs. }
  unfold load. unfold bind at 1. rewrite Hread.
  destruct df as [|r df]; [congruence|].
  cbn [length Nat.eqb]. unfold bind at 1. unfold bind at 1. unfold lift at 1.
  rewrite Hf. cbn [ret]. unfold bind at 1. unfold lift at 1. rewrite Hf.
  unfold bind, lift. cbn [ret]. rewrite Hsim.
  eexists. split; [reflexivity|]. cbn. auto.
Qed.

(** ** C4: the remote search *)

Lemma url_exists_present u c w :
  assoc u (remote w) = Some c ->
  url_exists u w = (Ok true, log_event (Probe u) w).
Proof. intros H. unfold url_exists. now rewrite H. Qed.

Lemma url_exists_absent u w :
  assoc u (remote w) = None ->
  url_exists u w = (Ok false, log_event (Probe u) w).
Proof. intros H. unfold url_exists. now rewrite H. Qed.

Lemma assoc_write_file path (lines : list string) l :
  assoc path (write_file path lines l) = Some lines.
Proof.
  induction l as [|[p c] l IH]; cbn.
  - now rewrite String.eqb_refl.
  - destruct (String.eqb path p) eqn:E; cbn; rewrite ?String.eqb_refl, ?E;
      [reflexivity | exact IH].
Qed.

Lemma parse_size (raw nxt : list string) (d : gmap string value) :
  parse_metadata_txt raw = Ok (nxt, d) -> (0 <? size d)%nat = true.
Proof.
  unfold parse_metadata_txt. intros H.
  destruct (spin_completion _) as [o1|]; [|discriminate H]. cbn [rbind] in H.
  destruct (cycles_to_orbits o1) as [o2|]; [|discriminate H]. cbn [rbind] in H.
  destruct (orbits_to_cycles o2) as [o3|]; [|discriminate H]. cbn [rbind] in H.
  injection H as _ <-.
  destruct (fill_derived_spec o3) as (_ & A & _).
  destruct (A "Msun") as [v Hv]; [cbn; auto 10|].
  apply Nat.ltb_lt. destruct (size (fill_derived o3)) eqn:E; [|lia].
  apply map_size_empty_iff in E. rewrite E, lookup_empty in Hv. discriminate.
Qed.

Lemma with_links_ok h d sim_name link location psi4 wf :
  psi4_filename_from_simname h sim_name = Ok psi4 ->
  waveform_filename_from_simname h sim_name = Ok wf ->
  with_links h d sim_name link location
    (psi4_data_url h ++ "/" ++ psi4) (waveform_data_url h ++ "/" ++ wf)
  = Ok (linked h d sim_name link location psi4 wf).
Proof. intros Hp Hw. unfold with_links. now rewrite Hp, Hw. Qed.

Lemma linked_lookup h d sim_name link location psi4 wf :
  linked h d sim_name link location psi4 wf !! "simulation_name"
    = Some (VStr sim_name) /\
  linked h d sim_name link location psi4 wf !! "metadata_link"
    = Some (VStr link).
Proof.
  unfold linked. split.
  - rewrite !lookup_insert_ne by discriminate. apply lookup_insert_eq.
  - rewrite !lookup_insert_ne by discriminate. apply lookup_insert_eq.
Qed.

Lemma frame_of_linked h d sim_name link location psi4 wf :
  frame_of_dict (linked h d sim_name link location psi4 wf)
  = [linked h d sim_name link location psi4 wf].
Proof.
  unfold frame_of_dict.
  destruct (size _ =? 0)%nat eqn:E; [|reflexivity].
  apply Nat.eqb_eq, map_size_empty_iff in E.
  unfold linked in E. now apply insert_non_empty in E.
Qed.

(** A candidate the archive does not hold costs one probe. *)
Lemma download_scan_skip h n rest d w :
  assoc (metadata_link_of h n) (remote w) = None ->
  download_metadata_scan h (n :: rest) d w
  = download_metadata_scan h rest d (log_event (Probe (metadata_link_of h n)) w).
Proof.
  intros H. cbn [download_metadata_scan]. unfold bind at 1.
  fold (metadata_link_of h n). now rewrite (url_exists_absent _ _ H).
Qed.

(** A candidate the archive holds, and that is not cached, is probed twice,
    fetched, saved, parsed and returned with its links. *)
Lemma download_scan_hit h n rest w content nxt d psi4 wf :
  assoc (metadata_link_of h n) (remote w) = Some content ->
  (use_cache h = false \/
   assoc (path_join (metadata_dir h) n) (files w) = None) ->
  parse_metadata_txt content = Ok (nxt, d) ->
  psi4_filename_from_simname h (simname_from_metadata_filename n) = Ok psi4 ->
  waveform_filename_from_simname h (simname_from_metadata_filename n) = Ok wf ->
  download_metadata_scan h (n :: rest) ∅ w
  = (Ok (linked h d (simname_from_metadata_filename n) (metadata_link_of h n)
           (path_join (metadata_dir h) n) psi4 wf),
     with_files (write_file (path_join (metadata_dir h) n) content (files w))
       (log_event (Fetch (metadata_link_of h n))
          (log_event (Probe (metadata_link_of h n))
             (log_event (Probe (metadata_link_of h n)) w)))).
Proof.
  intros Hr Hc Hp Hpsi Hwf. cbn [download_metadata_scan].
  fold (metadata_link_of h n). unfold bind at 1.
  rewrite (url_exists_present _ _ _ Hr). cbn [negb].
  set (w1 := log_event (Probe (metadata_link_of h n)) w).
  assert (Hcache :
    (if use_cache h
     then let! cached := exists_nonempty (path_join (metadata_dir h) n) in
          if cached
          then let! (_, d0) := metadata_from_file (path_join (metadata_dir h) n)
               in ret d0
          else ret (∅ : gmap string value)
     else ret ∅) w1 = (Ok ∅, w1)).
  { destruct Hc as [->|Hc]; [reflexivity|].
    destruct (use_cache h); [|reflexivity].
    unfold bind, exists_nonempty. cbn [files w1 log_event]. now rewrite Hc. }
  unfold bind at 1. rewrite Hcache.
  rewrite map_size_empty. cbn [Nat.eqb].
  unfold bind at 1. unfold bind at 1.
  rewrite (url_exists_present _ content w1) by exact Hr.
  unfold metadata_from_link, metadata_from_file.
  unfold bind at 1. unfold bind at 1. unfold download_file at 1.
  subst w1. cbn [remote files log_event]. rewrite Hr.
  unfold bind at 1. unfold readlines at 1. cbn [files with_files].
  rewrite assoc_write_file. unfold lift at 1. rewrite Hp. cbn [ret].
  unfold bind at 1. unfold lift at 1. rewrite Hpsi.
  unfold bind at 1. unfold lift at 1. rewrite Hwf.
  rewrite (parse_size _ _ _ Hp). unfold lift.
  now rewrite (with_links_ok _ _ _ _ _ _ _ Hpsi Hwf).
Qed.

Lemma download_metadata_miss h idx r id w q e :
  metadata_filenames h idx r id = Ok [q; e] ->
  assoc (metadata_link_of h q) (remote w) = None ->
  assoc (metadata_link_of h e) (remote w) = None ->
  download_metadata h idx r id w
  = (Ok [], log_event (Probe (metadata_link_of h e))
              (log_event (Probe (metadata_link_of h q)) w)).
Proof.
  intros Hn Hq He. unfold download_metadata. unfold bind at 1.
  unfold lift at 1. rewrite Hn. unfold bind at 1.
  rewrite (download_scan_skip _ _ _ _ _ Hq).
  rewrite download_scan_skip by exact He.
  reflexivity.
Qed.


Lemma after_misses_spec h quasi ecc ids : forall w,
  remote (after_misses h quasi ecc ids w) = remote w /\
  files (after_misses h quasi ecc ids w) = files w /\
  snapshot (after_misses h quasi ecc ids w) = snapshot w /\
  net_log (after_misses h quasi ecc ids w)
  = (net_log w ++ miss_events h quasi ecc ids)%list.
Proof.
  induction ids as [|id ids IH]; intros w.
  - cbn. now rewrite app_nil_r.
  - cbn [after_misses].
    destruct (IH (log_event (Probe (metadata_link_of h ecc))
                    (log_event (Probe (metadata_link_of h (quasi id))) w)))
      as (R & F & S & L).
    rewrite R, F, S, L. cbn. now rewrite <- !app_assoc.
Qed.

Lemma probe_ids_misses h idx r quasi ecc rest ids : forall w,
  (forall id, metadata_filenames h idx r id = Ok [quasi id; ecc]) ->
  (forall id, In id ids ->
     assoc (metadata_link_of h (quasi id)) (remote w) = None) ->
  (ids <> [] -> assoc (metadata_link_of h ecc) (remote w) = None) ->
  probe_ids h idx r (ids ++ rest)%list w
  = probe_ids h idx r rest (after_misses h quasi ecc ids w).
Proof.
  induction ids as [|id ids IH]; intros w Hn Hq He; [reflexivity|].
  cbn [app probe_ids after_misses]. unfold bind at 1.
  rewrite (download_metadata_miss h idx r id w (quasi id) ecc (Hn id)
             (Hq id (or_introl eq_refl)) (He ltac:(discriminate))).
  cbn [length Nat.ltb Nat.leb]. apply IH; [exact Hn | |].
  - intros id' Hin. cbn. apply Hq. now right.
  - intros _. cbn. apply He. discriminate.
Qed.


Lemma In_range (k id : Z) : In id (range k) -> 0 <= id < k.
Proof.
  unfold range. rewrite in_map_iff. intros (n & <- & Hin).
  apply in_seq in Hin. lia.
Qed.

Lemma after_resolution_misses_spec h quasi ecc ids ms : forall w,
  remote (after_resolution_misses h quasi ecc ids ms w) = remote w /\
  files (after_resolution_misses h quasi ecc ids ms w) = files w /\
  snapshot (after_resolution_misses h quasi ecc ids ms w) = snapshot w /\
  net_log (after_resolution_misses h quasi ecc ids ms w)
  = (net_log w ++ resolution_miss_events h quasi ecc ids ms)%list.
Proof.
  induction ms as [|m ms IH]; intros w.
  - cbn. now rewrite app_nil_r.
  - cbn [after_resolution_misses].
    destruct (IH (after_misses h (quasi m) (ecc m) ids w)) as (R & F & S & L).
    destruct (after_misses_spec h (quasi m) (ecc m) ids w)
      as (R' & F' & S' & L').
    rewrite R, F, S, L, R', F', S', L'. unfold resolution_miss_events.
    cbn [map concat]. now rewrite <- !app_assoc.
Qed.

Lemma probe_resolutions_misses h idx quasi ecc max_id rest ms : forall w,
  (forall m id, metadata_filenames h idx m id = Ok [quasi m id; ecc m]) ->
  (forall m id, In m ms -> 0 <= id < max_id ->
     assoc (metadata_link_of h (quasi m id)) (remote w) = None) ->
  (forall m, In m ms -> assoc (metadata_link_of h (ecc m)) (remote w) = None) ->
  probe_resolutions h idx (ms ++ rest)%list max_id w
  = probe_resolutions h idx rest max_id
      (after_resolution_misses h quasi ecc (range max_id) ms w).
Proof.
  induction ms as [|m ms IH]; intros w Hn Hq He; [reflexivity|].
  cbn [app probe_resolutions after_resolution_misses]. unfold bind at 1.
  pose proof (probe_ids_misses h idx m (quasi m) (ecc m) []
                (range max_id) w (Hn m)) as Hm.
  rewrite app_nil_r in Hm. rewrite Hm; clear Hm.
  - cbn [probe_ids ret].
    destruct (after_misses_spec h (quasi m) (ecc m) (range max_id) w)
      as (R & _).
    apply IH; [exact Hn | |].
    + intros m' id Hin Hid. rewrite R. apply Hq; [now right | exact Hid].
    + intros m' Hin. rewrite R. apply He. now right.
  - intros id Hin. apply Hq; [now left | now apply In_range].
  - intros _. apply He. now left.
Qed.


(** When every candidate of the resolutions configured after [r] and of [r]
    itself misses, the search goes on with the resolutions before [r]. *)
Lemma remote_search_after_misses (h : RITCatalogHelper)
  (idx max_id : Z) (rs later : list Z) (w : World)
  (quasi : Z -> Z -> string) (ecc : Z -> string) :
  (forall m id, metadata_filenames h idx m id = Ok [quasi m id; ecc m]) ->
  (forall m id, In m later -> 0 <= id < max_id ->
     assoc (metadata_link_of h (quasi m id)) (remote w) = None) ->
  (forall m, In m later ->
     assoc (metadata_link_of h (ecc m)) (remote w) = None) ->
  remote_search h idx (rs ++ later)%list max_id w
  = remote_search h idx rs max_id
      (after_resolution_misses h quasi ecc (range max_id) (rev later) w).
Proof.
  intros Hn Hq He. unfold remote_search. rewrite rev_app_distr.
  apply probe_resolutions_misses; [exact Hn | |].
  - intros m id Hin. apply Hq. now apply in_rev.
  - intros m Hin. apply He. now apply in_rev.
Qed.

(** *** The names of the candidates, and the data file names they give *)

Lemma metadata_filenames_names (h : RITCatalogHelper) (idx res id_val : Z) :
  metadata_file_fmts h = rit_metadata_file_fmts ->
  metadata_filenames h idx res id_val
  = Ok [quasi_name idx res id_val; ecc_name idx res].
Proof.
  intros Hf. rewrite (metadata_filenames_eq h idx res id_val Hf).
  unfold quasi_name, ecc_name, quasi_stem, Py.pad_left.
  cbn -[Py.zero_pad Py.dec_Z].
  repeat (rewrite !app_assoc_str; cbn -[Py.zero_pad Py.dec_Z]).
  reflexivity.
Qed.

Lemma split_meta (X : string) :
  no_char "_" X = true ->
  Py.split "_Meta" (X ++ "_Metadata.txt") = [X; "data.txt"].
Proof.
  unfold Py.split. induction X as [|c X IH]; intros H; [reflexivity|].
  cbn [no_char] in H. apply andb_true_iff in H as [Hc HX].
  apply negb_true_iff, Ascii.eqb_neq in Hc.
  cbn [String.append Py.split_go String.prefix].
  destruct (ascii_dec "_" c) as [E|_]; [congruence|].
  now rewrite (IH HX).
Qed.

Lemma take_app (a b : string) : Py.take (String.length a) (a ++ b) = a.
Proof. induction a as [|x a IH]; cbn; [now destruct b | now rewrite IH]. Qed.

Lemma last_char_app (a b : string) :
  b <> EmptyString -> Py.last_char (a ++ b) = Py.last_char b.
Proof.
  intros Hb. induction a as [|x a IH]; [reflexivity|].
  cbn [String.append Py.last_char]. rewrite IH.
  destruct (a ++ b) eqn:E; [|reflexivity].
  destruct a; cbn in E; [congruence | discriminate].
Qed.

Lemma contains_no_char (c : ascii) (sub s : string) :
  no_char c s = true -> Py.contains (String c sub) s = false.
Proof.
  induction s as [|a s IH]; intros H; [reflexivity|].
  cbn [no_char] in H. apply andb_true_iff in H as [Ha Hs].
  apply negb_true_iff, Ascii.eqb_neq in Ha.
  cbn [Py.contains String.prefix].
  destruct (ascii_dec c a) as [E|_]; [congruence | exact (IH Hs)].
Qed.

(** The characters of a stem: digits, ["-"], ["n"], ["i"], ["d"]. *)
Lemma no_char_stem (c : ascii) (idx res id_val : Z) :
  0 <= idx <= 9999 -> 0 <= res -> 0 <= id_val ->
  Py.is_digit c = false ->
  Ascii.eqb "-" c = false -> Ascii.eqb "n" c = false ->
  Ascii.eqb "i" c = false -> Ascii.eqb "d" c = false ->
  no_char c (quasi_stem idx res id_val) = true.
Proof.
  intros Hidx Hres Hid Hc H1 H2 H3 H4. unfold quasi_stem.
  destruct (zero_pad_index idx Hidx) as (_ & HI & _).
  destruct (dec_Z_nonneg res Hres) as (HR & _).
  destruct (dec_Z_nonneg id_val Hid) as (HD & _).
  rewrite no_char_app, (all_digits_no_char c _ Hc HI).
  cbn [no_char andb String.append]. rewrite H1, H2. cbn [negb andb].
  rewrite no_char_app, (all_digits_no_char c _ Hc HR).
  cbn [no_char andb String.append]. rewrite H1, H3, H4. cbn [negb andb].
  exact (all_digits_no_char c _ Hc HD).
Qed.

Lemma split_stem (idx res id_val : Z) :
  0 <= idx <= 9999 -> 0 <= res -> 0 <= id_val ->
  Py.split "-" (quasi_stem idx res id_val)
  = [Py.zero_pad 4 idx; String "n" (Py.dec_Z res); "id" ++ Py.dec_Z id_val].
Proof.
  intros Hidx Hres Hid. unfold quasi_stem.
  destruct (zero_pad_index idx Hidx) as (_ & HI & _).
  destruct (dec_Z_nonneg res Hres) as (HR & _).
  destruct (dec_Z_nonneg id_val Hid) as (HD & _).
  rewrite (split_app "-") by now apply all_digits_no_char.
  rewrite (split_app "-" (String "n" (Py.dec_Z res)))
    by (cbn [no_char]; now rewrite (all_digits_no_char "-" _ eq_refl HR)).
  rewrite (split_none "-")
    by (cbn [no_char String.append]; now rewrite (all_digits_no_char "-" _ eq_refl HD)).
  reflexivity.
Qed.

Lemma simname_of_quasi_name (idx res id_val : Z) :
  0 <= idx <= 9999 -> 0 <= res -> 0 <= id_val ->
  simname_from_metadata_filename (quasi_name idx res id_val)
  = "RIT:BBH:" ++ quasi_stem idx res id_val.
Proof.
  intros Hidx Hres Hid. unfold simname_from_metadata_filename, quasi_name.
  rewrite <- app_assoc_str. rewrite split_meta; [reflexivity|].
  rewrite no_char_app. cbn [no_char andb].
  now rewrite (no_char_stem "_" idx res id_val Hidx Hres Hid).
Qed.

Lemma simname_fields_quasi (idx res id_val : Z) :
  0 <= idx <= 9999 -> 0 <= res -> 0 <= id_val ->
  simname_fields ("RIT:BBH:" ++ quasi_stem idx res id_val)
  = Ok (quasi_stem idx res id_val, idx, res).
Proof.
  intros Hidx Hres Hid. unfold simname_fields.
  change ("RIT:BBH:" ++ quasi_stem idx res id_val)
    with ("RIT" ++ String ":" ("BBH" ++ String ":" (quasi_stem idx res id_val))).
  rewrite (split_app ":" "RIT") by reflexivity.
  rewrite (split_app ":" "BBH") by reflexivity.
  rewrite (split_none ":")
    by now apply (no_char_stem ":" idx res id_val Hidx Hres Hid).
  cbn [List.last].
  destruct (zero_pad_index idx Hidx) as (HL & _ & HIi).
  assert (Py.take 4 (quasi_stem idx res id_val) = Py.zero_pad 4 idx) as ->.
  { unfold quasi_stem. rewrite <- HL at 1. apply take_app. }
  rewrite HIi. cbn [rbind]. rewrite (split_stem idx res id_val Hidx Hres Hid).
  cbn [Py.index nth_error rbind Py.drop].
  destruct (dec_Z_nonneg res Hres) as (_ & HRi).
  specialize (HRi 0%nat). change (Py.int (Py.dec_Z res) = Ok res) in HRi.
  now rewrite HRi.
Qed.

Lemma format_quasi (idx res id_val : Z) :
  Py.format "RIT:BBH:{:04d}-n{:d}-id{:d}_Metadata.txt" [idx; res; id_val]
  = Ok (quasi_name idx res id_val).
Proof.
  unfold quasi_name, quasi_stem. cbn -[Py.zero_pad Py.dec_Z].
  unfold Py.pad_left. cbn -[Py.zero_pad Py.dec_Z].
  repeat (rewrite !app_assoc_str; cbn -[Py.zero_pad Py.dec_Z]).
  reflexivity.
Qed.



Lemma quasi_simname_not_eccentric (idx res id_val : Z) :
  0 <= idx <= 9999 -> 0 <= res -> 0 <= id_val ->
  Py.contains "eBBH" ("RIT:BBH:" ++ quasi_stem idx res id_val) = false.
Proof.
  intros Hidx Hres Hid. apply contains_no_char.
  rewrite no_char_app. cbn [no_char andb].
  now rewrite (no_char_stem "e" idx res id_val Hidx Hres Hid).
Qed.





(* ===================================================================== *)
(** * Further properties *)
(* ===================================================================== *)

(** ** Names: files, simulations and data files *)




Lemma no_char_ecc_stem (c : ascii) (idx res : Z) :
  0 <= idx <= 9999 -> 0 <= res ->
  Py.is_digit c = false ->
  Ascii.eqb "-" c = false -> Ascii.eqb "n" c = false ->
  Ascii.eqb "e" c = false -> Ascii.eqb "c" c = false ->
  no_char c (ecc_stem idx res) = true.
Proof.
  intros Hidx Hres Hc H1 H2 H3 H4. unfold ecc_stem.
  destruct (zero_pad_index idx Hidx) as (_ & HI & _).
  destruct (dec_Z_nonneg res Hres) as (HR & _).
  rewrite no_char_app, (all_digits_no_char c _ Hc HI).
  cbn [no_char andb String.append]. rewrite H1, H2. cbn [negb andb].
  rewrite no_char_app, (all_digits_no_char c _ Hc HR).
  cbn [no_char andb String.append]. now rewrite H1, H3, H4.
Qed.

Lemma split_ecc_stem (idx res : Z) :
  0 <= idx <= 9999 -> 0 <= res ->
  Py.split "-" (ecc_stem idx res)
  = [Py.zero_pad 4 idx; String "n" (Py.dec_Z res); "ecc"].
Proof.
  intros Hidx Hres. unfold ecc_stem.
  destruct (zero_pad_index idx Hidx) as (_ & HI & _).
  destruct (dec_Z_nonneg res Hres) as (HR & _).
  rewrite (split_app "-") by now apply all_digits_no_char.
  change (String "n" (Py.dec_Z res) ++ "-ecc")
    with (String "n" (Py.dec_Z res) ++ String "-" "ecc").
  rewrite (split_app "-" (String "n" (Py.dec_Z res)))
    by (cbn [no_char]; now rewrite (all_digits_no_char "-" _ eq_refl HR)).
  reflexivity.
Qed.

Lemma ecc_name_eq (idx res : Z) :
  ecc_name idx res = ecc_simname idx res ++ "_Metadata.txt".
Proof.
  unfold ecc_name, ecc_simname, ecc_stem.
  cbn -[Py.zero_pad Py.dec_Z].
  repeat (rewrite !app_assoc_str; cbn -[Py.zero_pad Py.dec_Z]).
  reflexivity.
Qed.

Lemma simname_of_ecc_name (idx res : Z) :
  0 <= idx <= 9999 -> 0 <= res ->
  simname_from_metadata_filename (ecc_name idx res) = ecc_simname idx res.
Proof.
  intros Hidx Hres. unfold simname_from_metadata_filename.
  rewrite ecc_name_eq, split_meta; [reflexivity|].
  unfold ecc_simname. rewrite no_char_app. cbn [no_char andb].
  now rewrite (no_char_ecc_stem "_" idx res Hidx Hres).
Qed.

Lemma simname_fields_ecc (idx res : Z) :
  0 <= idx <= 9999 -> 0 <= res ->
  simname_fields (ecc_simname idx res) = Ok (ecc_stem idx res, idx, res).
Proof.
  intros Hidx Hres. unfold simname_fields, ecc_simname.
  change ("RIT:eBBH:" ++ ecc_stem idx res)
    with ("RIT" ++ String ":" ("eBBH" ++ String ":" (ecc_stem idx res))).
  rewrite (split_app ":" "RIT") by reflexivity.
  rewrite (split_app ":" "eBBH") by reflexivity.
  rewrite (split_none ":")
    by now apply (no_char_ecc_stem ":" idx res Hidx Hres).
  cbn [List.last].
  destruct (zero_pad_index idx Hidx) as (HL & _ & HIi).
  assert (Py.take 4 (ecc_stem idx res) = Py.zero_pad 4 idx) as ->.
  { unfold ecc_stem. rewrite <- HL at 1. apply take_app. }
  rewrite HIi. cbn [rbind]. rewrite (split_ecc_stem idx res Hidx Hres).
  cbn [Py.index nth_error rbind Py.drop].
  destruct (dec_Z_nonneg res Hres) as (_ & HRi).
  specialize (HRi 0%nat). change (Py.int (Py.dec_Z res) = Ok res) in HRi.
  now rewrite HRi.
Qed.

Lemma ecc_simname_is_eccentric (idx res : Z) :
  Py.contains "eBBH" (ecc_simname idx res) = true.
Proof. reflexivity. Qed.

Lemma format_ecc (idx res : Z) :
  Py.format "RIT:eBBH:{:04d}-n{:d}-ecc_Metadata.txt" [idx; res]
  = Ok (ecc_name idx res).
Proof.
  unfold ecc_name. cbn -[Py.zero_pad Py.dec_Z].
  unfold Py.pad_left. cbn -[Py.zero_pad Py.dec_Z].
  repeat (rewrite !app_assoc_str; cbn -[Py.zero_pad Py.dec_Z]).
  reflexivity.
Qed.

Lemma metadata_filename_of_ecc (h : RITCatalogHelper) (idx res : Z) :
  metadata_file_fmts h = rit_metadata_file_fmts ->
  0 <= idx <= 9999 -> 0 <= res ->
  metadata_filename_from_simname h (ecc_simname idx res)
  = Ok (ecc_name idx res).
Proof.
  intros Hf Hidx Hres.
  unfold metadata_filename_from_simname, filename_from_simname.
  rewrite simname_fields_ecc by lia. cbn [rbind].
  rewrite ecc_simname_is_eccentric. cbn [negb]. rewrite Hf.
  cbn [rit_metadata_file_fmts Py.index nth_error rbind].
  apply format_ecc.
Qed.

(** *** The last digit of a decimal rendering *)

Lemma string_of_uint_nonempty (d : Decimal.uint) :
  d <> Decimal.Nil -> NilEmpty.string_of_uint d <> EmptyString.
Proof. destruct d; [congruence | discriminate ..]. Qed.

Lemma last_char_cons (c : ascii) (r : string) :
  r <> EmptyString -> Py.last_char (String c r) = Py.last_char r.
Proof. destruct r; [congruence | reflexivity]. Qed.

Lemma last_char_revapp (l acc : Decimal.uint) :
  acc <> Decimal.Nil ->
  Py.last_char (NilEmpty.string_of_uint (Decimal.revapp l acc))
  = Py.last_char (NilEmpty.string_of_uint acc).
Proof.
  revert acc. induction l as [|l IH|l IH|l IH|l IH|l IH|l IH|l IH|l IH|l IH|l IH];
    intros acc Hacc; [reflexivity | ..];
    cbn [Decimal.revapp]; rewrite IH by discriminate;
    cbn [NilEmpty.string_of_uint];
    apply last_char_cons, string_of_uint_nonempty, Hacc.
Qed.

(** The last character of [str(z)] is the digit [z mod 10]. *)
Lemma last_char_dec_Z (z : Z) :
  0 <= z ->
  (let* c := Py.last_char (Py.dec_Z z) in Py.int c) = Ok (z mod 10).
Proof.
  intros Hz. unfold Py.dec_Z. destruct (Z.ltb_spec z 0) as [|_]; [lia|].
  rewrite dec_N_eq. destruct (Z.to_N z) as [|p] eqn:E.
  - assert (z = 0) as -> by lia. reflexivity.
  - cbn [N.to_uint]. unfold Pos.to_uint, Decimal.rev.
    pose proof (DecimalPos.Unsigned.of_to p) as Hof.
    unfold Pos.to_uint in Hof. rewrite DecimalPos.Unsigned.of_lu_rev in Hof.
    rewrite DecimalPos.Unsigned.of_lu_eqn in Hof.
    assert (Hm : z mod 10
                 = Z.of_N (DecimalPos.Unsigned.hd (Pos.to_little_uint p))).
    { assert (Hd : (DecimalPos.Unsigned.hd (Pos.to_little_uint p) < 10)%N)
        by (destruct (Pos.to_little_uint p); cbn; lia).
      symmetry. apply Z.mod_unique_pos
        with (q := Z.of_N (DecimalPos.Unsigned.of_lu
                             (DecimalPos.Unsigned.tl (Pos.to_little_uint p))));
        lia. }
    rewrite Hm.
    destruct (Pos.to_little_uint p) as [|l|l|l|l|l|l|l|l|l|l];
      [cbn in Hof; lia | ..];
      cbn [Decimal.revapp]; rewrite last_char_revapp by discriminate;
      reflexivity.
Qed.

Lemma dec_Z_nonempty (z : Z) : Py.dec_Z z <> EmptyString.
Proof.
  unfold Py.dec_Z. destruct (z <? 0); [discriminate | apply dec_N_nonempty].
Qed.

Lemma last_char_quasi_stem (idx res id_val : Z) :
  Py.last_char (quasi_stem idx res id_val) = Py.last_char (Py.dec_Z id_val).
Proof.
  unfold quasi_stem.
  rewrite last_char_app by discriminate.
  rewrite last_char_cons
    by (cbn [String.append]; discriminate).
  rewrite last_char_app by discriminate.
  rewrite last_char_cons
    by (cbn [String.append]; discriminate).
  cbn [String.append].
  rewrite !last_char_cons; [reflexivity | apply dec_Z_nonempty | discriminate].
Qed.

(** The file name a quasicircular sim name gives: the id is read from the
    last character of the name alone. *)
Lemma filename_of_quasi_simname (fmts : list string) (idx res id_val : Z) :
  0 <= idx <= 9999 -> 0 <= res -> 0 <= id_val ->
  filename_from_simname fmts (quasi_simname idx res id_val)
  = (let* f0 := Py.index fmts 0 in Py.format f0 [idx; res; id_val mod 10]).
Proof.
  intros Hidx Hres Hid. unfold filename_from_simname, quasi_simname.
  rewrite simname_fields_quasi by lia. cbn [rbind].
  rewrite quasi_simname_not_eccentric by lia. cbn [negb].
  rewrite last_char_quasi_stem.
  pose proof (last_char_dec_Z id_val Hid) as Hl.
  destruct (Py.last_char (Py.dec_Z id_val)) as [c|]; [|discriminate Hl].
  cbn [rbind] in *. now rewrite Hl.
Qed.

Lemma filename_of_ecc_simname (fmts : list string) (idx res : Z) :
  0 <= idx <= 9999 -> 0 <= res ->
  filename_from_simname fmts (ecc_simname idx res)
  = (let* f1 := Py.index fmts 1 in Py.format f1 [idx; res]).
Proof.
  intros Hidx Hres. unfold filename_from_simname.
  rewrite simname_fields_ecc by lia. cbn [rbind].
  now rewrite ecc_simname_is_eccentric.
Qed.

(** X1. The metadata file name and the sim name determine each other: for
    an index of four digits at most and an id value of one digit, the name
    [metadata_filename_from_simname] rebuilds from the sim name of either
    candidate file is that file's name. *)
Theorem filename_simname_round_trip (h : RITCatalogHelper)
  (idx res id_val : Z) :
  metadata_file_fmts h = rit_metadata_file_fmts ->
  0 <= idx <= 9999 -> 0 <= res -> 0 <= id_val <= 9 ->
  exists quasi ecc,
    metadata_filenames h idx res id_val = Ok [quasi; ecc] /\
    metadata_filename_from_simname h (simname_from_metadata_filename quasi)
      = Ok quasi /\
    metadata_filename_from_simname h (simname_from_metadata_filename ecc)
      = Ok ecc.
Proof.
  intros Hf Hidx Hres Hid.
  exists (quasi_name idx res id_val), (ecc_name idx res).
  split; [now apply metadata_filenames_names|].
  rewrite simname_of_quasi_name, simname_of_ecc_name by lia.
  unfold metadata_filename_from_simname.
  fold (quasi_simname idx res id_val).
  rewrite filename_of_quasi_simname, filename_of_ecc_simname by lia.
  rewrite Hf. cbn [rit_metadata_file_fmts Py.index nth_error rbind].
  rewrite Z.mod_small by lia. split; [apply format_quasi | apply format_ecc].
Qed.

Lemma filename_simname_round_trip_witness :
  exists quasi ecc,
    metadata_filenames (rit_helper "/cache" 0 true [100; 200] 6) 1109 100 1 = Ok [quasi; ecc] /\
    metadata_filename_from_simname (rit_helper "/cache" 0 true [100; 200] 6) (simname_from_metadata_filename quasi)
      = Ok quasi /\
    metadata_filename_from_simname (rit_helper "/cache" 0 true [100; 200] 6) (simname_from_metadata_filename ecc)
      = Ok ecc.
Proof.
  apply (filename_simname_round_trip (rit_helper "/cache" 0 true [100; 200] 6) 1109 100 1);
    [reflexivity | lia | lia | lia].
Defined.

(** *** Decoding names and sim names *)

Lemma sim_info_quasi_name (idx res id_val : Z) :
  0 <= idx <= 9999 -> 0 < res -> 0 <= id_val ->
  sim_info_from_metadata_filename (quasi_name idx res id_val)
  = Ok (idx, res, id_val).
Proof.
  intros Hidx Hres Hid.
  pose (h := rit_helper "" 0 true [] 0).
  pose proof (metadata_filenames_names h idx res id_val eq_refl) as H1.
  rewrite (metadata_filenames_eq h idx res id_val eq_refl) in H1.
  match type of H1 with
  | Ok [?a; _] = _ => assert (E : quasi_name idx res id_val = a) by congruence
  end.
  rewrite E.
  exact (proj1 (round_trip_of_fields 0 idx res id_val Hidx Hres Hid)).
Qed.

Lemma quasi_name_inj (idx res a b : Z) :
  0 <= idx <= 9999 -> 0 < res -> 0 <= a -> 0 <= b ->
  quasi_name idx res a = quasi_name idx res b -> a = b.
Proof.
  intros Hidx Hres Ha Hb E.
  pose proof (sim_info_quasi_name idx res a Hidx Hres Ha) as H1.
  rewrite E, (sim_info_quasi_name idx res b Hidx Hres Hb) in H1.
  congruence.
Qed.

Lemma sim_info_quasi_simname (idx res id_val : Z) :
  0 <= idx <= 9999 -> 0 <= res -> 0 <= id_val ->
  sim_info_from_metadata_filename (quasi_simname idx res id_val)
  = Ok (idx, res, id_val).
Proof.
  intros Hidx Hres Hid. unfold quasi_simname, quasi_stem.
  rewrite <- app_assoc_str.
  destruct (index_field_ok "RIT:BBH:" idx eq_refl Hidx) as (HI & Hi).
  destruct (dec_Z_nonneg res Hres) as (HRd & HRi).
  destruct (dec_Z_nonneg id_val Hid) as (HDd & HDi).
  rewrite (sim_info_of_fields _ _ _ _ idx res HI
             (all_digits_no_char "-" _ eq_refl HRd) Hi (HRi 0%nat)).
  assert (Hn : forall c, Py.is_digit c = false ->
                 Ascii.eqb "i" c = false -> Ascii.eqb "d" c = false ->
                 no_char c ("id" ++ Py.dec_Z id_val) = true).
  { intros c Hc H1 H2. cbn [String.append no_char]. rewrite H1, H2.
    now apply all_digits_no_char. }
  rewrite (split_none "-") by now apply Hn.
  cbn [Py.index nth_error rbind].
  rewrite (split_none "_") by now apply Hn.
  cbn [Py.index nth_error rbind String.append Py.drop].
  specialize (HDi 0%nat). change (Py.int (Py.dec_Z id_val) = Ok id_val) in HDi.
  now rewrite HDi.
Qed.

Lemma sim_info_ecc_simname (idx res : Z) :
  0 <= idx <= 9999 -> 0 <= res ->
  sim_info_from_metadata_filename (ecc_simname idx res) = Ok (idx, res, -1).
Proof.
  intros Hidx Hres. unfold ecc_simname, ecc_stem.
  rewrite <- app_assoc_str.
  destruct (index_field_ok "RIT:eBBH:" idx eq_refl Hidx) as (HI & Hi).
  destruct (dec_Z_nonneg res Hres) as (HRd & HRi).
  change (String "n" (Py.dec_Z res) ++ "-ecc")
    with (String "n" (Py.dec_Z res) ++ String "-" "ecc").
  now rewrite (sim_info_of_fields _ _ _ _ idx res HI
                 (all_digits_no_char "-" _ eq_refl HRd) Hi (HRi 0%nat)).
Qed.

(** X2. [simnames] gives the two logical names, and the decoder reads a
    logical name as it reads the file name. *)
Theorem simnames_decode (h : RITCatalogHelper) (idx res id_val : Z) :
  metadata_file_fmts h = rit_metadata_file_fmts ->
  0 <= idx <= 9999 -> 0 <= res -> 0 <= id_val ->
  simnames h idx res id_val
    = Ok [quasi_simname idx res id_val; ecc_simname idx res] /\
  sim_info_from_metadata_filename (quasi_simname idx res id_val)
    = Ok (idx, res, id_val) /\
  sim_info_from_metadata_filename (ecc_simname idx res) = Ok (idx, res, -1).
Proof.
  intros Hf Hidx Hres Hid. split; [|split].
  - unfold simnames. rewrite (metadata_filenames_names h idx res id_val Hf).
    cbn [rbind map].
    now rewrite simname_of_quasi_name, simname_of_ecc_name by lia.
  - now apply sim_info_quasi_simname.
  - now apply sim_info_ecc_simname.
Qed.

Lemma simnames_decode_witness :
  simnames (rit_helper "/cache" 0 true [100; 200] 6) 1109 100 1
    = Ok [quasi_simname 1109 100 1; ecc_simname 1109 100] /\
  sim_info_from_metadata_filename (quasi_simname 1109 100 1)
    = Ok (1109, 100, 1) /\
  sim_info_from_metadata_filename (ecc_simname 1109 100) = Ok (1109, 100, -1).
Proof.
  apply (simnames_decode (rit_helper "/cache" 0 true [100; 200] 6) 1109 100 1); [reflexivity | lia | lia | lia].
Defined.

(** X3. Beyond one digit the id value does not survive the sim name: the
    file name rebuilt from it carries the last digit only. *)
Theorem quasi_id_read_from_last_digit (h : RITCatalogHelper)
  (idx res id_val : Z) :
  metadata_file_fmts h = rit_metadata_file_fmts ->
  0 <= idx <= 9999 -> 0 < res -> 0 <= id_val ->
  metadata_filename_from_simname h
    (simname_from_metadata_filename (quasi_name idx res id_val))
  = Ok (quasi_name idx res (id_val mod 10)) /\
  (10 <= id_val ->
   quasi_name idx res (id_val mod 10) <> quasi_name idx res id_val).
Proof.
  intros Hf Hidx Hres Hid. split.
  - rewrite simname_of_quasi_name by lia.
    unfold metadata_filename_from_simname.
    fold (quasi_simname idx res id_val).
    rewrite filename_of_quasi_simname by lia.
    rewrite Hf. cbn [rit_metadata_file_fmts Py.index nth_error rbind].
    apply format_quasi.
  - intros Hbig E. apply quasi_name_inj in E; try lia.
    + pose proof (Z.mod_pos_bound id_val 10 ltac:(lia)). lia.
    + apply Z.mod_pos_bound. lia.
Qed.

Lemma quasi_id_read_from_last_digit_witness :
  metadata_filename_from_simname (rit_helper "/cache" 0 true [100] 20)
    (simname_from_metadata_filename (quasi_name 7 100 12))
  = Ok (quasi_name 7 100 (12 mod 10)) /\
  (10 <= 12 -> quasi_name 7 100 (12 mod 10) <> quasi_name 7 100 12).
Proof.
  apply (quasi_id_read_from_last_digit (rit_helper "/cache" 0 true [100] 20)
           7 100 12); [reflexivity | lia | lia | lia].
Defined.

(** *** Data file names *)


Lemma strain_of_quasi_name (idx res id_val : Z) :
  0 <= idx <= 9999 -> 0 <= res -> 0 <= id_val ->
  (let parts := Py.split ":" (quasi_name idx res id_val) in
   let* p0 := Py.index parts 0 in
   let* p1 := Py.index parts 1 in
   let* p2 := Py.index parts 2 in
   let* stem := Py.index (Py.split "_" p2) 0 in
   let* a := Py.index (Py.split "-" stem) 0 in
   let* b := Py.index (Py.split "-" stem) 1 in
   Ok ("ExtrapStrain_" ++ p0 ++ "-" ++ p1 ++ "-" ++ a ++ "-" ++ b ++ ".h5"))
  = Ok (strain_name "BBH" idx res).
Proof.
  intros Hidx Hres Hid. unfold quasi_name. cbv zeta.
  change ("RIT:BBH:" ++ quasi_stem idx res id_val ++ "_Metadata.txt")
    with ("RIT" ++ String ":" ("BBH" ++ String ":"
            (quasi_stem idx res id_val ++ "_Metadata.txt"))).
  rewrite (split_app ":" "RIT") by reflexivity.
  rewrite (split_app ":" "BBH") by reflexivity.
  rewrite (split_none ":").
  2:{ rewrite no_char_app.
      now rewrite (no_char_stem ":" idx res id_val) by (try lia; reflexivity). }
  cbn [Py.index nth_error rbind].
  change (quasi_stem idx res id_val ++ "_Metadata.txt")
    with (quasi_stem idx res id_val ++ String "_" "Metadata.txt").
  rewrite (split_app "_")
    by (apply (no_char_stem "_" idx res id_val); try lia; reflexivity).
  cbn [Py.index nth_error rbind].
  rewrite split_stem by lia. cbn [Py.index nth_error rbind].
  reflexivity.
Qed.

Lemma strain_of_ecc_name (idx res : Z) :
  0 <= idx <= 9999 -> 0 <= res ->
  (let parts := Py.split ":" (ecc_name idx res) in
   let* p0 := Py.index parts 0 in
   let* p1 := Py.index parts 1 in
   let* p2 := Py.index parts 2 in
   let* stem := Py.index (Py.split "_" p2) 0 in
   let* a := Py.index (Py.split "-" stem) 0 in
   let* b := Py.index (Py.split "-" stem) 1 in
   Ok ("ExtrapStrain_" ++ p0 ++ "-" ++ p1 ++ "-" ++ a ++ "-" ++ b ++ ".h5"))
  = Ok (strain_name "eBBH" idx res).
Proof.
  intros Hidx Hres. rewrite ecc_name_eq. unfold ecc_simname. cbv zeta.
  change (("RIT:eBBH:" ++ ecc_stem idx res) ++ "_Metadata.txt")
    with ("RIT" ++ String ":" ("eBBH" ++ String ":"
            (ecc_stem idx res ++ "_Metadata.txt"))).
  rewrite (split_app ":" "RIT") by reflexivity.
  rewrite (split_app ":" "eBBH") by reflexivity.
  rewrite (split_none ":").
  2:{ rewrite no_char_app.
      now rewrite (no_char_ecc_stem ":" idx res) by (try lia; reflexivity). }
  cbn [Py.index nth_error rbind].
  change (ecc_stem idx res ++ "_Metadata.txt")
    with (ecc_stem idx res ++ String "_" "Metadata.txt").
  rewrite (split_app "_")
    by (apply (no_char_ecc_stem "_" idx res); try lia; reflexivity).
  cbn [Py.index nth_error rbind].
  rewrite split_ecc_stem by lia. cbn [Py.index nth_error rbind].
  reflexivity.
Qed.

Lemma last_char_ecc_stem (idx res : Z) :
  Py.last_char (ecc_stem idx res) = Ok "c".
Proof.
  unfold ecc_stem.
  rewrite last_char_app by discriminate.
  rewrite last_char_cons by (cbn [String.append]; discriminate).
  change (String "n" (Py.dec_Z res) ++ "-ecc")
    with (String "n" (Py.dec_Z res ++ "-ecc")).
  rewrite last_char_cons
    by (destruct (Py.dec_Z res); discriminate).
  now rewrite last_char_app by discriminate.
Qed.

Lemma waveform_of_quasi_simname (h : RITCatalogHelper) (idx res id_val : Z) :
  metadata_file_fmts h = rit_metadata_file_fmts ->
  0 <= idx <= 9999 -> 0 <= res -> 0 <= id_val ->
  waveform_filename_from_simname h (quasi_simname idx res id_val)
  = Ok (strain_name "BBH" idx res).
Proof.
  intros Hf Hidx Hres Hid. unfold waveform_filename_from_simname.
  unfold quasi_simname. rewrite simname_fields_quasi by lia. cbn [rbind].
  rewrite last_char_quasi_stem.
  pose proof (last_char_dec_Z id_val Hid) as Hl.
  destruct (Py.last_char (Py.dec_Z id_val)) as [c|]; [|discriminate Hl].
  cbn [rbind] in *. rewrite Hl. cbn [rbind]. rewrite Hf.
  cbn [rit_metadata_file_fmts Py.index nth_error rbind].
  rewrite format_quasi. cbn [rbind].
  apply strain_of_quasi_name; try lia.
  apply Z.mod_pos_bound. lia.
Qed.

(** X4. The waveform file name of a sim name holds the family, the index
    and the resolution; the id value of a quasicircular name is left out,
    so the simulations of one index and resolution share one file name.
    For an eccentric name the last character is no digit, and the name is
    made from the second template. *)
Theorem waveform_name_of_simname (h : RITCatalogHelper) (idx res id_val : Z) :
  metadata_file_fmts h = rit_metadata_file_fmts ->
  0 <= idx <= 9999 -> 0 <= res -> 0 <= id_val ->
  waveform_filename_from_simname h (quasi_simname idx res id_val)
    = Ok (strain_name "BBH" idx res) /\
  waveform_filename_from_simname h (ecc_simname idx res)
    = Ok (strain_name "eBBH" idx res).
Proof.
  intros Hf Hidx Hres Hid. split.
  - now apply waveform_of_quasi_simname.
  - unfold waveform_filename_from_simname.
    rewrite simname_fields_ecc by lia. cbn [rbind].
    rewrite last_char_ecc_stem. cbn [rbind].
    change (Py.int "c")
      with (@Raise Z (ValueError "invalid literal for int() with base 10")).
    cbn [rbind]. rewrite Hf.
    cbn [rit_metadata_file_fmts Py.index nth_error rbind].
    rewrite format_ecc. cbn [rbind].
    now apply strain_of_ecc_name.
Qed.

Lemma waveform_name_of_simname_witness :
  waveform_filename_from_simname (rit_helper "/cache" 0 true [100] 6)
    (quasi_simname 193 100 3)
    = Ok (strain_name "BBH" 193 100) /\
  waveform_filename_from_simname (rit_helper "/cache" 0 true [100] 6)
    (ecc_simname 193 100)
    = Ok (strain_name "eBBH" 193 100).
Proof.
  apply (waveform_name_of_simname (rit_helper "/cache" 0 true [100] 6)
           193 100 3); [reflexivity | lia | lia | lia].
Defined.

(** X5. The psi4 file name of a sim name: the index, the resolution and,
    for a quasicircular name, the last digit of the id value are read back
    from the name and put into the family's template, the second one for
    a name that contains [eBBH]. *)
Theorem psi4_name_of_simname (h : RITCatalogHelper) (idx res id_val : Z) :
  0 <= idx <= 9999 -> 0 <= res -> 0 <= id_val ->
  psi4_filename_from_simname h (quasi_simname idx res id_val)
    = (let* f0 := Py.index (psi4_file_fmts h) 0 in
       Py.format f0 [idx; res; id_val mod 10]) /\
  psi4_filename_from_simname h (ecc_simname idx res)
    = (let* f1 := Py.index (psi4_file_fmts h) 1 in Py.format f1 [idx; res]).
Proof.
  intros Hidx Hres Hid. unfold psi4_filename_from_simname. split.
  - now apply filename_of_quasi_simname.
  - unfold filename_from_simname.
    rewrite simname_fields_ecc by lia. cbn [rbind].
    now rewrite ecc_simname_is_eccentric.
Qed.

Lemma psi4_name_of_simname_witness :
  psi4_filename_from_simname (rit_helper "/cache" 0 true [100; 200] 6) (quasi_simname 1109 100 12)
    = (let* f0 := Py.index (psi4_file_fmts (rit_helper "/cache" 0 true [100; 200] 6)) 0 in
       Py.format f0 [1109; 100; 12 mod 10]) /\
  psi4_filename_from_simname (rit_helper "/cache" 0 true [100; 200] 6) (ecc_simname 1109 100)
    = (let* f1 := Py.index (psi4_file_fmts (rit_helper "/cache" 0 true [100; 200] 6)) 1 in
       Py.format f1 [1109; 100]).
Proof.
  apply (psi4_name_of_simname (rit_helper "/cache" 0 true [100; 200] 6) 1109 100 12); lia.
Defined.

(* ===================================================================== *)
(** ** The parser beyond the derived and the spin fields *)

Lemma fill_derived_other (opts : gmap string value) (k : string) :
  is_derived k = false -> fill_derived opts !! k = opts !! k.
Proof.
  intros Hk. destruct (fill_derived_spec opts) as (P & _ & Q).
  destruct (opts !! k) as [v|] eqn:E; [now apply P|].
  destruct (fill_derived opts !! k) as [v|] eqn:F; [|reflexivity].
  destruct (Q k v F) as [H|[H _]]; [congruence|].
  apply is_derived_In in H. congruence.
Qed.

Lemma not_derived_ne (k : string) :
  is_derived k = false ->
  k <> "number-of-orbits" /\ k <> "number-of-cycles-22".
Proof. intros H. split; intros ->; discriminate H. Qed.

(** The stages of a run that returns. *)
Lemma parse_stages (raw nxt : list string) (opts : gmap string value) :
  parse_metadata_txt raw = Ok (nxt, opts) ->
  exists o1 o2 o3,
    nxt = List.filter keeps_line raw /\
    spin_completion (parse_lines nxt) = Ok o1 /\
    cycles_to_orbits o1 = Ok o2 /\
    orbits_to_cycles o2 = Ok o3 /\
    opts = fill_derived o3.
Proof.
  unfold parse_metadata_txt. intros H.
  destruct (spin_completion _) as [o1|] eqn:E1; [|discriminate H].
  cbn [rbind] in H.
  destruct (cycles_to_orbits o1) as [o2|] eqn:E2; [|discriminate H].
  cbn [rbind] in H.
  destruct (orbits_to_cycles o2) as [o3|] eqn:E3; [|discriminate H].
  cbn [rbind] in H. injection H as <- <-.
  exists o1, o2, o3. auto.
Qed.

(** A run that does not raise returns the kept lines and [parsed]. *)
Lemma parsed_spec (raw : list string) :
  is_ok (parse_metadata_txt raw) = true ->
  parse_metadata_txt raw = Ok (List.filter keeps_line raw, parsed raw).
Proof.
  intros H. unfold parsed.
  destruct (parse_metadata_txt raw) as [[nxt d]|] eqn:E; [|discriminate H].
  now destruct (parse_stages raw nxt d E) as (? & ? & ? & -> & _).
Qed.


Lemma parse_frame (raw nxt : list string) (opts : gmap string value)
  (k : string) :
  parse_metadata_txt raw = Ok (nxt, opts) ->
  ~ In k spin_components -> is_derived k = false ->
  opts !! k = parse_lines nxt !! k.
Proof.
  intros H Hs Hd.
  destruct (parse_stages raw nxt opts H)
    as (o1 & o2 & o3 & _ & E1 & E2 & E3 & ->).
  destruct (not_derived_ne k Hd) as [Ho Hc].
  rewrite (fill_derived_other o3 k Hd).
  rewrite (derive_from_frame _ _ _ _ _ E3 k Hc).
  rewrite (derive_from_frame _ _ _ _ _ E2 k Ho).
  exact (spin_keeps_unbound _ _ k E1 Hs).
Qed.

(** X6. What the steps after the line loop may change: the eight spin
    components and the eight derived fields, nothing else; and the lines
    returned are the input lines that start with a letter. *)
Theorem parser_leaves_other_fields (raw nxt : list string)
  (opts : gmap string value) (k : string) :
  parse_metadata_txt raw = Ok (nxt, opts) ->
  ~ In k spin_components -> is_derived k = false ->
  nxt = List.filter keeps_line raw /\
  opts !! k = parse_lines nxt !! k.
Proof.
  intros H Hs Hd. split.
  - now destruct (parse_stages raw nxt opts H) as (? & ? & ? & -> & _).
  - exact (parse_frame raw nxt opts k H Hs Hd).
Qed.

Lemma parser_leaves_other_fields_witness :
  let raw := ["# RIT metadata"; "system-type = Aligned";
              "relaxed-chi1z = 0.2"; "catalog-tag = RIT:BBH:0001"] in
  List.filter keeps_line raw = List.filter keeps_line raw /\
  parsed raw !! "catalog-tag"
  = parse_lines (List.filter keeps_line raw) !! "catalog-tag".
Proof.
  intros raw.
  apply (parser_leaves_other_fields raw (List.filter keeps_line raw)
           (parsed raw) "catalog-tag");
    [apply parsed_spec; vm_compute; reflexivity
    | cbn; intuition discriminate | reflexivity].
Defined.

(** *** Spin completion for the other system types *)

Lemma zero_components_idle (comps : list string) (opts : gmap string value) :
  aligned_or_nonspinning opts = Ok false ->
  zero_components comps opts = Ok opts.
Proof.
  intros H. induction comps as [|xy comps IH]; [reflexivity|].
  cbn [zero_components]. destruct (mem xy opts); cbn [negb]; [exact IH|].
  rewrite H. cbn [rbind]. exact IH.
Qed.

Lemma spin_completion_idle (opts : gmap string value) (s : string) :
  opts !! "system-type" = Some (VStr s) -> aligned_text s = false ->
  spin_completion opts = Ok opts.
Proof.
  intros Hs Ha.
  assert (H : aligned_or_nonspinning opts = Ok false)
    by now rewrite (aligned_or_nonspinning_str opts s Hs), Ha.
  unfold spin_completion, complete_spin.
  repeat (match goal with
          | |- context [mem ?z opts] => destruct (mem z opts)
          end; rewrite ?(zero_components_idle _ _ H); cbn [rbind]);
    reflexivity.
Qed.

(** X7. For a system type that is neither aligned nor non-spinning, no spin
    component is filled in: apart from the derived fields the record is
    what the lines bound. *)
Theorem other_system_types_fill_nothing (raw nxt : list string)
  (opts : gmap string value) (s k : string) :
  parse_metadata_txt raw = Ok (nxt, opts) ->
  parse_lines nxt !! "system-type" = Some (VStr s) ->
  aligned_text s = false ->
  is_derived k = false ->
  opts !! k = parse_lines nxt !! k.
Proof.
  intros H Hs Ha Hd.
  destruct (parse_stages raw nxt opts H)
    as (o1 & o2 & o3 & Hn & E1 & E2 & E3 & ->).
  rewrite (spin_completion_idle _ s Hs Ha) in E1. injection E1 as <-.
  destruct (not_derived_ne k Hd) as [Ho Hc].
  rewrite (fill_derived_other o3 k Hd).
  rewrite (derive_from_frame _ _ _ _ _ E3 k Hc).
  exact (derive_from_frame _ _ _ _ _ E2 k Ho).
Qed.

Lemma other_system_types_fill_nothing_witness :
  let raw := ["system-type = Precessing"; "relaxed-chi1z = 0.2"] in
  parsed raw !! "relaxed-chi1x"
  = parse_lines (List.filter keeps_line raw) !! "relaxed-chi1x".
Proof.
  intros raw.
  apply (other_system_types_fill_nothing raw (List.filter keeps_line raw)
           (parsed raw) "Precessing" "relaxed-chi1x");
    [apply parsed_spec; vm_compute; reflexivity | vm_compute; reflexivity
    | reflexivity | reflexivity].
Defined.

(** *** Counts that are both supplied *)

Lemma derive_from_idle src dst op (opts : gmap string value) (d : value) :
  opts !! dst = Some d -> eq_zero d = false ->
  derive_from src dst op opts = Ok opts.
Proof.
  intros Hd Hz. unfold derive_from. destruct (mem src opts); [|reflexivity].
  assert (mem dst opts = true) as -> by (apply mem_true; eauto).
  cbn [negb rbind]. unfold getitem. rewrite Hd. cbn [rbind]. now rewrite Hz.
Qed.

(** X8. When the lines supply both counts and neither is zero, both are kept
    as supplied, whether or not one is twice the other. *)
Theorem supplied_counts_are_kept (raw nxt : list string)
  (opts : gmap string value) (c o : float) :
  parse_metadata_txt raw = Ok (nxt, opts) ->
  parse_lines nxt !! "number-of-cycles-22" = Some (VFloat c) ->
  parse_lines nxt !! "number-of-orbits" = Some (VFloat o) ->
  (c =? 0)%float = false -> (o =? 0)%float = false ->
  opts !! "number-of-cycles-22" = Some (VFloat c) /\
  opts !! "number-of-orbits" = Some (VFloat o).
Proof.
  intros H Hc Ho Hcz Hoz.
  destruct (parse_stages raw nxt opts H)
    as (o1 & o2 & o3 & Hn & E1 & E2 & E3 & ->).
  assert (S1 : forall k, k = "number-of-cycles-22" \/ k = "number-of-orbits" ->
                 o1 !! k = parse_lines nxt !! k).
  { intros k Hk. apply (spin_keeps_unbound _ _ k E1).
    intros Hin. apply spin_not_orbit_cycle in Hin. destruct Hk; tauto. }
  rewrite <- (S1 _ (or_introl eq_refl)) in Hc.
  rewrite <- (S1 _ (or_intror eq_refl)) in Ho.
  unfold cycles_to_orbits in E2.
  rewrite (derive_from_idle _ _ _ o1 (VFloat o) Ho Hoz) in E2.
  injection E2 as <-.
  unfold orbits_to_cycles in E3.
  rewrite (derive_from_idle _ _ _ o1 (VFloat c) Hc Hcz) in E3.
  injection E3 as <-.
  destruct (fill_derived_spec o1) as (P & _). split; now apply P.
Qed.

Lemma supplied_counts_are_kept_witness :
  let raw := ["number-of-cycles-22 = 10"; "number-of-orbits = 7"] in
  parsed raw !! "number-of-cycles-22" = Some (VFloat 10) /\
  parsed raw !! "number-of-orbits" = Some (VFloat 7).
Proof.
  intros raw.
  apply (supplied_counts_are_kept raw (List.filter keeps_line raw)
           (parsed raw) 10 7);
    [apply parsed_spec; vm_compute; reflexivity | vm_compute; reflexivity
    | vm_compute; reflexivity | reflexivity | reflexivity].
Defined.

(** *** How a line is cut into key and value *)

Lemma split_go_nonempty (sep : string) (skip : nat) (s : string) :
  Py.split_go sep skip s <> [].
Proof.
  revert skip. induction s as [|c r IH]; intros skip; [discriminate|].
  cbn [Py.split_go]. destruct skip; [|apply IH].
  destruct (String.prefix sep (String c r)); [discriminate|].
  destruct (Py.split_go sep 0 r); discriminate.
Qed.

Lemma join_cons_two (sep x : string) (l : list string) :
  l <> [] -> Py.join sep (x :: l) = x ++ sep ++ Py.join sep l.
Proof. destruct l; [congruence | reflexivity]. Qed.

(** [c.join(s.split(c)) == s] *)
Lemma join_split (c : ascii) (s : string) :
  Py.join (String c EmptyString) (Py.split (String c EmptyString) s) = s.
Proof.
  unfold Py.split. induction s as [|a r IH]; [reflexivity|].
  cbn [Py.split_go String.prefix String.length Nat.sub].
  destruct (ascii_dec c a) as [->|Hne].
  - assert (String.prefix EmptyString r = true) as -> by now destruct r.
    rewrite join_cons_two by apply split_go_nonempty.
    rewrite IH. reflexivity.
  - pose proof (split_go_nonempty (String c EmptyString) 0 r) as Hn.
    destruct (Py.split_go (String c EmptyString) 0 r) as [|h t]; [congruence|].
    cbn [Py.cons_head]. destruct t as [|h' t].
    + cbn [Py.join] in *. now rewrite IH.
    + rewrite join_cons_two by discriminate.
      rewrite join_cons_two in IH by discriminate.
      rewrite <- IH. reflexivity.
Qed.

(** X9. Only the first ["="] of a line separates the key from the value:
    the value keeps the later ones. A line without ["="] is all key, with
    the empty text as value. *)
Theorem line_is_cut_at_first_equals (k v : string) :
  no_char "=" k = true ->
  (line_key (k ++ String "=" v) = Py.strip k /\
   line_text (k ++ String "=" v) = Py.strip v) /\
  (line_key k = Py.strip k /\ line_text k = EmptyString).
Proof.
  intros Hk. unfold line_key, line_text. split.
  - rewrite (split_app "=" k v Hk). cbn [List.tl].
    now rewrite join_split.
  - now rewrite (split_none "=" k Hk).
Qed.

Lemma line_is_cut_at_first_equals_witness :
  (line_key ("comment " ++ String "=" " a = b ") = Py.strip "comment " /\
   line_text ("comment " ++ String "=" " a = b ") = Py.strip " a = b ") /\
  (line_key "comment " = Py.strip "comment " /\
   line_text "comment " = EmptyString).
Proof.
  apply (line_is_cut_at_first_equals "comment " " a = b "). reflexivity.
Defined.

(** *** The last line of a key *)

Lemma fold_parse_line_keeps (lines : list string) (opts : gmap string value)
  (k : string) :
  Forall (fun t => line_key t <> k) lines ->
  fold_left parse_line lines opts !! k = opts !! k.
Proof.
  revert opts. induction lines as [|t lines IH]; intros opts H; [reflexivity|].
  inversion H as [|? ? Ht Hl]; subst. cbn [fold_left].
  rewrite (IH _ Hl). apply parse_line_lookup. congruence.
Qed.

(** X10. A key bound by several lines holds the value of its last line: a
    number when the text of that line is one and, for a key that is not a
    derived field, the trimmed text otherwise. *)
Theorem last_line_of_a_key_wins (raw nxt before after : list string)
  (opts : gmap string value) (s : string) :
  parse_metadata_txt raw = Ok (nxt, opts) ->
  nxt = (before ++ s :: after)%list ->
  Forall (fun t => line_key t <> line_key s) after ->
  ~ In (line_key s) spin_components -> is_derived (line_key s) = false ->
  opts !! line_key s
  = Some match Py.float (line_text s) with
         | Ok f => VFloat f
         | Raise _ => VStr (line_text s)
         end.
Proof.
  intros H Hn Ha Hs Hd.
  rewrite (parse_frame raw nxt opts (line_key s) H Hs Hd).
  rewrite Hn. unfold parse_lines. rewrite fold_left_app. cbn [fold_left].
  rewrite (fold_parse_line_keeps after _ _ Ha), parse_line_key.
  now rewrite Hd.
Qed.

Lemma last_line_of_a_key_wins_witness :
  let raw := ["catalog-tag = RIT"; "run-name = a"; "run-name = b = c"] in
  parsed raw !! line_key "run-name = b = c"
  = Some match Py.float (line_text "run-name = b = c") with
         | Ok f => VFloat f
         | Raise _ => VStr (line_text "run-name = b = c")
         end.
Proof.
  intros raw.
  apply (last_line_of_a_key_wins raw (List.filter keeps_line raw)
           ["catalog-tag = RIT"; "run-name = a"] [] (parsed raw)
           "run-name = b = c");
    [apply parsed_spec; vm_compute; reflexivity | reflexivity | constructor
    | vm_compute; intuition discriminate | reflexivity].
Defined.

(** X11. A derived field whose only line has a value that is no number gets
    [0.0]: the text of that line is dropped, not stored. *)
Theorem unparseable_derived_defaults_to_zero (raw nxt before after : list string)
  (opts : gmap string value) (s : string) :
  parse_metadata_txt raw = Ok (nxt, opts) ->
  nxt = (before ++ s :: after)%list ->
  Forall (fun t => line_key t <> line_key s) before ->
  Forall (fun t => line_key t <> line_key s) after ->
  is_derived (line_key s) = true ->
  line_key s <> "number-of-orbits" -> line_key s <> "number-of-cycles-22" ->
  is_ok (Py.float (line_text s)) = false ->
  opts !! line_key s = Some (VFloat 0).
Proof.
  intros H Hn Hb Ha Hd Ho Hc Hf.
  destruct (parse_stages raw nxt opts H)
    as (o1 & o2 & o3 & _ & E1 & E2 & E3 & ->).
  assert (L : parse_lines nxt !! line_key s = Some (VFloat 0)).
  { rewrite Hn. unfold parse_lines. rewrite fold_left_app. cbn [fold_left].
    rewrite (fold_parse_line_keeps after _ _ Ha), parse_line_key.
    assert (mem (line_key s) (fold_left parse_line before ∅) = false) as ->.
    { apply mem_false. rewrite (fold_parse_line_keeps before _ _ Hb).
      apply lookup_empty. }
    rewrite Hd. now destruct (Py.float (line_text s)). }
  destruct (fill_derived_spec o3) as (P & _). apply P.
  rewrite (derive_from_frame _ _ _ _ _ E3 _ Hc).
  rewrite (derive_from_frame _ _ _ _ _ E2 _ Ho).
  rewrite (spin_keeps_unbound _ _ _ E1); [exact L|].
  apply derived_not_spin. now apply is_derived_In.
Qed.

Lemma unparseable_derived_defaults_to_zero_witness :
  let raw := ["catalog-tag = RIT"; "eccentricity = unknown"] in
  parsed raw !! line_key "eccentricity = unknown" = Some (VFloat 0).
Proof.
  intros raw.
  apply (unparseable_derived_defaults_to_zero raw
           (List.filter keeps_line raw) ["catalog-tag = RIT"] [] (parsed raw)
           "eccentricity = unknown");
    [apply parsed_spec; vm_compute; reflexivity | reflexivity
    | constructor; [vm_compute; discriminate | constructor] | constructor
    | reflexivity | vm_compute; discriminate | vm_compute; discriminate
    | reflexivity].
Defined.

(* ===================================================================== *)
(** ** The cache, the archive and the crawl *)

Lemma read_only_ret {A} (a : A) : read_only (ret a).
Proof. now intros w. Qed.

Lemma read_only_lift {A} (r : result A) : read_only (lift r).
Proof. now intros w. Qed.

Lemma read_only_bind {A B} (m : M A) (k : A -> M B) :
  read_only m -> (forall a, read_only (k a)) -> read_only (bind m k).
Proof.
  intros Hm Hk w. unfold bind. specialize (Hm w).
  destruct (m w) as [[a|e] w1]; cbn [snd] in Hm; subst w1;
    [apply Hk | reflexivity].
Qed.

Lemma read_only_glob p : read_only (glob_prefix p).
Proof. now intros w. Qed.

Lemma read_only_readlines p : read_only (readlines p).
Proof. now intros w. Qed.

Lemma read_only_exists p : read_only (path_exists p).
Proof. now intros w. Qed.

Create HintDb read_only.
#[local] Hint Resolve read_only_ret read_only_lift read_only_glob
  read_only_readlines read_only_exists : read_only.

Lemma read_only_metadata_filename_scan h tags f :
  read_only (metadata_filename_scan h tags f).
Proof.
  revert f. induction tags as [|t tags IH]; intros f;
    cbn [metadata_filename_scan]; [auto with read_only|].
  apply read_only_bind; [auto with read_only|]. intros [|x l]; apply IH.
Qed.

Lemma read_only_metadata_filename_from_cache h idx :
  read_only (metadata_filename_from_cache h idx).
Proof.
  unfold metadata_filename_from_cache.
  apply read_only_bind; [auto with read_only|]. intros tags.
  apply read_only_metadata_filename_scan.
Qed.

Lemma read_only_simname_scan h tags : read_only (simname_scan h tags).
Proof.
  induction tags as [|t tags IH]; cbn [simname_scan]; [auto with read_only|].
  apply read_only_bind; [auto with read_only|].
  intros [|x l]; [apply IH | auto with read_only].
Qed.

Lemma read_only_simname_from_cache h idx : read_only (simname_from_cache h idx).
Proof.
  unfold simname_from_cache.
  apply read_only_bind; [auto with read_only|]. intros tags.
  apply read_only_simname_scan.
Qed.

Lemma read_only_psi4_filename_from_cache h idx :
  read_only (psi4_filename_from_cache h idx).
Proof.
  unfold psi4_filename_from_cache.
  apply read_only_bind; [apply read_only_metadata_filename_from_cache|].
  auto with read_only.
Qed.

Lemma read_only_waveform_filename_from_cache h idx :
  read_only (waveform_filename_from_cache h idx).
Proof.
  unfold waveform_filename_from_cache.
  apply read_only_bind; [apply read_only_metadata_filename_from_cache|].
  auto with read_only.
Qed.

Lemma read_only_metadata_from_file p : read_only (metadata_from_file p).
Proof.
  unfold metadata_from_file. apply read_only_bind; auto with read_only.
Qed.

Lemma read_only_metadata_from_cache_scan h idx tags :
  read_only (metadata_from_cache_scan h idx tags).
Proof.
  induction tags as [|t tags IH]; cbn [metadata_from_cache_scan];
    [auto with read_only|].
  apply read_only_bind; [auto with read_only|]. intros [|p l]; [exact IH|].
  apply read_only_bind; [apply read_only_psi4_filename_from_cache|]. intros ?.
  apply read_only_bind; [apply read_only_waveform_filename_from_cache|].
  intros ?.
  apply read_only_bind; [apply read_only_metadata_from_file|]. intros [? d].
  destruct (0 <? size d)%nat; [|exact IH].
  apply read_only_bind; auto with read_only.
Qed.

Lemma read_only_metadata_from_cache h idx :
  read_only (metadata_from_cache h idx).
Proof.
  unfold metadata_from_cache.
  apply read_only_bind; [auto with read_only|]. intros tags.
  apply read_only_metadata_from_cache_scan.
Qed.

(** X12. The lookups in the cache only read: whatever they return or raise,
    files, snapshot, helper state and network log are as before. *)
Theorem cache_lookups_read_only (h : RITCatalogHelper) (idx : Z) (w : World) :
  snd (metadata_filename_from_cache h idx w) = w /\
  snd (simname_from_cache h idx w) = w /\
  snd (psi4_filename_from_cache h idx w) = w /\
  snd (waveform_filename_from_cache h idx w) = w /\
  snd (metadata_from_cache h idx w) = w.
Proof.
  repeat split.
  - apply read_only_metadata_filename_from_cache.
  - apply read_only_simname_from_cache.
  - apply read_only_psi4_filename_from_cache.
  - apply read_only_waveform_filename_from_cache.
  - apply read_only_metadata_from_cache.
Qed.

(** *** Refreshing the snapshot from the cached files *)

Lemma read_only_refresh_scan h idxs sims : read_only (refresh_scan h idxs sims).
Proof.
  revert sims. induction idxs as [|i idxs IH]; intros sims;
    cbn [refresh_scan]; [auto with read_only|].
  apply read_only_bind; [apply read_only_metadata_from_cache|].
  intros ?. apply IH.
Qed.

(** X13. [refresh_metadata_df_on_disk] works from the cache alone. When it
    returns a table, that table is the new snapshot and the helper's table,
    and nothing else has changed; when it raises, nothing has changed at
    all. No network call is made in either case. *)
Theorem refresh_stays_offline (h : RITCatalogHelper) (num_sims_to_crawl : Z)
  (w : World) :
  match refresh_metadata_df_on_disk h num_sims_to_crawl w with
  | (Ok df, w') => w' = with_metadata df (with_snapshot df w)
  | (Raise _, w') => w' = w
  end.
Proof.
  unfold refresh_metadata_df_on_disk, bind.
  pose proof (read_only_refresh_scan h (range1 num_sims_to_crawl) None w) as H.
  destruct (refresh_scan h (range1 num_sims_to_crawl) None w)
    as [[[sims|]|e] w1]; cbn [snd] in H; subst w1; reflexivity.
Qed.

Lemma range1_nonpos (n : Z) : n <= 0 -> range1 n = [].
Proof. intros H. unfold range1. now replace (Z.to_nat n) with 0%nat by lia. Qed.

(** X14. With no index to visit, [sims] is still the Python list it started
    as, which has no [reset_index]: the refresh raises before it writes. *)
Theorem refresh_without_indices_raises (h : RITCatalogHelper)
  (num_sims_to_crawl : Z) (w : World) :
  num_sims_to_crawl <= 0 ->
  refresh_metadata_df_on_disk h num_sims_to_crawl w = (Raise AttributeError, w).
Proof.
  intros H. unfold refresh_metadata_df_on_disk, bind.
  now rewrite (range1_nonpos _ H).
Qed.

Lemma refresh_without_indices_raises_witness :
  refresh_metadata_df_on_disk (rit_helper "/cache" 0 true [100] 6) 0
    sixty_records
  = (Raise AttributeError, sixty_records).
Proof.
  apply (refresh_without_indices_raises (rit_helper "/cache" 0 true [100] 6)
           0 sixty_records). lia.
Defined.

(** *** One candidate: the cache before the archive *)

(** A candidate the archive holds and the cache has a non-empty copy of is
    probed once and read from the copy. *)
Lemma download_scan_cached h n rest w web line cached nxt d psi4 wf :
  use_cache h = true ->
  assoc (metadata_link_of h n) (remote w) = Some web ->
  assoc (path_join (metadata_dir h) n) (files w) = Some (line :: cached) ->
  parse_metadata_txt (line :: cached) = Ok (nxt, d) ->
  psi4_filename_from_simname h (simname_from_metadata_filename n) = Ok psi4 ->
  waveform_filename_from_simname h (simname_from_metadata_filename n) = Ok wf ->
  download_metadata_scan h (n :: rest) ∅ w
  = (Ok (linked h d (simname_from_metadata_filename n) (metadata_link_of h n)
           (path_join (metadata_dir h) n) psi4 wf),
     log_event (Probe (metadata_link_of h n)) w).
Proof.
  intros Hc Hr Hf Hp Hpsi Hwf. cbn [download_metadata_scan].
  fold (metadata_link_of h n). unfold bind at 1.
  rewrite (url_exists_present _ _ _ Hr). cbn [negb]. rewrite Hc.
  unfold bind at 1. unfold bind at 1. unfold exists_nonempty at 1.
  cbn [files log_event]. rewrite Hf.
  unfold bind at 1. unfold metadata_from_file at 1. unfold bind at 1.
  unfold readlines at 1. cbn [files log_event]. rewrite Hf.
  unfold lift at 1. rewrite Hp. cbn [ret].
  pose proof (parse_size _ _ _ Hp) as Hsz.
  assert ((size d =? 0)%nat = false) as ->
    by (apply Nat.ltb_lt in Hsz; apply Nat.eqb_neq; lia).
  unfold bind at 1. cbn [ret].
  unfold bind at 1. unfold lift at 1. rewrite Hpsi.
  unfold bind at 1. unfold lift at 1. rewrite Hwf.
  rewrite Hsz. unfold lift.
  now rewrite (with_links_ok _ _ _ _ _ _ _ Hpsi Hwf).
Qed.

(** X15. With [use_cache], a candidate that the archive holds and that is
    already in the cache (not empty) is read from the cache: the archive is
    probed once, nothing is fetched or written, and the record is parsed
    from the cached lines, whatever the archive's copy says. *)
Theorem download_metadata_reads_cache_first (h : RITCatalogHelper)
  (idx res id_val : Z) (w : World) (q e : string)
  (web cached nxt : list string) (line : string) (d : gmap string value)
  (psi4 wf : string) :
  use_cache h = true ->
  metadata_filenames h idx res id_val = Ok [q; e] ->
  assoc (metadata_link_of h q) (remote w) = Some web ->
  assoc (path_join (metadata_dir h) q) (files w) = Some (line :: cached) ->
  parse_metadata_txt (line :: cached) = Ok (nxt, d) ->
  psi4_filename_from_simname h (simname_from_metadata_filename q) = Ok psi4 ->
  waveform_filename_from_simname h (simname_from_metadata_filename q) = Ok wf ->
  download_metadata h idx res id_val w
  = (Ok [linked h d (simname_from_metadata_filename q) (metadata_link_of h q)
           (path_join (metadata_dir h) q) psi4 wf],
     log_event (Probe (metadata_link_of h q)) w).
Proof.
  intros Hc Hn Hr Hf Hp Hpsi Hwf. unfold download_metadata.
  unfold bind at 1. unfold lift at 1. rewrite Hn. unfold bind at 1.
  rewrite (download_scan_cached _ _ _ _ _ _ _ _ _ _ _ Hc Hr Hf Hp Hpsi Hwf).
  cbn [ret]. now rewrite frame_of_linked.
Qed.

Lemma download_metadata_reads_cache_first_witness :
  let h := rit_helper "/cache" 0 true [100; 200] 6 in
  let q := "RIT:BBH:0001-n100-id0_Metadata.txt" in
  download_metadata h 1 100 0 stale_cache
  = (Ok [linked h (parsed ["system-type = Aligned"; "relaxed-chi1z = 0.3"])
           (simname_from_metadata_filename q) (metadata_link_of h q)
           (path_join (metadata_dir h) q)
           "ExtrapPsi4_RIT-BBH-0001-n100-id0.tar.gz"
           "ExtrapStrain_RIT-BBH-0001-n100.h5"],
     log_event (Probe (metadata_link_of h q)) stale_cache).
Proof.
  intros h q.
  apply (download_metadata_reads_cache_first h 1 100 0 stale_cache q
           "RIT:eBBH:0001-n100-ecc_Metadata.txt"
           ["system-type = Aligned"; "relaxed-chi1z = 0.2"]
           ["relaxed-chi1z = 0.3"]
           (List.filter keeps_line
              ["system-type = Aligned"; "relaxed-chi1z = 0.3"])
           "system-type = Aligned"
           (parsed ["system-type = Aligned"; "relaxed-chi1z = 0.3"]));
    [reflexivity | reflexivity | reflexivity | reflexivity
    | apply parsed_spec; vm_compute; reflexivity | reflexivity | reflexivity].
Defined.

(** X16. When the archive does not hold the quasicircular candidate, the
    eccentric one is tried next: probed, probed again, fetched, saved and
    parsed, and the record carries the eccentric name. *)
Theorem download_metadata_falls_back_to_eccentric (h : RITCatalogHelper)
  (idx res id_val : Z) (w : World) (q e : string)
  (content nxt : list string) (d : gmap string value) (psi4 wf : string) :
  metadata_filenames h idx res id_val = Ok [q; e] ->
  assoc (metadata_link_of h q) (remote w) = None ->
  assoc (metadata_link_of h e) (remote w) = Some content ->
  (use_cache h = false \/
   assoc (path_join (metadata_dir h) e) (files w) = None) ->
  parse_metadata_txt content = Ok (nxt, d) ->
  psi4_filename_from_simname h (simname_from_metadata_filename e) = Ok psi4 ->
  waveform_filename_from_simname h (simname_from_metadata_filename e) = Ok wf ->
  download_metadata h idx res id_val w
  = (Ok [linked h d (simname_from_metadata_filename e) (metadata_link_of h e)
           (path_join (metadata_dir h) e) psi4 wf],
     with_files (write_file (path_join (metadata_dir h) e) content (files w))
       (log_event (Fetch (metadata_link_of h e))
          (log_event (Probe (metadata_link_of h e))
             (log_event (Probe (metadata_link_of h e))
                (log_event (Probe (metadata_link_of h q)) w))))).
Proof.
  intros Hn Hq He Hc Hp Hpsi Hwf. unfold download_metadata.
  unfold bind at 1. unfold lift at 1. rewrite Hn. unfold bind at 1.
  rewrite (download_scan_skip _ _ _ _ _ Hq).
  rewrite (download_scan_hit h e [] _ content nxt d psi4 wf);
    [|exact He | exact Hc | exact Hp | exact Hpsi | exact Hwf].
  cbn [ret]. now rewrite frame_of_linked.
Qed.

Lemma download_metadata_falls_back_to_eccentric_witness :
  let h := rit_helper "/cache" 0 true [100; 200] 6 in
  let q := "RIT:BBH:0001-n100-id0_Metadata.txt" in
  let e := "RIT:eBBH:0001-n100-ecc_Metadata.txt" in
  let content := ["system-type = Aligned"; "eccentricity = 0.1"] in
  download_metadata h 1 100 0 archive_eccentric_only
  = (Ok [linked h (parsed content) (simname_from_metadata_filename e)
           (metadata_link_of h e) (path_join (metadata_dir h) e)
           "ExtrapPsi4_RIT-eBBH-0001-n100-ecc.tar.gz"
           "ExtrapStrain_RIT-eBBH-0001-n100.h5"],
     with_files
       (write_file (path_join (metadata_dir h) e) content
          (files archive_eccentric_only))
       (log_event (Fetch (metadata_link_of h e))
          (log_event (Probe (metadata_link_of h e))
             (log_event (Probe (metadata_link_of h e))
                (log_event (Probe (metadata_link_of h q))
                   archive_eccentric_only))))).
Proof.
  intros h q e content.
  apply (download_metadata_falls_back_to_eccentric h 1 100 0
           archive_eccentric_only q e content
           (List.filter keeps_line content) (parsed content));
    [reflexivity | reflexivity | reflexivity | right; reflexivity
    | apply parsed_spec; vm_compute; reflexivity | reflexivity | reflexivity].
Defined.

(** *** The crawl *)

(** The result of a run that does not raise, taken apart. *)
Lemma run_spec {A : Type} (p : result A * World) (d : A) :
  is_ok (fst p) = true ->
  p = (Ok match fst p with Ok a => a | Raise _ => d end, snd p).
Proof. destruct p as [[a|e] w]; [reflexivity | discriminate]. Qed.

Lemma crawl_step_shape h res max_id sims idx w s' w' :
  crawl_step h res max_id sims idx w = (Ok s', w') ->
  (exists sim_data, s' = (sims ++ sim_data)%list) /\
  helper_metadata w' = s' /\
  (use_cache h = true -> snapshot w' = Some s').
Proof.
  unfold crawl_step. intros H.
  unfold bind at 1 in H.
  destruct (lift (simtags h idx) w) as [[tags|e] w0]; [|discriminate H].
  unfold bind at 1 in H.
  match type of H with
  | match ?m w0 with _ => _ end = _ =>
      destruct (m w0) as [[f1|e] w1]; [|discriminate H]
  end.
  unfold bind at 1 in H.
  match type of H with
  | match ?m w1 with _ => _ end = _ =>
      destruct (m w1) as [[f2|e] w2]; [|discriminate H]
  end.
  unfold bind at 1 in H.
  match type of H with
  | match ?m w2 with _ => _ end = _ =>
      destruct (m w2) as [[f3|e] w3]; [|discriminate H]
  end.
  unfold bind, set_metadata, write_metadata_df_to_disk, get_metadata_df,
    write_snapshot, bind, ret in H.
  destruct (use_cache h); cbn in H; injection H as <- <-;
    (split; [destruct f3; [eauto | exists []; now rewrite app_nil_r]|]);
    (split; [reflexivity|]); intros; [reflexivity | discriminate].
Qed.

Lemma crawl_shape h res max_id idxs : forall sims w out w',
  crawl h res max_id sims idxs w = (Ok out, w') ->
  (exists more, out = (sims ++ more)%list) /\
  (idxs <> [] ->
   helper_metadata w' = out /\ (use_cache h = true -> snapshot w' = Some out)).
Proof.
  induction idxs as [|i idxs IH]; intros sims w out w' H.
  - cbn in H. injection H as <- <-. split; [|congruence].
    exists []. now rewrite app_nil_r.
  - cbn [crawl] in H. unfold bind at 1 in H.
    destruct (crawl_step h res max_id sims i w) as [[s1|e] w1] eqn:E;
      [|discriminate H].
    destruct (crawl_step_shape _ _ _ _ _ _ _ _ E) as ([sd ->] & Hm & Hs).
    destruct (IH _ _ _ _ H) as ([more Hout] & Hrest). split.
    + exists (sd ++ more)%list. now rewrite Hout, app_assoc.
    + intros _. destruct idxs as [|j idxs].
      * cbn in H. injection H as <- <-. auto.
      * apply Hrest. discriminate.
Qed.

Lemma range1_nonempty (n : Z) : 1 <= n -> range1 n <> [].
Proof.
  intros H. unfold range1.
  replace (Z.to_nat n) with (S (Z.to_nat (n - 1))) by lia. discriminate.
Qed.

(** X17. A crawl that is not cut short returns the table it has just
    persisted: the snapshot found on disk followed by the rows it added;
    that table is the helper's table and the new snapshot, and its length
    is the helper's count of simulations. *)
Theorem crawl_persists_what_it_returns (h : RITCatalogHelper)
  (num_sims_to_crawl : Z) (resolutions : list Z) (max_id_in_name : Z)
  (w w' : World) (df : list (gmap string value)) :
  use_cache h = true -> 1 <= num_sims_to_crawl ->
  Z.of_nat (length (snapshot_table w)) < num_sims_to_crawl - 1 ->
  download_metadata_for_catalog h num_sims_to_crawl resolutions
    max_id_in_name w = (Ok df, w') ->
  (exists more, df = (snapshot_table w ++ more)%list) /\
  snapshot w' = Some df /\
  helper_metadata w' = df /\
  num_of_sims w' = Z.of_nat (length df).
Proof.
  intros Hc Hn Hshort H. unfold download_metadata_for_catalog in H.
  rewrite Hc in H. unfold bind at 1 in H. unfold snapshot_on_disk at 1 in H.
  unfold snapshot_table in *.
  set (start := match snapshot w with Some df0 => df0 | None => [] end) in *.
  set (w0 := match snapshot w with
             | Some df0 => with_metadata df0 w
             | None => w
             end).
  assert (Hrun :
    (let! sims := crawl h
                    match resolutions with [] => possible_res h | _ => resolutions end
                    (if max_id_in_name <=? 0 then max_id_val h else max_id_in_name)
                    start (range1 num_sims_to_crawl) in
     let! _ := set_num_of_sims (Z.of_nat (length sims)) in
     get_metadata_df) w0 = (Ok df, w')).
  { subst start w0. destruct (snapshot w) as [df0|]; [|exact H].
    unfold bind at 1 in H. cbn [set_metadata] in H.
    destruct (Z.leb_spec (num_sims_to_crawl - 1) (Z.of_nat (length df0)));
      [lia | exact H]. }
  clear H. unfold bind at 1 in Hrun.
  destruct (crawl h _ _ start (range1 num_sims_to_crawl) w0)
    as [[sims|e] w1] eqn:E; [|discriminate Hrun].
  destruct (crawl_shape _ _ _ _ _ _ _ _ E) as (Hmore & Hrest).
  destruct (Hrest (range1_nonempty _ Hn)) as (Hm & Hs).
  unfold bind, set_num_of_sims, get_metadata_df in Hrun.
  cbn in Hrun. injection Hrun as <- <-. cbn. rewrite Hm.
  repeat split; auto.
Qed.

Lemma crawl_persists_what_it_returns_witness :
  let h := rit_helper "/cache" 0 true [100; 200] 2 in
  let w := world_of (cached_files 7) (Some (snapshot_rows 7)) [] in
  let run := download_metadata_for_catalog h 10 [] (-1) w in
  let df := match fst run with Ok df => df | Raise _ => [] end in
  (exists more, df = (snapshot_table w ++ more)%list) /\
  snapshot (snd run) = Some df /\
  helper_metadata (snd run) = df /\
  num_of_sims (snd run) = Z.of_nat (length df).
Proof.
  intros h w run df.
  apply (crawl_persists_what_it_returns h 10 [] (-1) w (snd run) df);
    [reflexivity | lia | vm_compute; reflexivity
    | apply (run_spec run []); vm_compute; reflexivity].
Defined.

(** X18. With [use_cache], an index whose metadata file is in the cache
    costs no network call: the step appends the cached record to the table
    and persists the table, and that is all it does. *)
Theorem cached_index_keeps_crawl_offline (h : RITCatalogHelper)
  (possible_res : list Z) (max_id_in_name : Z)
  (sims : list (gmap string value)) (idx : Z) (w : World)
  (row : gmap string value) (more : list (gmap string value)) :
  use_cache h = true ->
  fst (metadata_from_cache h idx w) = Ok (row :: more) ->
  crawl_step h possible_res max_id_in_name sims idx w
  = (Ok (sims ++ row :: more)%list,
     with_snapshot (sims ++ row :: more)
       (with_metadata (sims ++ row :: more) w)).
Proof.
  intros Hc Hhit. unfold crawl_step.
  pose proof (read_only_metadata_from_cache h idx w) as Hro.
  destruct (metadata_from_cache h idx w) as [r w1] eqn:E.
  cbn [fst snd] in *. subst r w1.
  destruct (simtags h idx) as [tags|e] eqn:Et.
  2:{ unfold metadata_from_cache, bind, lift in E. rewrite Et in E.
      discriminate E. }
  unfold bind at 1. unfold lift at 1. rewrite Hc.
  unfold bind at 1. unfold bind at 1. rewrite E. reflexivity.
Qed.

Lemma cached_index_keeps_crawl_offline_witness :
  let h := rit_helper "/cache" 0 true [100; 200] 2 in
  let w := world_of (cached_files 1) None [] in
  let rows := match fst (metadata_from_cache h 1 w) with
              | Ok (r :: l) => r :: l
              | _ => [∅]
              end in
  crawl_step h [100; 200] 2 [] 1 w
  = (Ok rows, with_snapshot rows (with_metadata rows w)).
Proof.
  intros h w rows.
  assert (H : match fst (metadata_from_cache h 1 w) with
              | Ok (_ :: _) => true
              | _ => false
              end = true) by (vm_compute; reflexivity).
  assert (E : fst (metadata_from_cache h 1 w) = Ok rows /\
              rows = hd ∅ rows :: tl rows).
  { subst rows. destruct (fst (metadata_from_cache h 1 w)) as [[|r l]|];
      [discriminate H | split; reflexivity | discriminate H]. }
  destruct E as [E R]. rewrite R in E |- *.
  exact (cached_index_keeps_crawl_offline h [100; 200] 2 [] 1 w
           (hd ∅ rows) (tl rows) eq_refl E).
Defined.

(** *** The snapshot when the cache is off *)

Lemma keeps_snapshot_ret {A} (a : A) : keeps_snapshot (ret a).
Proof. now intros w. Qed.

Lemma keeps_snapshot_lift {A} (r : result A) : keeps_snapshot (lift r).
Proof. now intros w. Qed.

Lemma keeps_snapshot_bind {A B} (m : M A) (k : A -> M B) :
  keeps_snapshot m -> (forall a, keeps_snapshot (k a)) ->
  keeps_snapshot (bind m k).
Proof.
  intros Hm Hk w. unfold bind. specialize (Hm w).
  destruct (m w) as [[a|e] w1]; cbn [snd] in *; [|exact Hm].
  now rewrite Hk.
Qed.

Lemma keeps_snapshot_read_only {A} (m : M A) : read_only m -> keeps_snapshot m.
Proof. intros H w. now rewrite H. Qed.

Lemma keeps_snapshot_url_exists u : keeps_snapshot (url_exists u).
Proof. now intros w. Qed.

Lemma keeps_snapshot_download_file u p : keeps_snapshot (download_file u p).
Proof. now intros w. Qed.

Lemma keeps_snapshot_exists_nonempty p : keeps_snapshot (exists_nonempty p).
Proof. now intros w. Qed.

Lemma keeps_snapshot_set_metadata df : keeps_snapshot (set_metadata df).
Proof. now intros w. Qed.

Lemma keeps_snapshot_metadata_from_file p :
  keeps_snapshot (metadata_from_file p).
Proof. apply keeps_snapshot_read_only, read_only_metadata_from_file. Qed.

#[local] Hint Resolve keeps_snapshot_ret keeps_snapshot_lift
  keeps_snapshot_url_exists keeps_snapshot_download_file
  keeps_snapshot_exists_nonempty keeps_snapshot_set_metadata
  keeps_snapshot_metadata_from_file : read_only.

Lemma keeps_snapshot_download_metadata_scan h names :
  forall d, keeps_snapshot (download_metadata_scan h names d).
Proof.
  induction names as [|n names IH]; intros d; cbn [download_metadata_scan];
    [auto with read_only|].
  apply keeps_snapshot_bind; [auto with read_only|]. intros [|]; cbn [negb];
    [|apply IH].
  apply keeps_snapshot_bind.
  { destruct (use_cache h); [|auto with read_only].
    apply keeps_snapshot_bind; [auto with read_only|]. intros [|];
      [|auto with read_only].
    apply keeps_snapshot_bind; [auto with read_only|]. intros [? ?].
    auto with read_only. }
  intros d1. apply keeps_snapshot_bind.
  { destruct (size d1 =? 0)%nat; [|auto with read_only].
    apply keeps_snapshot_bind; [auto with read_only|]. intros [|];
      [|auto with read_only].
    apply keeps_snapshot_bind.
    - unfold metadata_from_link.
      apply keeps_snapshot_bind; auto with read_only.
    - intros [? ?]. auto with read_only. }
  intros [d2|]; [|apply IH].
  apply keeps_snapshot_bind; [auto with read_only|]. intros ?.
  apply keeps_snapshot_bind; [auto with read_only|]. intros ?.
  destruct (0 <? size d2)%nat; [auto with read_only | apply IH].
Qed.

Lemma keeps_snapshot_download_metadata h idx res id_val :
  keeps_snapshot (download_metadata h idx res id_val).
Proof.
  unfold download_metadata.
  apply keeps_snapshot_bind; [auto with read_only|]. intros ?.
  apply keeps_snapshot_bind; [apply keeps_snapshot_download_metadata_scan|].
  auto with read_only.
Qed.

Lemma keeps_snapshot_probe_ids h idx res ids :
  keeps_snapshot (probe_ids h idx res ids).
Proof.
  induction ids as [|i ids IH]; cbn [probe_ids]; [auto with read_only|].
  apply keeps_snapshot_bind; [apply keeps_snapshot_download_metadata|].
  intros sd. destruct (0 <? length sd)%nat; [auto with read_only | exact IH].
Qed.

Lemma keeps_snapshot_remote_search h idx rs max_id :
  keeps_snapshot (remote_search h idx rs max_id).
Proof.
  unfold remote_search. induction (rev rs) as [|r l IH];
    cbn [probe_resolutions]; [auto with read_only|].
  apply keeps_snapshot_bind; [apply keeps_snapshot_probe_ids|].
  intros [sd|]; [auto with read_only | exact IH].
Qed.

Lemma keeps_snapshot_crawl_step h rs max_id sims idx :
  use_cache h = false -> keeps_snapshot (crawl_step h rs max_id sims idx).
Proof.
  intros Hc. unfold crawl_step. rewrite Hc.
  apply keeps_snapshot_bind; [auto with read_only|]. intros tags.
  apply keeps_snapshot_bind; [auto with read_only|]. intros f1.
  apply keeps_snapshot_bind.
  { destruct f1; [auto with read_only|].
    destruct (0 <? length sims)%nat; auto with read_only. }
  intros f2. apply keeps_snapshot_bind.
  { destruct f2; [auto with read_only | apply keeps_snapshot_remote_search]. }
  intros f3. apply keeps_snapshot_bind; [auto with read_only|]. intros ?.
  apply keeps_snapshot_bind; auto with read_only.
Qed.

Lemma keeps_snapshot_crawl h rs max_id idxs :
  use_cache h = false ->
  forall sims, keeps_snapshot (crawl h rs max_id sims idxs).
Proof.
  intros Hc. induction idxs as [|i idxs IH]; intros sims; cbn [crawl];
    [auto with read_only|].
  apply keeps_snapshot_bind; [now apply keeps_snapshot_crawl_step|].
  intros ?. apply IH.
Qed.

(** X19. With the cache off, the crawl never writes the snapshot: whatever
    it returns or raises, [metadata.csv] is as before. *)
Theorem crawl_without_cache_leaves_snapshot (h : RITCatalogHelper)
  (num_sims_to_crawl : Z) (resolutions : list Z) (max_id_in_name : Z)
  (w : World) :
  use_cache h = false ->
  snapshot (snd (download_metadata_for_catalog h num_sims_to_crawl
                   resolutions max_id_in_name w))
  = snapshot w.
Proof.
  intros Hc. unfold download_metadata_for_catalog. rewrite Hc.
  apply keeps_snapshot_bind; [now apply keeps_snapshot_crawl|]. intros sims.
  apply keeps_snapshot_bind; now intros ?.
Qed.

Lemma crawl_without_cache_leaves_snapshot_witness :
  let h := rit_helper "/cache" 0 false [100; 200] 2 in
  let w := world_of [] (Some (snapshot_rows 3))
             (remote archive_both_resolutions) in
  snapshot (snd (download_metadata_for_catalog h 2 [] (-1) w)) = snapshot w.
Proof.
  intros h w.
  apply (crawl_without_cache_leaves_snapshot h 2 [] (-1) w). reflexivity.
Defined.

(* ===================================================================== *)
(** ** Data files, accessors and the catalog *)

(** *** Fetching data files *)

Lemma exists_nonempty_written path line lines w :
  exists_nonempty path
    (with_files (write_file path (line :: lines) (files w)) w)
  = (Ok true, with_files (write_file path (line :: lines) (files w)) w).
Proof.
  unfold exists_nonempty. cbn [files with_files].
  now rewrite assoc_write_file.
Qed.

Lemma download_data_cached url path line lines w :
  assoc path (files w) = Some (line :: lines) ->
  download_data true url path w = (Ok true, w).
Proof.
  intros H. unfold download_data, bind, exists_nonempty. now rewrite H.
Qed.

Lemma download_data_uncached cache url path w :
  (cache = false \/ assoc path (files w) = None \/ assoc path (files w) = Some []) ->
  download_data cache url path w
  = match assoc url (remote w) with
    | Some content =>
        (Ok true,
         with_files (write_file path content (files w))
           (log_event (Fetch url) (log_event (Probe url) w)))
    | None => (Ok false, log_event (Probe url) w)
    end.
Proof.
  intros H. unfold download_data.
  assert ((if cache then exists_nonempty path else ret false) w = (Ok false, w))
    as Hc.
  { destruct cache; [|reflexivity]. unfold exists_nonempty.
    destruct H as [H|[->| ->]]; [discriminate H | reflexivity ..]. }
  unfold bind at 1. rewrite Hc. unfold bind at 1.
  destruct (assoc url (remote w)) as [content|] eqn:E.
  - rewrite (url_exists_present _ _ _ E). unfold bind, wget, ret.
    cbn [remote files log_event]. now rewrite E.
  - now rewrite (url_exists_absent _ _ E).
Qed.

Lemma download_waveform_data_eq h sim_name file_name use_cache_arg w :
  waveform_filename_from_simname h sim_name = Ok file_name ->
  download_waveform_data h sim_name use_cache_arg w
  = download_data
      match use_cache_arg with None => use_cache h | Some b => b end
      (waveform_data_url h ++ "/" ++ file_name)
      (path_join (waveform_data_dir h) file_name) w.
Proof.
  intros Hf. unfold download_waveform_data, bind, lift. now rewrite Hf.
Qed.

Lemma download_psi4_data_eq h sim_name file_name use_cache_arg w :
  psi4_filename_from_simname h sim_name = Ok file_name ->
  download_psi4_data h sim_name use_cache_arg w
  = download_data
      match use_cache_arg with None => use_cache h | Some b => b end
      (psi4_data_url h ++ "/" ++ file_name)
      (path_join (psi4_data_dir h) file_name) w.
Proof.
  intros Hf. unfold download_psi4_data, bind, lift. now rewrite Hf.
Qed.

(** X20. [download_waveform_data] answers whether the file can be had: [True]
    without any network call for a non-empty cached copy (when the cache is
    to be used), [True] after one probe and one fetch into the data
    directory when the archive holds the file, [False] after one probe and
    with no file written when it does not. [use_cache=None] stands for the
    helper's own setting. *)
Theorem download_waveform_data_outcomes (h : RITCatalogHelper)
  (sim_name file_name : string) (use_cache_arg : option bool) (w : World) :
  waveform_filename_from_simname h sim_name = Ok file_name ->
  let cache := match use_cache_arg with None => use_cache h | Some b => b end in
  let url := waveform_data_url h ++ "/" ++ file_name in
  let path := path_join (waveform_data_dir h) file_name in
  (forall line lines,
     cache = true -> assoc path (files w) = Some (line :: lines) ->
     download_waveform_data h sim_name use_cache_arg w = (Ok true, w)) /\
  (forall content,
     (cache = false \/ assoc path (files w) = None
      \/ assoc path (files w) = Some []) ->
     assoc url (remote w) = Some content ->
     download_waveform_data h sim_name use_cache_arg w
     = (Ok true,
        with_files (write_file path content (files w))
          (log_event (Fetch url) (log_event (Probe url) w)))) /\
  ((cache = false \/ assoc path (files w) = None
    \/ assoc path (files w) = Some []) ->
   assoc url (remote w) = None ->
   download_waveform_data h sim_name use_cache_arg w
   = (Ok false, log_event (Probe url) w)).
Proof.
  intros Hf cache url path.
  rewrite (download_waveform_data_eq h sim_name file_name use_cache_arg w Hf).
  fold cache url path. split; [|split].
  - intros line lines -> Hp. now apply (download_data_cached url path line lines).
  - intros content Hc Hr. rewrite (download_data_uncached _ _ _ _ Hc).
    now rewrite Hr.
  - intros Hc Hr. rewrite (download_data_uncached _ _ _ _ Hc). now rewrite Hr.
Qed.

Lemma download_waveform_data_outcomes_witness :
  let h := rit_helper "/cache" 0 false [100; 200] 6 in
  let sim_name := "RIT:BBH:0001-n100-id3" in
  let w := archive_with_data in
  let cache := match Some true with None => use_cache h | Some b => b end in
  let url := waveform_data_url h ++ "/" ++ "ExtrapStrain_RIT-BBH-0001-n100.h5" in
  let path := path_join (waveform_data_dir h)
                "ExtrapStrain_RIT-BBH-0001-n100.h5" in
  (forall line lines,
     cache = true -> assoc path (files w) = Some (line :: lines) ->
     download_waveform_data h sim_name (Some true) w = (Ok true, w)) /\
  (forall content,
     (cache = false \/ assoc path (files w) = None
      \/ assoc path (files w) = Some []) ->
     assoc url (remote w) = Some content ->
     download_waveform_data h sim_name (Some true) w
     = (Ok true,
        with_files (write_file path content (files w))
          (log_event (Fetch url) (log_event (Probe url) w)))) /\
  ((cache = false \/ assoc path (files w) = None
    \/ assoc path (files w) = Some []) ->
   assoc url (remote w) = None ->
   download_waveform_data h sim_name (Some true) w
   = (Ok false, log_event (Probe url) w)).
Proof.
  intros h sim_name w.
  apply (download_waveform_data_outcomes h sim_name
           "ExtrapStrain_RIT-BBH-0001-n100.h5" (Some true) w).
  reflexivity.
Defined.

(** X21. Once [download_psi4_data] has answered [True] with the cache in
    use, asking again is free: the second call answers [True] from the
    cached copy, without a network call and without writing. (The archive's
    payload must not be empty: an empty file counts as not cached.) *)
Theorem second_psi4_download_is_offline (h : RITCatalogHelper)
  (sim_name file_name : string) (w : World) (line : string)
  (lines : list string) :
  psi4_filename_from_simname h sim_name = Ok file_name ->
  (assoc (path_join (psi4_data_dir h) file_name) (files w)
     = Some (line :: lines) \/
   ((assoc (path_join (psi4_data_dir h) file_name) (files w) = None \/
     assoc (path_join (psi4_data_dir h) file_name) (files w) = Some []) /\
    assoc (psi4_data_url h ++ "/" ++ file_name) (remote w)
      = Some (line :: lines))) ->
  exists w1,
    download_psi4_data h sim_name (Some true) w = (Ok true, w1) /\
    download_psi4_data h sim_name (Some true) w1 = (Ok true, w1).
Proof.
  intros Hf H.
  rewrite (download_psi4_data_eq h sim_name file_name (Some true) w Hf).
  set (url := psi4_data_url h ++ "/" ++ file_name) in *.
  set (path := path_join (psi4_data_dir h) file_name) in *.
  destruct H as [Hp|[Hp Hr]].
  - exists w. split; [|rewrite (download_psi4_data_eq _ _ _ _ _ Hf)];
      now apply (download_data_cached url path line lines).
  - eexists. split.
    + rewrite download_data_uncached by auto. rewrite Hr. reflexivity.
    + rewrite (download_psi4_data_eq _ _ _ _ _ Hf).
      apply (download_data_cached url path line lines).
      cbn [files with_files]. apply assoc_write_file.
Qed.

Lemma second_psi4_download_is_offline_witness :
  let h := rit_helper "/cache" 0 true [100; 200] 6 in
  exists w1,
    download_psi4_data h "RIT:BBH:0001-n100-id3" (Some true) archive_with_data
      = (Ok true, w1) /\
    download_psi4_data h "RIT:BBH:0001-n100-id3" (Some true) w1 = (Ok true, w1).
Proof.
  intros h.
  apply (second_psi4_download_is_offline h "RIT:BBH:0001-n100-id3"
           "ExtrapPsi4_RIT-BBH-0001-n100-id3.tar.gz" archive_with_data
           "psi4" []);
    [reflexivity | right; split; [left|]; reflexivity].
Defined.

(** *** Links, locations and the accessors of the catalog *)

Lemma linked_links h d sim_name link location psi4 wf :
  linked h d sim_name link location psi4 wf !! "psi4_data_link"
    = Some (VStr (psi4_data_url h ++ "/" ++ psi4)) /\
  linked h d sim_name link location psi4 wf !! "waveform_data_link"
    = Some (VStr (waveform_data_url h ++ "/" ++ wf)) /\
  linked h d sim_name link location psi4 wf !! "metadata_location"
    = Some (VStr location) /\
  linked h d sim_name link location psi4 wf !! "psi4_data_location"
    = Some (VStr (path_join (psi4_data_dir h) psi4)) /\
  linked h d sim_name link location psi4 wf !! "waveform_data_location"
    = Some (VStr (path_join (waveform_data_dir h) wf)).
Proof.
  unfold linked. repeat split;
    rewrite ?lookup_insert_ne by discriminate; apply lookup_insert_eq.
Qed.

(** X22. The three links of a record agree with the URL accessors of the
    catalog. For the record [download_metadata] builds from a quasicircular
    candidate (id value of one digit), each accessor applied to the
    record's simulation name returns the link the record holds. *)
Theorem record_links_agree_with_url_accessors (c : RITCatalog)
  (idx res id_val : Z) (d : gmap string value) (location psi4 : string) :
  metadata_file_fmts (helper c) = rit_metadata_file_fmts ->
  0 <= idx <= 9999 -> 0 <= res -> 0 <= id_val <= 9 ->
  psi4_filename_from_simname (helper c) (quasi_simname idx res id_val)
    = Ok psi4 ->
  exists wf um up uw,
    waveform_filename_from_simname (helper c) (quasi_simname idx res id_val)
      = Ok wf /\
    simname_from_metadata_filename (quasi_name idx res id_val)
      = quasi_simname idx res id_val /\
    metadata_url_from_simname c (quasi_simname idx res id_val) = Ok um /\
    psi4_url_from_simname c (quasi_simname idx res id_val) = Ok up /\
    waveform_url_from_simname c (quasi_simname idx res id_val) = Ok uw /\
    let row := linked (helper c) d (quasi_simname idx res id_val)
                 (metadata_link_of (helper c) (quasi_name idx res id_val))
                 location psi4 wf in
    row !! "simulation_name" = Some (VStr (quasi_simname idx res id_val)) /\
    row !! "metadata_link" = Some (VStr um) /\
    row !! "psi4_data_link" = Some (VStr up) /\
    row !! "waveform_data_link" = Some (VStr uw).
Proof.
  intros Hf Hidx Hres Hid Hpsi.
  pose proof (waveform_of_quasi_simname (helper c) idx res id_val Hf Hidx
                Hres ltac:(lia)) as Hwf.
  exists (strain_name "BBH" idx res),
    (metadata_link_of (helper c) (quasi_name idx res id_val)),
    (psi4_data_url (helper c) ++ "/" ++ psi4),
    (waveform_data_url (helper c) ++ "/" ++ strain_name "BBH" idx res).
  split; [exact Hwf|].
  split; [now apply simname_of_quasi_name|].
  split; [|split; [|split]].
  - unfold metadata_url_from_simname, metadata_filename_from_simname.
    rewrite filename_of_quasi_simname by lia.
    rewrite Hf. cbn [rit_metadata_file_fmts Py.index nth_error rbind].
    rewrite Z.mod_small by lia. now rewrite format_quasi.
  - unfold psi4_url_from_simname. now rewrite Hpsi.
  - unfold waveform_url_from_simname. now rewrite Hwf.
  - cbv zeta.
    destruct (linked_lookup (helper c) d (quasi_simname idx res id_val)
                (metadata_link_of (helper c) (quasi_name idx res id_val))
                location psi4 (strain_name "BBH" idx res)) as (L1 & L2).
    destruct (linked_links (helper c) d (quasi_simname idx res id_val)
                (metadata_link_of (helper c) (quasi_name idx res id_val))
                location psi4 (strain_name "BBH" idx res)) as (L3 & L4 & _).
    auto.
Qed.

Lemma record_links_agree_with_url_accessors_witness :
  let c := {| simulations := ∅;
              helper := rit_helper "/cache" 0 true [100; 200] 6;
              catalog_verbosity := 0 |} in
  let location := "/cache/metadata/RIT:BBH:0001-n100-id3_Metadata.txt" in
  let psi4 := "ExtrapPsi4_RIT-BBH-0001-n100-id3.tar.gz" in
  exists wf um up uw,
    waveform_filename_from_simname (helper c) (quasi_simname 1 100 3)
      = Ok wf /\
    simname_from_metadata_filename (quasi_name 1 100 3)
      = quasi_simname 1 100 3 /\
    metadata_url_from_simname c (quasi_simname 1 100 3) = Ok um /\
    psi4_url_from_simname c (quasi_simname 1 100 3) = Ok up /\
    waveform_url_from_simname c (quasi_simname 1 100 3) = Ok uw /\
    let row := linked (helper c) ∅ (quasi_simname 1 100 3)
                 (metadata_link_of (helper c) (quasi_name 1 100 3))
                 location psi4 wf in
    row !! "simulation_name" = Some (VStr (quasi_simname 1 100 3)) /\
    row !! "metadata_link" = Some (VStr um) /\
    row !! "psi4_data_link" = Some (VStr up) /\
    row !! "waveform_data_link" = Some (VStr uw).
Proof.
  intros c location psi4.
  apply (record_links_agree_with_url_accessors c 1 100 3 ∅ location psi4);
    [reflexivity | lia | lia | lia | reflexivity].
Defined.

(** X23. For a known simulation whose computed local files exist, each of
    the three path accessors returns the location the record holds, and
    leaves the world as it is. *)
Theorem path_accessors_on_present_files (c : RITCatalog) (sim_name : string)
  (row : gmap string value) (pm pw pp : string) (cm cw cp : list string)
  (w : World) :
  simulations c !! sim_name = Some row ->
  row !! "metadata_location" = Some (VStr pm) ->
  row !! "waveform_data_location" = Some (VStr pw) ->
  row !! "psi4_data_location" = Some (VStr pp) ->
  assoc pm (files w) = Some cm ->
  assoc pw (files w) = Some cw ->
  assoc pp (files w) = Some cp ->
  metadata_filepath_from_simname c sim_name w = (Ok pm, w) /\
  psi4_filepath_from_simname c sim_name w = (Ok pp, w) /\
  waveform_filepath_from_simname c sim_name w = (Ok pw, w).
Proof.
  intros Hs Hm Hw Hp Em Ew Ep.
  unfold metadata_filepath_from_simname, psi4_filepath_from_simname,
    waveform_filepath_from_simname, bind, lift, location, get_metadata,
    path_exists, raise, ret.
  rewrite Hs. cbn [rbind]. rewrite Hm, Hw, Hp, ?Em, ?Ew, ?Ep.
  repeat split; reflexivity.
Qed.

Lemma path_accessors_on_present_files_witness :
  let pm := "/cache/metadata/RIT:BBH:0001-n100-id3_Metadata.txt" in
  let pw := "/cache/data/ExtrapStrain_RIT-BBH-0001-n100.h5" in
  let pp := "/cache/data/ExtrapPsi4_RIT-BBH-0001-n100-id3.tar.gz" in
  let row : gmap string value :=
    <["metadata_location" := VStr pm]>
      (<["waveform_data_location" := VStr pw]>
         (<["psi4_data_location" := VStr pp]> ∅)) in
  let c := {| simulations := {["RIT:BBH:0001-n100-id3" := row]};
              helper := rit_helper "/cache" 3 true [100; 200] 6;
              catalog_verbosity := 3 |} in
  let w := cache_with_all_files in
  metadata_filepath_from_simname c "RIT:BBH:0001-n100-id3" w = (Ok pm, w) /\
  psi4_filepath_from_simname c "RIT:BBH:0001-n100-id3" w = (Ok pp, w) /\
  waveform_filepath_from_simname c "RIT:BBH:0001-n100-id3" w = (Ok pw, w).
Proof.
  intros pm pw pp row c w.
  apply (path_accessors_on_present_files c "RIT:BBH:0001-n100-id3" row
           pm pw pp ["system-type = Aligned"] ["strain"] ["psi4"] w);
    reflexivity.
Defined.

(** *** The dictionary of simulations *)

Lemma ok_spec {A : Type} (r : result A) (d : A) :
  is_ok r = true -> r = Ok match r with Ok a => a | Raise _ => d end.
Proof. destruct r; [reflexivity | discriminate]. Qed.

Lemma simulations_of_acc (df : list (gmap string value)) :
  forall acc m n,
    simulations_of df acc = Ok m ->
    Forall (fun r => row_name r <> Ok n) df ->
    m !! n = acc !! n.
Proof.
  induction df as [|r df IH]; intros acc m n H Hn.
  - cbn in H. now injection H as <-.
  - cbn [simulations_of] in H. inversion Hn as [|? ? Hr Hrest]; subst.
    destruct (row_name r) as [name|] eqn:E; [|discriminate H].
    cbn [rbind] in H. rewrite (IH _ _ _ H Hrest).
    apply lookup_insert_ne. congruence.
Qed.

(** X24. The dictionary [load] builds is keyed by simulation name, and a
    name that occurs in several rows keeps the last of them. *)
Theorem simulations_keep_last_row (before after : list (gmap string value))
  (row : gmap string value) (name : string)
  (m : gmap string (gmap string value)) :
  simulations_of (before ++ row :: after) ∅ = Ok m ->
  row_name row = Ok name ->
  Forall (fun r => row_name r <> Ok name) after ->
  m !! name = Some row.
Proof.
  intros H Hr Ha.
  assert (G : forall df acc,
            simulations_of (df ++ row :: after) acc = Ok m ->
            m !! name = Some row).
  { clear H. induction df as [|r df IH]; intros acc H.
    - cbn [app simulations_of] in H. rewrite Hr in H. cbn [rbind] in H.
      rewrite (simulations_of_acc _ _ _ name H Ha). apply lookup_insert_eq.
    - cbn [app simulations_of] in H.
      destruct (row_name r) as [n|]; [|discriminate H]. cbn [rbind] in H.
      exact (IH _ H). }
  exact (G _ _ H).
Qed.

Lemma simulations_keep_last_row_witness :
  let first : gmap string value :=
    <["simulation_name" := VStr "RIT:BBH:0001-n100-id0"]>
      (<["Msun" := VFloat 1]> ∅) in
  let second : gmap string value :=
    <["simulation_name" := VStr "RIT:BBH:0001-n100-id0"]>
      (<["Msun" := VFloat 2]> ∅) in
  let m := match simulations_of [first; second] ∅ with
           | Ok m => m
           | Raise _ => ∅
           end in
  m !! "RIT:BBH:0001-n100-id0" = Some second.
Proof.
  intros first second m.
  apply (simulations_keep_last_row [first] [] second
           "RIT:BBH:0001-n100-id0" m);
    [apply (ok_spec (simulations_of [first; second] ∅) ∅);
       vm_compute; reflexivity
    | vm_compute; reflexivity | constructor].
Defined.

(** *** Names that do not decode *)

(** X25. Only the id value has a fallback: a name without ["-"] has no
    resolution segment, and decoding it raises. *)
Theorem sim_info_needs_a_resolution (file_name : string) :
  no_char "-" file_name = true ->
  is_ok (sim_info_from_metadata_filename file_name) = false.
Proof.
  intros H. unfold sim_info_from_metadata_filename.
  rewrite (split_none "-" file_name H). cbn [Py.index nth_error rbind].
  now destruct (Py.int (Py.last_n 4 file_name)).
Qed.

Lemma sim_info_needs_a_resolution_witness :
  is_ok (sim_info_from_metadata_filename "metadata.csv") = false.
Proof. apply (sim_info_needs_a_resolution "metadata.csv"). reflexivity. Defined.

(** *** What a fetch saves, the cache lookup finds *)



Lemma app_empty_str (s : string) : s ++ EmptyString = s.
Proof. induction s as [|c s IH]; cbn; [reflexivity | now rewrite IH]. Qed.

Lemma simtags_rit (h : RITCatalogHelper) (idx : Z) :
  metadata_file_fmts h = rit_metadata_file_fmts ->
  simtags h idx = Ok [quasi_tag idx; ecc_tag idx].
Proof.
  intros Hf. unfold simtags, simtag. rewrite Hf.
  cbn -[Py.zero_pad]. unfold quasi_tag, ecc_tag.
  repeat (rewrite ?app_assoc_str; cbn -[Py.zero_pad]).
  now rewrite !app_empty_str.
Qed.

Lemma prefix_app_cancel (a b c : string) :
  String.prefix (a ++ b) (a ++ c) = String.prefix b c.
Proof.
  induction a as [|x a IH]; [reflexivity|].
  cbn [String.append String.prefix].
  destruct (ascii_dec x x); [exact IH | congruence].
Qed.

Lemma prefix_app_self (a b : string) : String.prefix a (a ++ b) = true.
Proof.
  induction a as [|x a IH]; [now destruct b|].
  cbn [String.append String.prefix].
  destruct (ascii_dec x x); [exact IH | congruence].
Qed.

Lemma contains_slash (s : string) :
  no_char "/" s = true -> Py.contains "/" s = false.
Proof. apply (contains_no_char "/" EmptyString). Qed.

(** The paths a glob gives once a file has been written that matches it,
    when none did before. *)
Lemma filter_written (P : string -> bool) (p : string) (c : list string)
  (l : list (string * list string)) :
  P p = true -> List.filter P (map fst l) = [] ->
  List.filter P (map fst (write_file p c l)) = [p].
Proof.
  intros Hp. induction l as [|[p0 c0] l IH]; intros Hl.
  - cbn. now rewrite Hp.
  - cbn [map fst List.filter] in Hl.
    destruct (P p0) eqn:E0; [discriminate Hl|].
    cbn [write_file]. destruct (String.eqb p p0) eqn:E.
    + apply String.eqb_eq in E. congruence.
    + cbn [map fst List.filter]. rewrite E0. exact (IH Hl).
Qed.

Lemma prefix_empty (s : string) : String.prefix EmptyString s = true.
Proof. now destruct s. Qed.

(** A text with a separator in it splits into two pieces at least. *)
Lemma split_two_pieces (a b : string) :
  (2 <= length (Py.split "/" (a ++ String "/" b)))%nat.
Proof.
  unfold Py.split. induction a as [|y a IH];
    cbn [String.append Py.split_go String.prefix String.length Nat.sub].
  - destruct (ascii_dec "/" "/"); [|congruence]. rewrite prefix_empty.
    pose proof (split_go_nonempty "/" 0 b) as Hn.
    destruct (Py.split_go "/" 0 b); [congruence | cbn [length]; lia].
  - destruct (ascii_dec "/" y).
    + rewrite prefix_empty. cbn [length]. lia.
    + destruct (Py.split_go "/" 0 (a ++ String "/" b)) as [|? [|? ?]];
        cbn [length Py.cons_head] in *; lia.
Qed.

(** The last piece is what follows the last separator. *)
Lemma split_slash_last (a b : string) :
  no_char "/" b = true ->
  exists pre, Py.split "/" (a ++ String "/" b) = (pre ++ [b])%list.
Proof.
  intros Hb. induction a as [|c a [pre IH]].
  - exists [EmptyString]. unfold Py.split.
    cbn [String.append Py.split_go String.prefix String.length Nat.sub].
    destruct (ascii_dec "/" "/"); [|congruence]. rewrite prefix_empty.
    cbn [app]. f_equal. exact (split_none "/" b Hb).
  - pose proof (split_two_pieces a b) as Hlen. rewrite IH in Hlen.
    unfold Py.split in *.
    cbn [String.append Py.split_go String.prefix String.length Nat.sub].
    rewrite IH. destruct (ascii_dec "/" c).
    + rewrite prefix_empty. now exists (EmptyString :: pre).
    + destruct pre as [|x pre]; [cbn in Hlen; lia|].
      now exists (String c x :: pre).
Qed.

Lemma basename_path_join (dir name : string) :
  no_char "/" name = true -> basename (path_join dir name) = name.
Proof.
  intros H. unfold basename, path_join.
  change (dir ++ "/" ++ name) with (dir ++ String "/" name).
  destruct (split_slash_last dir name H) as [pre ->].
  apply last_last.
Qed.

Lemma quasi_name_tag (idx res id_val : Z) :
  exists tail,
    quasi_name idx res id_val = quasi_tag idx ++ tail /\
    (0 <= res -> 0 <= id_val -> no_char "/" tail = true).
Proof.
  exists (String "-" (String "n" (Py.dec_Z res)
                      ++ String "-" ("id" ++ Py.dec_Z id_val))
          ++ "_Metadata.txt").
  split.
  - unfold quasi_name, quasi_tag, quasi_stem.
    cbn -[Py.zero_pad Py.dec_Z].
    repeat (rewrite ?app_assoc_str; cbn -[Py.zero_pad Py.dec_Z]).
    reflexivity.
  - intros Hres Hid.
    destruct (dec_Z_nonneg res Hres) as (HR & _).
    destruct (dec_Z_nonneg id_val Hid) as (HD & _).
    change (String "-" (String "n" (Py.dec_Z res)
                        ++ String "-" ("id" ++ Py.dec_Z id_val))
            ++ "_Metadata.txt")
      with ("-n" ++ (Py.dec_Z res ++ ("-id" ++ Py.dec_Z id_val))
            ++ "_Metadata.txt").
    rewrite !no_char_app.
    rewrite (all_digits_no_char "/" _ eq_refl HR).
    now rewrite (all_digits_no_char "/" _ eq_refl HD).
Qed.

Lemma no_slash_quasi_name (idx res id_val : Z) :
  0 <= idx <= 9999 -> 0 <= res -> 0 <= id_val ->
  no_char "/" (quasi_name idx res id_val) = true.
Proof.
  intros Hidx Hres Hid. unfold quasi_name.
  rewrite !no_char_app.
  now rewrite (no_char_stem "/" idx res id_val Hidx Hres Hid).
Qed.

(** X26. What a fetch saves, the cache lookup finds: once the metadata file
    of a quasicircular candidate has been written into the metadata
    directory, and no other file of that index's quasicircular tag is
    there, [simname_from_cache] returns the candidate's simulation name,
    which decodes to the candidate's index, resolution and id value. *)
Theorem fetched_file_is_found_in_cache (h : RITCatalogHelper)
  (idx res id_val : Z) (w w' : World) (content : list string) :
  metadata_file_fmts h = rit_metadata_file_fmts ->
  0 <= idx <= 9999 -> 0 <= res -> 0 <= id_val ->
  fst (glob_prefix (path_join (metadata_dir h) (quasi_tag idx)) w) = Ok [] ->
  files w'
  = write_file (path_join (metadata_dir h) (quasi_name idx res id_val))
      content (files w) ->
  simname_from_cache h idx w' = (Ok (quasi_simname idx res id_val), w') /\
  sim_info_from_metadata_filename (quasi_simname idx res id_val)
  = Ok (idx, res, id_val).
Proof.
  intros Hf Hidx Hres Hid Hglob Hw. split; [|now apply sim_info_quasi_simname].
  unfold simname_from_cache, bind, lift. rewrite (simtags_rit h idx Hf).
  cbn [simname_scan]. unfold bind, glob_prefix. rewrite Hw.
  unfold glob_prefix in Hglob. cbn [fst] in Hglob. injection Hglob as Hglob.
  rewrite (filter_written _ _ _ _) ; [| |exact Hglob].
  - cbn [ret]. rewrite basename_path_join by now apply no_slash_quasi_name.
    now rewrite simname_of_quasi_name.
  - destruct (quasi_name_tag idx res id_val) as (tail & -> & Ht).
    unfold path_join. rewrite <- !app_assoc_str.
    rewrite prefix_app_self.
    rewrite (drop_app ((metadata_dir h ++ "/") ++ quasi_tag idx) tail).
    now rewrite contains_slash by auto.
Qed.

Lemma fetched_file_is_found_in_cache_witness :
  let h := rit_helper "/cache" 0 true [100; 200] 6 in
  let content := ["system-type = Aligned"; "relaxed-chi1z = 0.2"] in
  let w' := with_files
              (write_file (path_join (metadata_dir h) (quasi_name 1 200 1))
                 content (files archive_both_resolutions))
              archive_both_resolutions in
  simname_from_cache h 1 w' = (Ok (quasi_simname 1 200 1), w') /\
  sim_info_from_metadata_filename (quasi_simname 1 200 1) = Ok (1, 200, 1).
Proof.
  intros h content w'.
  apply (fetched_file_is_found_in_cache h 1 200 1 archive_both_resolutions
           w' content);
    [reflexivity | lia | lia | lia | reflexivity | reflexivity].
Defined.

(** *** An index that is nowhere *)

Lemma length_miss_events h quasi ecc ids :
  length (miss_events h quasi ecc ids) = (2 * length ids)%nat.
Proof.
  unfold miss_events. induction ids as [|i ids IH]; [reflexivity|].
  cbn [map concat app length]. rewrite IH. lia.
Qed.

Lemma length_resolution_miss_events h quasi ecc ids ms :
  length (resolution_miss_events h quasi ecc ids ms)
  = (2 * length ids * length ms)%nat.
Proof.
  unfold resolution_miss_events. induction ms as [|m ms IH]; [cbn; lia|].
  cbn [map concat]. rewrite List.length_app, IH, length_miss_events.
  cbn [length]. lia.
Qed.

Lemma length_range (n : Z) : length (range n) = Z.to_nat n.
Proof. unfold range. now rewrite length_map, length_seq. Qed.

(** X27. An index that is neither in the cache, nor in the table, nor in
    the archive costs the full search: every resolution, last configured
    first, times every id value below the bound, each with a probe of the
    quasicircular name and a probe of the eccentric name (the same
    eccentric URL once per id value). The table is left as it was and is
    persisted again. *)
Theorem unfound_index_costs_every_probe (h : RITCatalogHelper)
  (possible_res : list Z) (max_id_in_name idx : Z)
  (sims : list (gmap string value)) (w : World) :
  metadata_file_fmts h = rit_metadata_file_fmts ->
  use_cache h = true ->
  fst (metadata_from_cache h idx w) = Ok [] ->
  scan_dataframe idx [quasi_tag idx; ecc_tag idx] sims None = Ok None ->
  (forall m id, In m possible_res -> 0 <= id < max_id_in_name ->
     assoc (metadata_link_of h (quasi_name idx m id)) (remote w) = None) ->
  (forall m, In m possible_res ->
     assoc (metadata_link_of h (ecc_name idx m)) (remote w) = None) ->
  exists w',
    crawl_step h possible_res max_id_in_name sims idx w = (Ok sims, w') /\
    net_log w'
    = (net_log w
       ++ resolution_miss_events h (quasi_name idx) (ecc_name idx)
            (range max_id_in_name) (rev possible_res))%list /\
    length (net_log w')
    = (length (net_log w)
       + 2 * Z.to_nat max_id_in_name * length possible_res)%nat /\
    files w' = files w /\
    snapshot w' = Some sims /\
    helper_metadata w' = sims.
Proof.
  intros Hf Hc Hcache Hscan Hq He.
  pose proof (read_only_metadata_from_cache h idx w) as Hro.
  destruct (metadata_from_cache h idx w) as [r w1] eqn:E.
  cbn [fst snd] in *. subst r w1.
  pose proof (remote_search_after_misses h idx max_id_in_name []
                possible_res w (quasi_name idx) (ecc_name idx)
                (fun m id => metadata_filenames_names h idx m id Hf) Hq He)
    as Hsearch.
  cbn [app] in Hsearch.
  set (w2 := after_resolution_misses h (quasi_name idx) (ecc_name idx)
               (range max_id_in_name) (rev possible_res) w) in *.
  destruct (after_resolution_misses_spec h (quasi_name idx) (ecc_name idx)
              (range max_id_in_name) (rev possible_res) w)
    as (_ & HF & _ & HL).
  fold w2 in HF, HL.
  exists (with_snapshot sims (with_metadata sims w2)).
  split; [|cbn; rewrite HL, HF, !List.length_app, length_resolution_miss_events,
                 length_range, length_rev; auto].
  unfold crawl_step. unfold bind at 1. unfold lift at 1.
  rewrite (simtags_rit h idx Hf). rewrite Hc.
  unfold bind at 1. unfold bind at 1. rewrite E.
  change (0 <? length (@nil (gmap string value)))%nat with false.
  cbn [ret]. unfold bind at 1.
  assert (Htier2 :
    (if (0 <? length sims)%nat
     then lift (scan_dataframe idx [quasi_tag idx; ecc_tag idx] sims None)
     else ret None) w = (Ok None, w)).
  { destruct (0 <? length sims)%nat; [|reflexivity].
    unfold lift. now rewrite Hscan. }
  rewrite Htier2. unfold bind at 1. rewrite Hsearch.
  reflexivity.
Qed.

Lemma unfound_index_costs_every_probe_witness :
  let h := rit_helper "/cache" 0 true [100; 200] 3 in
  let w := archive_both_resolutions in
  exists w',
    crawl_step h [100; 200] 3 (snapshot_rows 1) 2 w
      = (Ok (snapshot_rows 1), w') /\
    net_log w'
    = (net_log w
       ++ resolution_miss_events h (quasi_name 2) (ecc_name 2)
            (range 3) (rev [100; 200]))%list /\
    length (net_log w')
    = (length (net_log w) + 2 * Z.to_nat 3 * length [100; 200])%nat /\
    files w' = files w /\
    snapshot w' = Some (snapshot_rows 1) /\
    helper_metadata w' = snapshot_rows 1.
Proof.
  intros h w.
  apply (unfound_index_costs_every_probe h [100; 200] 3 2 (snapshot_rows 1) w);
    [reflexivity | reflexivity | reflexivity | vm_compute; reflexivity | |].
  - intros m id [<-|[<-|[]]] Hid;
      (assert (id = 0 \/ id = 1 \/ id = 2) as [->|[->| ->]] by lia);
      reflexivity.
  - intros m [<-|[<-|[]]]; reflexivity.
Defined.

(** *** Concrete runs of two earlier lemmas *)

Lemma load_trusts_snapshot_witness :
  let info := rit_helper "/cache" 0 true [100; 200] 6 in
  let w := world_of [] (Some (snapshot_rows 8)) [] in
  let sims := match simulations_of (snapshot_rows 8) ∅ with
              | Ok m => m
              | Raise _ => ∅
              end in
  exists w',
    load info None 10 0.7 0 w
    = (Ok {| simulations := sims; helper := caching info 0;
             catalog_verbosity := 0 |}, w') /\
    net_log w' = net_log w /\ files w' = files w /\
    snapshot w' = snapshot w.
Proof.
  intros info w sims.
  apply (load_trusts_snapshot info None 10 0.7 0 w (snapshot_rows 8) sims);
    [reflexivity
    | intros H; apply (f_equal (@length _)) in H; vm_compute in H;
      discriminate H
    | vm_compute; reflexivity
    | apply (ok_spec (simulations_of (snapshot_rows 8) ∅) ∅);
      vm_compute; reflexivity].
Defined.

Lemma cache_scans_absent_witness :
  let h := rit_helper "/cache" 0 true [100; 200] 6 in
  metadata_filename_from_cache h 2 both_families
    = (Ok EmptyString, both_families) /\
  simname_from_cache h 2 both_families = (Ok EmptyString, both_families) /\
  metadata_from_cache h 2 both_families = (Ok [], both_families).
Proof.
  intros h.
  apply (cache_scans_absent h 2 both_families "RIT:BBH:0002" "RIT:eBBH:0002");
    reflexivity.
Defined.

(* ===================================================================== *)
(** * The derived fields of a record and the gate of [load] *)
(* ===================================================================== *)

(** ** C7: the derived fields of a parsed record *)

(** *** What the line loop leaves at a derived field *)

Lemma lines_of_snoc (k : string) (lines : list string) (s : string) :
  lines_of k (lines ++ [s])
  = (lines_of k lines
     ++ if String.eqb (line_key s) k then [s] else [])%list.
Proof. unfold lines_of. now rewrite List.filter_app. Qed.

(** The value of a derived field when the loop ends is decided by the last
    line with its key: the number written there; [0.0] when that is no
    number and no earlier line has the key; the text otherwise. *)
Lemma parse_lines_derived (k : string) (lines : list string) :
  is_derived k = true ->
  parse_lines lines !! k
  = match rev (lines_of k lines) with
    | [] => None
    | s :: earlier =>
        Some match Py.float (line_text s) with
             | Ok f => VFloat f
             | Raise _ =>
                 match earlier with
                 | [] => VFloat 0
                 | _ :: _ => VStr (line_text s)
                 end
             end
    end.
Proof.
  intros Hd. induction lines as [|s lines IH] using rev_ind;
    [apply lookup_empty|].
  unfold parse_lines in *. rewrite fold_left_app. cbn [fold_left].
  rewrite lines_of_snoc.
  destruct (String.eqb_spec (line_key s) k) as [<-|Hne].
  - rewrite rev_app_distr. cbn [rev app]. rewrite parse_line_key, Hd.
    f_equal. destruct (Py.float (line_text s)) as [f|e]; [reflexivity|].
    cbn [andb]. unfold mem. rewrite IH.
    destruct (rev (lines_of (line_key s) lines)) as [|s' earlier].
    + rewrite bool_decide_eq_false_2; [reflexivity|].
      intros [v Hv]. discriminate Hv.
    + rewrite bool_decide_eq_true_2; [reflexivity | eauto].
  - rewrite app_nil_r, parse_line_lookup by congruence. exact IH.
Qed.

(** No derived field is left bound to text exactly when the last line of
    none of them is a line without a number that follows another line of
    the same key. *)
Lemma derived_text_free_spec (lines : list string) :
  derived_text_free lines = true <-> derived_numeric (parse_lines lines).
Proof.
  unfold derived_text_free. rewrite forallb_forall. split.
  - intros H k v Hd Hv. rewrite (parse_lines_derived k lines Hd) in Hv.
    specialize (H k (proj1 (is_derived_In k) Hd)). unfold ends_as_text in H.
    destruct (rev (lines_of k lines)) as [|s [|s' earlier]];
      [discriminate Hv | |]; injection Hv as <-;
      destruct (Py.float (line_text s)); try reflexivity.
    discriminate H.
  - intros H k Hk. apply is_derived_In in Hk.
    pose proof (parse_lines_derived k lines Hk) as E.
    unfold ends_as_text.
    destruct (rev (lines_of k lines)) as [|s [|s' earlier]];
      [reflexivity | reflexivity |].
    destruct (Py.float (line_text s)) as [f|e]; [reflexivity|].
    discriminate (H _ _ Hk E).
Qed.

(** The cross-derivation of the two counts never replaces a text. *)
Lemma derive_from_keeps_text src dst op (opts o' : gmap string value) k t :
  derive_from src dst op opts = Ok o' ->
  opts !! k = Some (VStr t) -> o' !! k = Some (VStr t).
Proof.
  intros H Hk. destruct (decide (k = dst)) as [->|Hne];
    [|now rewrite (derive_from_frame _ _ _ _ _ H k Hne)].
  unfold derive_from in H. destruct (mem src opts);
    [|now injection H as <-].
  assert (mem dst opts = true) as Hm by (apply mem_true; eauto).
  rewrite Hm in H. cbn [negb rbind] in H. unfold getitem in H at 1.
  rewrite Hk in H. cbn [rbind eq_zero] in H. now injection H as <-.
Qed.

(** A text the line loop leaves at a derived field is still there in the
    record that is returned. *)
Lemma parsed_text_stays (raw nxt : list string) (opts : gmap string value)
  (k t : string) :
  parse_metadata_txt raw = Ok (nxt, opts) ->
  parse_lines nxt !! k = Some (VStr t) -> opts !! k = Some (VStr t).
Proof.
  intros H Hk.
  destruct (parse_stages raw nxt opts H)
    as (o1 & o2 & o3 & _ & E1 & E2 & E3 & ->).
  destruct (spin_completion_extends _ _ E1) as [P1 _].
  destruct (fill_derived_spec o3) as (P & _).
  apply P, (derive_from_keeps_text _ _ _ _ _ _ _ E3),
    (derive_from_keeps_text _ _ _ _ _ _ _ E2), P1, Hk.
Qed.

(** C7 (as amended). [parse_metadata_txt] returns a record in which each of
    the eight derived fields is bound to a float exactly when the
    spin-completion step does not raise and the lines leave no derived field
    bound to text, that is, no derived field has as its last line a line
    whose value is no number and which follows another line of the same
    field. In a record that is returned, a derived field other than the
    orbit and cycle counts that no line binds, or that a single line binds
    with a value that is no number, is [0.0]. *)
Theorem derived_fields_numeric (raw : list string) :
  ((exists opts : gmap string value,
      parse_metadata_txt raw = Ok (List.filter keeps_line raw, opts) /\
      (forall k, In k derived_fields -> exists f, opts !! k = Some (VFloat f)))
   <->
   (is_ok (spin_completion (parse_lines (List.filter keeps_line raw))) = true /\
    derived_text_free (List.filter keeps_line raw) = true)) /\
  (forall (opts : gmap string value) (k : string),
     parse_metadata_txt raw = Ok (List.filter keeps_line raw, opts) ->
     In k derived_fields ->
     k <> "number-of-orbits" -> k <> "number-of-cycles-22" ->
     unset_or_unparseable k (List.filter keeps_line raw) = true ->
     opts !! k = Some (VFloat 0)).
Proof.
  set (nxt := List.filter keeps_line raw). split; [split|].
  - (* a record with eight floats: the two conditions hold *)
    intros (opts & Hp & Hnum). split.
    + destruct (parse_stages raw nxt opts Hp) as (o1 & _ & _ & _ & E1 & _).
      now rewrite E1.
    + apply derived_text_free_spec. intros k v Hd Hv.
      destruct v as [f|t]; [reflexivity|].
      pose proof (parsed_text_stays raw nxt opts k t Hp Hv) as Ht.
      destruct (Hnum k (proj1 (is_derived_In k) Hd)) as [f Hf]. congruence.
  - (* the two conditions: the parser returns, with eight floats *)
    intros [Hspin Hfree]. apply derived_text_free_spec in Hfree.
    destruct (parse_numeric_lines raw Hspin Hfree)
      as (o1 & o3 & E1 & Ep & N3 & F).
    exists (fill_derived o3). split; [exact Ep|].
    destruct (fill_derived_spec o3) as (_ & A & Q).
    intros k Hk. destruct (A k Hk) as [v Hv]. rewrite Hv.
    destruct (Q k v Hv) as [Hv'|[_ ->]]; [|eauto].
    apply is_derived_In in Hk. pose proof (N3 _ _ Hk Hv') as Hf.
    destruct v; [eauto | discriminate Hf].
  - (* unbound, or bound once without a number: [0.0] *)
    intros opts k Hp Hk Ho Hc Hu.
    destruct (parse_stages raw nxt opts Hp)
      as (o1 & o2 & o3 & _ & E1 & E2 & E3 & ->).
    assert (F : o3 !! k = parse_lines nxt !! k).
    { rewrite (derive_from_frame _ _ _ _ _ E3 _ Hc).
      rewrite (derive_from_frame _ _ _ _ _ E2 _ Ho).
      apply (spin_keeps_unbound _ _ _ E1). now apply derived_not_spin. }
    rewrite (parse_lines_derived k nxt (proj2 (is_derived_In k) Hk)) in F.
    unfold unset_or_unparseable in Hu.
    destruct (fill_derived_spec o3) as (P & A & Q).
    destruct (lines_of k nxt) as [|s [|s' l]]; [| |discriminate Hu].
    + cbn [rev] in F. destruct (A k Hk) as [v Hv]. rewrite Hv.
      destruct (Q k v Hv) as [Hv'|[_ ->]]; [congruence | reflexivity].
    + cbn [rev app] in F. apply P. rewrite F.
      now destruct (Py.float (line_text s)).
Qed.

(** A metadata text in which the mass is written three times, the second
    time without a number, and the eccentricity once, without a number: the
    record has eight floats, and the eccentricity is [0.0]. *)
Lemma derived_fields_numeric_witness :
  let raw := ["# RIT metadata"; "system-type = Aligned";
              "relaxed-chi1z = 0.2"; "Msun = 1"; "Msun = abc"; "Msun = 2";
              "eccentricity = unknown"; "number-of-cycles-22 = 10"] in
  (exists opts : gmap string value,
     parse_metadata_txt raw = Ok (List.filter keeps_line raw, opts) /\
     (forall k, In k derived_fields -> exists f, opts !! k = Some (VFloat f))) /\
  parsed raw !! "eccentricity" = Some (VFloat 0).
Proof.
  intros raw. split.
  - apply (proj2 (proj1 (derived_fields_numeric raw))).
    split; vm_compute; reflexivity.
  - apply (proj2 (derived_fields_numeric raw) (parsed raw) "eccentricity");
      [apply parsed_spec; vm_compute; reflexivity
      | cbn; tauto | discriminate | discriminate | vm_compute; reflexivity].
Defined.

(** C7 as stated fails: a derived field that a second line re-binds with
    text that is no number ends up bound to that text. *)
Lemma derived_field_rebound_to_text :
  parsed_field ["Msun = 1"; "Msun = abc"] "Msun" = Ok (Some (VStr "abc")).
Proof. vm_compute. reflexivity. Qed.

(** A third line with a number makes the field a float again; and a count
    that is re-bound with text stops the parser when the other count is to
    be derived from it. *)
Lemma derived_field_rebound_twice :
  (exists f, parsed_field ["Msun = 1"; "Msun = abc"; "Msun = 2"] "Msun"
             = Ok (Some (VFloat f)) /\ (f =? 2)%float = true) /\
  parse_metadata_txt ["number-of-orbits = 1"; "number-of-orbits = abc"]
  = Raise TypeError.
Proof. split; [eexists; split|]; vm_compute; reflexivity. Qed.

(** ** C3: the completeness gate of [load] *)

(** A refresh that returns has visited an index at least, and has changed
    the snapshot and the helper's table only. *)
Lemma refresh_result (h : RITCatalogHelper) (num_sims_to_crawl : Z)
  (w w' : World) (df : list (gmap string value)) :
  refresh_metadata_df_on_disk h num_sims_to_crawl w = (Ok df, w') ->
  w' = with_metadata df (with_snapshot df w) /\ 1 <= num_sims_to_crawl.
Proof.
  intros H. split.
  - unfold refresh_metadata_df_on_disk, bind in H.
    pose proof (read_only_refresh_scan h (range1 num_sims_to_crawl) None w)
      as R.
    destruct (refresh_scan h (range1 num_sims_to_crawl) None w)
      as [[[sims|]|e] w1]; cbn [snd] in R; subst w1; [|discriminate H..].
    cbn in H. now injection H as <- <-.
  - destruct (Z.le_gt_cases 1 num_sims_to_crawl) as [|Hn]; [assumption|].
    unfold refresh_metadata_df_on_disk, bind in H.
    rewrite (range1_nonpos num_sims_to_crawl) in H by lia. discriminate H.
Qed.

(** C3 (as amended). Let the snapshot read from disk be empty or hold fewer
    records than [acceptable_scraping_fraction * num_sims_to_crawl], and let
    the refresh from the cached files return a table [df1] that is still
    short of that. The refresh has made [df1] the snapshot, without a
    network call. Then [load] without the download opt-in ([None] or
    [False]) raises [ValueError] instead of returning a catalog, and the
    message names the cache's metadata directory and nothing else. With
    [download = True] it calls [download_metadata_for_catalog], which reads
    that snapshot: when [df1] has [num_sims_to_crawl - 1] rows or more,
    [load] returns the catalog of the first [num_sims_to_crawl - 1] rows of
    [df1], an incomplete table, and no network call has been made; when it
    has fewer, the crawl over the indices 1 to [num_sims_to_crawl] runs from
    [df1], and a catalog that [load] returns is the one of the table the
    crawl has persisted, which begins with [df1]. *)
Theorem load_completeness_gate (info : RITCatalogHelper)
  (download : option bool) (num_sims_to_crawl : Z) (fraction : float)
  (verb : Z) (w w1 : World) (df1 : list (gmap string value)) :
  (snapshot_table w = [] \/
   too_few (snapshot_table w) fraction num_sims_to_crawl = Ok true) ->
  refresh_metadata_df_on_disk (caching info verb) num_sims_to_crawl
    (snd (read_metadata_df_from_disk w)) = (Ok df1, w1) ->
  too_few df1 fraction num_sims_to_crawl = Ok true ->
  let run := load info download num_sims_to_crawl fraction verb w in
  snapshot w1 = Some df1 /\ net_log w1 = net_log w /\
  match download with
  | Some true =>
      if num_sims_to_crawl - 1 <=? Z.of_nat (length df1) then
        run = (catalog_of info verb (slice_to (num_sims_to_crawl - 1) df1),
               w1)
      else
        run = (let! df := crawl (caching info verb) (possible_res info)
                            (max_id_val info) df1
                            (range1 num_sims_to_crawl) in
               let! _ := set_num_of_sims (Z.of_nat (length df)) in
               lift (catalog_of info verb df)) w1 /\
        (forall c w', run = (Ok c, w') ->
           exists more,
             snapshot w' = Some (df1 ++ more)%list /\
             catalog_of info verb (df1 ++ more) = Ok c)
  | _ => run = (Raise (ValueError (not_found_message info)), w1)
  end.
Proof.
  intros Hshort Href Hstill run.
  destruct (refresh_result _ _ _ _ _ Href) as [Hw1 HN].
  split; [now rewrite Hw1|]. split; [now rewrite Hw1|].
  set (h := caching info verb) in *.
  set (w0 := snd (read_metadata_df_from_disk w)) in *.
  assert (Hrun : run
    = (let! catalog_df :=
         match download with
         | Some true => download_metadata_for_catalog h num_sims_to_crawl [] (-1)
         | _ => raise (ValueError (not_found_message info))
         end in
       lift (catalog_of info verb catalog_df)) w1).
  { subst run. unfold load. fold h. unfold bind at 1.
    change (read_metadata_df_from_disk w) with (Ok (snapshot_table w), w0).
    unfold bind at 1.
    assert (Hgo :
      (if (length (snapshot_table w) =? 0)%nat
       then refresh_metadata_df_on_disk h num_sims_to_crawl
       else
         let! short := lift (too_few (snapshot_table w) fraction
                               num_sims_to_crawl) in
         if short then refresh_metadata_df_on_disk h num_sims_to_crawl
         else ret (snapshot_table w)) w0
      = refresh_metadata_df_on_disk h num_sims_to_crawl w0).
    { destruct Hshort as [E|E]; [now rewrite E|].
      destruct (length (snapshot_table w) =? 0)%nat; [reflexivity|].
      unfold bind, lift. now rewrite E. }
    rewrite Hgo, Href. unfold bind at 1. unfold lift at 1. rewrite Hstill.
    unfold bind at 1 3. unfold catalog_of.
    destruct download as [[|]|]; cbn [raise]; try reflexivity.
    destruct (download_metadata_for_catalog h num_sims_to_crawl [] (-1) w1)
      as [[df|e] w2]; [|reflexivity].
    unfold bind, lift, ret. now destruct (simulations_of df ∅). }
  destruct download as [[|]|]; [|exact Hrun..].
  assert (Hdl : download_metadata_for_catalog h num_sims_to_crawl [] (-1) w1
    = if num_sims_to_crawl - 1 <=? Z.of_nat (length df1)
      then (Ok (slice_to (num_sims_to_crawl - 1) df1), w1)
      else (let! sims := crawl h (possible_res info) (max_id_val info) df1
                           (range1 num_sims_to_crawl) in
            let! _ := set_num_of_sims (Z.of_nat (length sims)) in
            get_metadata_df) w1).
  { unfold download_metadata_for_catalog. rewrite Hw1. subst h.
    cbn [use_cache caching possible_res max_id_val Z.leb Z.compare].
    unfold bind at 1. unfold snapshot_on_disk at 1.
    cbn [snapshot with_metadata with_snapshot]. unfold bind at 1.
    cbn [set_metadata].
    destruct (num_sims_to_crawl - 1 <=? Z.of_nat (length df1)); reflexivity. }
  destruct (num_sims_to_crawl - 1 <=? Z.of_nat (length df1)).
  - rewrite Hrun. unfold bind at 1. now rewrite Hdl.
  - assert (Hc : forall sims w2,
      crawl h (possible_res info) (max_id_val info) df1
        (range1 num_sims_to_crawl) w1 = (Ok sims, w2) ->
      (exists more, sims = (df1 ++ more)%list) /\
      helper_metadata w2 = sims /\ snapshot w2 = Some sims).
    { intros sims w2 E.
      destruct (crawl_shape _ _ _ _ _ _ _ _ E) as (Hmore & Hrest).
      destruct (Hrest (range1_nonempty _ HN)) as (Hm & Hs).
      auto. }
    assert (Heq : run
      = (let! df := crawl h (possible_res info) (max_id_val info) df1
                      (range1 num_sims_to_crawl) in
         let! _ := set_num_of_sims (Z.of_nat (length df)) in
         lift (catalog_of info verb df)) w1).
    { rewrite Hrun. unfold bind at 1. rewrite Hdl. unfold bind at 1 3.
      destruct (crawl h (possible_res info) (max_id_val info) df1
                  (range1 num_sims_to_crawl) w1) as [[sims|e] w2] eqn:E;
        [|reflexivity].
      destruct (Hc _ _ eq_refl) as (_ & Hm & _).
      unfold bind, set_num_of_sims, get_metadata_df, lift. cbn.
      now rewrite Hm. }
    split; [exact Heq|].
    intros c w' Hok. rewrite Heq in Hok. unfold bind at 1 in Hok.
    destruct (crawl h (possible_res info) (max_id_val info) df1
                (range1 num_sims_to_crawl) w1) as [[sims|e] w2] eqn:E;
      [|discriminate Hok].
    destruct (Hc _ _ eq_refl) as ([more ->] & _ & Hs).
    unfold bind, set_num_of_sims, lift in Hok. cbn in Hok.
    exists more. injection Hok as Hcat <-. cbn. auto.
Qed.

(** Three runs of [load]. The 60 records of 100, without the opt-in: the
    error. Two cached files of three, with the opt-in: the catalog of the
    two, and no network call. Two cached files of ten, with the opt-in: the
    crawl, from the two records of the refresh. *)
Lemma load_completeness_gate_witness :
  let info := rit_helper "/cache" 0 true [100; 200] 2 in
  let refreshed n w :=
    refresh_metadata_df_on_disk (caching info 0) n
      (snd (read_metadata_df_from_disk w)) in
  let table n w :=
    match fst (refreshed n w) with Ok df => df | Raise _ => [] end in
  load info None 100 0.7 0 sixty_records
  = (Raise (ValueError (not_found_message info)),
     snd (refreshed 100 sixty_records)) /\
  (load info (Some true) 3 0.7 0 two_cached_one_remote
   = (catalog_of info 0 (slice_to (3 - 1) (table 3 two_cached_one_remote)),
      snd (refreshed 3 two_cached_one_remote)) /\
   net_log (snd (refreshed 3 two_cached_one_remote)) = []) /\
  (forall c w',
     load info (Some true) 10 0.7 0 two_cached_one_remote = (Ok c, w') ->
     exists more,
       snapshot w' = Some (table 10 two_cached_one_remote ++ more)%list /\
       catalog_of info 0 (table 10 two_cached_one_remote ++ more) = Ok c).
Proof.
  intros info refreshed table. split; [|split].
  - apply (load_completeness_gate info None 100 0.7 0 sixty_records
             (snd (refreshed 100 sixty_records)) (table 100 sixty_records));
      [right; vm_compute; reflexivity
      | apply (run_spec (refreshed 100 sixty_records) []);
        vm_compute; reflexivity
      | vm_compute; reflexivity].
  - assert (E : (3 - 1 <=? Z.of_nat (length (table 3 two_cached_one_remote)))
                = true) by (vm_compute; reflexivity).
    pose proof (load_completeness_gate info (Some true) 3 0.7 0
                  two_cached_one_remote
                  (snd (refreshed 3 two_cached_one_remote))
                  (table 3 two_cached_one_remote)
                  (or_introl eq_refl)
                  (run_spec (refreshed 3 two_cached_one_remote) []
                     ltac:(vm_compute; reflexivity))
                  ltac:(vm_compute; reflexivity)) as H.
    cbv zeta in H. rewrite E in H. destruct H as (_ & Hn & H).
    split; [exact H | exact Hn].
  - assert (E : (10 - 1 <=? Z.of_nat (length (table 10 two_cached_one_remote)))
                = false) by (vm_compute; reflexivity).
    pose proof (load_completeness_gate info (Some true) 10 0.7 0
                  two_cached_one_remote
                  (snd (refreshed 10 two_cached_one_remote))
                  (table 10 two_cached_one_remote)
                  (or_introl eq_refl)
                  (run_spec (refreshed 10 two_cached_one_remote) []
                     ltac:(vm_compute; reflexivity))
                  ltac:(vm_compute; reflexivity)) as H.
    cbv zeta in H. rewrite E in H. destruct H as (_ & _ & _ & H). exact H.
Defined.

(** C3 as stated fails in its last two parts. With 60 records of 100 and
    the fraction 0.7 (70 required) the error raised is the message below,
    which names the cache directory and neither the observed nor the
    expected count. And with two cached files of three, which is short of
    0.7 * 3, and [download = True], no crawl takes place: [load] returns
    the catalog of the two simulations without a network call, though the
    archive holds the third. *)
Lemma load_names_no_counts_and_may_not_crawl :
  let info := rit_helper "/cache" 0 true [100; 200] 2 in
  let msg := "Catalog not found in /cache/metadata. Please set `download=True`" in
  let run := load info (Some true) 3 0.7 0 two_cached_one_remote in
  (fst (load info None 100 0.7 0 sixty_records) = Raise (ValueError msg) /\
   Py.contains "60" msg = false /\
   Py.contains "70" msg = false /\
   Py.contains "100" msg = false /\
   Py.find_char Py.is_digit msg = None) /\
  (too_few (snapshot_rows 2) 0.7 3 = Ok true /\
   match fst run with
   | Ok c =>
       size (simulations c) = 2%nat /\
       simulations c !! "RIT:BBH:0003-n100-id0" = None
   | Raise _ => False
   end /\
   net_log (snd run) = [] /\
   is_Some (assoc "https://ccrgpages.rit.edu/~RITCatalog/Metadata/RIT:BBH:0003-n100-id0_Metadata.txt"
              (remote (snd run)))).
Proof. vm_compute. repeat split; try reflexivity. eauto. Qed.
